(** * xs: a small-string-optimised, copy-on-write string (src/xs.c)

    A shallow embedding of the [xs] union and of the functions that operate
    on it, followed by the properties of the code.

    Layout.  [xs] is a 16-byte union.  The code relies on the x86-64 SysV
    layout (its own comment: "use the last byte as a null terminator and to
    store flags"): bytes 0..7 are [data[0..7]] and, in the heap view, [ptr];
    bytes 8..15 form one little-endian 64-bit unit holding, from bit 0,
    [size] (54 bits) and [capacity] (6 bits); byte 15, i.e. bits 56..63 of
    that unit, holds [space_left] (4 bits), [is_ptr], [is_large_string],
    [flag2], [flag3].  [space_left] therefore overlays the upper four bits of
    [capacity].  A value is modelled as the pair of its two 64-bit words.

    Memory.  Heap blocks hold cells; a cell is [Some b] for a byte [b]
    (unsigned, 0..255) or [None] for a byte that was never written
    (malloc returns indeterminate storage).  Operations return [UB] where the
    C program has undefined behaviour (access outside a block, realloc or
    free of a pointer that is not a live block, signed overflow, a used
    function value that was never returned). *)

From stdpp Require Import gmap list.
From Stdlib Require Import ZArith Lia.
From Stdlib Require String Ascii.
Import String.StringSyntax.
Delimit Scope string_scope with string.
Open Scope Z_scope.

(** ** Results of C computations *)

Inductive result (A : Type) : Type :=
| Ok (a : A)
| UB.
Arguments Ok {A} a.
Arguments UB {A}.

Definition bind {A B : Type} (m : result A) (k : A -> result B) : result B :=
  match m with
  | Ok a => k a
  | UB => UB
  end.

Notation "x <- m ;; k" := (bind m (fun x => k))
  (at level 20, m at level 99, k at level 200, only parsing).
Notation "' p <- m ;; k" := (bind m (fun x => match x with p => k end))
  (at level 20, p pattern, m at level 99, k at level 200, only parsing).

(** ** Bit-fields of a 64-bit unit *)

Definition getf (off len w : Z) : Z := Z.land (Z.shiftr w off) (Z.ones len).

Definition setf (off len v w : Z) : Z :=
  Z.lor (Z.ldiff w (Z.shiftl (Z.ones len) off))
        (Z.shiftl (Z.land v (Z.ones len)) off).

(** ** The heap *)

Abbreviation cell := (option Z).

Record heap : Type := mkheap {
  blocks : gmap Z (list cell);   (* live blocks, by base address *)
  brk : Z                        (* next address handed out *)
}.

Definition heap_empty : heap := mkheap ∅ 4096.

Definition alloc (cs : list cell) (h : heap) : Z * heap :=
  let a := brk h in
  (a, mkheap (<[a := cs]> (blocks h)) (a + 16 * (Z.of_nat (length cs) / 16 + 1))).

(** [malloc] always succeeds here (the code never checks its result) and
    returns indeterminate storage. *)
Definition malloc (sz : Z) (h : heap) : Z * heap :=
  alloc (replicate (Z.to_nat sz) None) h.

Definition free (p : Z) (h : heap) : result heap :=
  if p =? 0 then Ok h
  else match blocks h !! p with
       | Some _ => Ok (mkheap (delete p (blocks h)) (brk h))
       | None => UB
       end.

(** [realloc(NULL, sz)] is [malloc(sz)]; otherwise the block moves, keeping
    its first [min old sz] cells. *)
Definition realloc (p sz : Z) (h : heap) : result (Z * heap) :=
  if p =? 0 then Ok (malloc sz h)
  else match blocks h !! p with
       | Some old =>
           Ok (alloc (resize (Z.to_nat sz) None old)
                     (mkheap (delete p (blocks h)) (brk h)))
       | None => UB
       end.

(** ** The [xs] union *)

Record xs : Type := mkxs {
  lo : Z;   (* bytes 0..7: data[0..7], or ptr *)
  hi : Z    (* bytes 8..15: data[8..15], or size/capacity/flags *)
}.

Definition get_ptr (x : xs) : Z := lo x.
Definition set_ptr (x : xs) (p : Z) : xs := mkxs p (hi x).

Definition get_size (x : xs) : Z := getf 0 54 (hi x).
Definition set_size (x : xs) (v : Z) : xs := mkxs (lo x) (setf 0 54 v (hi x)).

Definition get_capacity (x : xs) : Z := getf 54 6 (hi x).
Definition set_capacity (x : xs) (v : Z) : xs := mkxs (lo x) (setf 54 6 v (hi x)).

Definition get_space_left (x : xs) : Z := getf 56 4 (hi x).
Definition set_space_left (x : xs) (v : Z) : xs := mkxs (lo x) (setf 56 4 v (hi x)).

Definition get_is_ptr (x : xs) : Z := getf 60 1 (hi x).
Definition set_is_ptr (x : xs) (v : Z) : xs := mkxs (lo x) (setf 60 1 v (hi x)).

Definition get_is_large_string (x : xs) : Z := getf 61 1 (hi x).
Definition set_is_large_string (x : xs) (v : Z) : xs :=
  mkxs (lo x) (setf 61 1 v (hi x)).

(** [data[i]], for 0 <= i < 16. *)
Definition get_byte (x : xs) (i : Z) : Z :=
  if i <? 8 then getf (8 * i) 8 (lo x) else getf (8 * (i - 8)) 8 (hi x).

Definition set_byte (x : xs) (i b : Z) : xs :=
  if i <? 8 then mkxs (setf (8 * i) 8 b (lo x)) (hi x)
  else mkxs (lo x) (setf (8 * (i - 8)) 8 b (hi x)).

(** ** Pointers to bytes

    A [char *] of the program points either into the 16 bytes of an [xs]
    object (every such pointer comes from [xs_data] of a known object, its
    owner) or into a heap block. *)

Inductive cptr : Type :=
| Self (off : Z)
| Buf (base off : Z).

Definition padd (p : cptr) (n : Z) : cptr :=
  match p with
  | Self off => Self (off + n)
  | Buf base off => Buf base (off + n)
  end.

Fixpoint store_self (x : xs) (off : Z) (cs : list cell) : result xs :=
  match cs with
  | [] => Ok x
  | Some b :: cs' => store_self (set_byte x off b) (off + 1) cs'
  | None :: _ => UB
  end.

(** Read [n] cells at [p]; [owner] is the object a [Self] pointer points into. *)
Definition loadn (owner : xs) (h : heap) (p : cptr) (n : Z) : result (list cell) :=
  match p with
  | Self off =>
      if (0 <=? off) && (0 <=? n) && (off + n <=? 16)
      then Ok (map (fun i => Some (get_byte owner i)) (seqZ off n))
      else UB
  | Buf base off =>
      match blocks h !! base with
      | Some blk =>
          if (0 <=? off) && (0 <=? n) && (off + n <=? Z.of_nat (length blk))
          then Ok (take (Z.to_nat n) (drop (Z.to_nat off) blk))
          else UB
      | None => UB
      end
  end.

(** Write [cs] at [p]; returns the owner (changed when [p] points into it)
    and the heap. *)
Definition storen (owner : xs) (h : heap) (p : cptr) (cs : list cell)
  : result (xs * heap) :=
  let n := Z.of_nat (length cs) in
  match p with
  | Self off =>
      if (0 <=? off) && (off + n <=? 16)
      then x <- store_self owner off cs ;; Ok (x, h)
      else UB
  | Buf base off =>
      match blocks h !! base with
      | Some blk =>
          if (0 <=? off) && (off + n <=? Z.of_nat (length blk))
          then Ok (owner,
                   mkheap (<[base := take (Z.to_nat off) blk ++ cs
                                       ++ drop (Z.to_nat (off + n)) blk]> (blocks h))
                          (brk h))
          else UB
      | None => UB
      end
  end.

(** [memcpy(dst, src, n)] and [memmove(dst, src, n)]: the source is read
    whole before the destination is written. *)
Definition memcpy (downer : xs) (dst : cptr) (sowner : xs) (src : cptr) (n : Z)
    (h : heap) : result (xs * heap) :=
  cs <- loadn sowner h src n ;;
  storen downer h dst cs.

Definition memmove := memcpy.

(** [memcpy(dst, p, n)] from a caller's array [p]. *)
Definition memcpy_arr (downer : xs) (dst : cptr) (p : list Z) (n : Z) (h : heap)
  : result (xs * heap) :=
  if (0 <=? n) && (n <=? Z.of_nat (length p))
  then storen downer h dst (map Some (take (Z.to_nat n) p))
  else UB.

(** A C string is given by the bytes of the array it lives in. *)
Fixpoint strlen (s : list Z) : result Z :=
  match s with
  | [] => UB
  | c :: s' => if c =? 0 then Ok 0 else n <- strlen s' ;; Ok (n + 1)
  end.

(** ** An [int] stored in memory (the reference count) *)

Definition INT_MAX : Z := 2147483647.
Definition INT_MIN : Z := -2147483648.

Definition bytes_of_int (v : Z) : list Z :=
  [getf 0 8 v; getf 8 8 v; getf 16 8 v; getf 24 8 v].

Definition int_of_bytes (b0 b1 b2 b3 : Z) : Z :=
  let u := b0 + 256 * b1 + 65536 * b2 + 16777216 * b3 in
  if u <? 2147483648 then u else u - 4294967296.

Definition load_int (base : Z) (h : heap) : result Z :=
  cs <- loadn (mkxs 0 0) h (Buf base 0) 4 ;;
  match cs with
  | [Some b0; Some b1; Some b2; Some b3] => Ok (int_of_bytes b0 b1 b2 b3)
  | _ => UB
  end.

Definition store_int (base v : Z) (h : heap) : result heap :=
  '(_, h') <- storen (mkxs 0 0) h (Buf base 0) (map Some (bytes_of_int v)) ;;
  Ok h'.

(** ** Accessors (xs.c, lines 43-90) *)

Definition xs_is_ptr (x : xs) : bool := negb (get_is_ptr x =? 0).

Definition xs_is_large_string (x : xs) : bool := negb (get_is_large_string x =? 0).

Definition xs_size (x : xs) : Z :=
  if xs_is_ptr x then get_size x else 15 - get_space_left x.

Definition xs_data (x : xs) : cptr :=
  if negb (xs_is_ptr x) then Self 0
  else if xs_is_large_string x then Buf (get_ptr x) 4
  else Buf (get_ptr x) 0.

Definition xs_capacity (x : xs) : Z :=
  if xs_is_ptr x then Z.shiftl 1 (get_capacity x) - 1 else 15.

Definition xs_set_ref_count (x : xs) (val : Z) (h : heap) : result heap :=
  store_int (get_ptr x) val h.

Definition xs_inc_ref_count (x : xs) (h : heap) : result heap :=
  if xs_is_large_string x then
    c <- load_int (get_ptr x) h ;;
    if c =? INT_MAX then UB else store_int (get_ptr x) (c + 1) h
  else Ok h.

Definition xs_dec_ref_count (x : xs) (h : heap) : result (Z * heap) :=
  if negb (xs_is_large_string x) then Ok (0, h)
  else
    c <- load_int (get_ptr x) h ;;
    if c =? INT_MIN then UB
    else h' <- store_int (get_ptr x) (c - 1) h ;; Ok (c - 1, h').

Definition xs_get_ref_count (x : xs) (h : heap) : result Z :=
  if negb (xs_is_large_string x) then Ok 0
  else load_int (get_ptr x) h.

(** [(xs) { .space_left = 15 }] *)
Definition xs_literal_empty : xs := set_space_left (mkxs 0 0) 15.

(** [32 - __builtin_clz(n) - 1] on a [uint32_t]; [__builtin_clz(0)] is
    undefined. *)
Definition ilog2 (n : Z) : result Z :=
  let n32 := n mod 2 ^ 32 in
  if n32 =? 0 then UB else Ok (Z.log2 n32).

(** ** Allocation (xs.c, lines 100-119) *)

Definition LARGE_STRING_LEN : Z := 256.

(** [1 << k] on [int]: defined only while the result is representable. *)
Definition shl_int (k : Z) : result Z :=
  if k <? 31 then Ok (Z.shiftl 1 k) else UB.

Definition xs_allocate_data (x : xs) (len : Z) (reallocate : bool) (h : heap)
  : result (xs * heap) :=
  if len <? LARGE_STRING_LEN then
    (* Medium string *)
    let sz := Z.shiftl 1 (get_capacity x) in
    '(p, h) <- (if reallocate then realloc (get_ptr x) sz h
                else Ok (malloc sz h)) ;;
    Ok (set_ptr x p, h)
  else
    (* Large string *)
    let x := set_is_large_string x 1 in
    s <- shl_int (get_capacity x) ;;
    let sz := s + 4 in
    '(p, h) <- (if reallocate then realloc (get_ptr x) sz h
                else Ok (malloc sz h)) ;;
    let x := set_ptr x p in
    h <- xs_set_ref_count x 1 h ;;
    Ok (x, h).

(** ** Construction (xs.c, lines 121-136) *)

Definition xs_new (p : list Z) (h : heap) : result (xs * heap) :=
  let x := xs_literal_empty in
  n <- strlen p ;;
  let len := n + 1 in
  if 16 <? len then
    lg <- ilog2 len ;;
    let x := set_capacity x (lg + 1) in
    let x := set_size x (len - 1) in
    let x := set_is_ptr x 1 in
    '(x, h) <- xs_allocate_data x (get_size x) false h ;;
    memcpy_arr x (xs_data x) p len h
  else
    '(x, h) <- memcpy_arr x (Self 0) p len h ;;
    Ok (set_space_left x (15 - (len - 1)), h).

(** ** Growth (xs.c, lines 149-170) *)

Definition xs_grow (x : xs) (len : Z) (h : heap) : result (xs * heap) :=
  if len <=? xs_capacity x then Ok (x, h)
  else
    (* Backup first *)
    let buf := if negb (xs_is_ptr x) then loadn x h (Self 0) 16 else UB in
    let x := set_is_ptr x 1 in
    lg <- ilog2 len ;;
    let x := set_capacity x (lg + 1) in
    if xs_is_ptr x then
      xs_allocate_data x len true h
    else
      '(x, h) <- xs_allocate_data x len false h ;;
      cs <- buf ;;
      storen x h (xs_data x) cs.

(** ** Release (xs.c, lines 172-183) *)

Definition xs_newempty : xs := xs_literal_empty.

Definition xs_free (x : xs) (h : heap) : result (xs * heap) :=
  h <- (if xs_is_ptr x then
          '(c, h) <- xs_dec_ref_count x h ;;
          if c <=? 0 then free (get_ptr x) h else Ok h
        else Ok h) ;;
  Ok (xs_newempty, h).

(** ** Copy on write (xs.c, lines 185-202)

    The C function is declared [bool] but its copying path reaches the
    closing brace without a [return]: the call then has no value.  The first
    component of the result is the value of the call, [None] on that path.
    The [char **data] parameter is [Some] pointer or [None] for NULL. *)

Definition xs_cow_lazy_copy (x : xs) (data : option cptr) (h : heap)
  : result (option bool * xs * option cptr * heap) :=
  c <- xs_get_ref_count x h ;;
  if c <=? 1 then Ok (Some false, x, data, h)
  else
    (* Lazy copy *)
    let old := x in
    '(_, h) <- xs_dec_ref_count x h ;;
    '(x, h) <- xs_allocate_data x (get_size x) false h ;;
    match data with
    | Some d =>
        '(x, h) <- memcpy x (xs_data x) old d (get_size x) h ;;
        (* Update the newly allocated pointer *)
        Ok (None, x, Some (xs_data x), h)
    | None => Ok (None, x, None, h)
    end.

(** ** Concatenation (xs.c, lines 204-235)

    [prefix] and [suffix] are [const] objects distinct from [string], as in
    every caller; their heap buffers may be shared with [string]'s. *)

Definition xs_concat (string prefix suffix : xs) (h : heap) : result (xs * heap) :=
  let pres := xs_size prefix in
  let sufs := xs_size suffix in
  let size := xs_size string in
  let capacity := xs_capacity string in
  let pre := xs_data prefix in
  let suf := xs_data suffix in
  let data := xs_data string in
  '(_, string, data', h) <- xs_cow_lazy_copy string (Some data) h ;;
  let data := default data data' in
  if size + pres + sufs <=? capacity then
    '(string, h) <- memmove string (padd data pres) string data size h ;;
    '(string, h) <- memcpy string data prefix pre pres h ;;
    '(string, h) <- memcpy string (padd data (pres + size)) suffix suf (sufs + 1) h ;;
    if xs_is_ptr string
    then Ok (set_size string (size + pres + sufs), h)
    else Ok (set_space_left string (15 - (size + pres + sufs)), h)
  else
    let tmps := xs_literal_empty in
    '(tmps, h) <- xs_grow tmps (size + pres + sufs) h ;;
    let tmpdata := xs_data tmps in
    '(tmps, h) <- memcpy tmps (padd tmpdata pres) string data size h ;;
    '(tmps, h) <- memcpy tmps tmpdata prefix pre pres h ;;
    '(tmps, h) <- memcpy tmps (padd tmpdata (pres + size)) suffix suf (sufs + 1) h ;;
    '(_, h) <- xs_free string h ;;
    let string := tmps in
    Ok (set_size string (size + pres + sufs), h).

(** ** Trimming (xs.c, lines 237-282) *)

(** [mask[(uint8_t) byte / 8] & 1 << (uint8_t) byte % 8] *)
Definition check_bit (mask : list Z) (byte : Z) : bool :=
  negb (Z.land (default 0 (mask !! Z.to_nat (byte / 8)))
               (Z.shiftl 1 (byte mod 8)) =? 0).

(** [mask[(uint8_t) byte / 8] |= 1 << (uint8_t) byte % 8] *)
Definition set_bit (mask : list Z) (byte : Z) : list Z :=
  <[Z.to_nat (byte / 8) :=
      Z.lor (default 0 (mask !! Z.to_nat (byte / 8)))
            (Z.shiftl 1 (byte mod 8)) mod 256]> mask.

(** [uint8_t mask[32] = {0}] followed by the loop over [trimset[0..trimlen)] *)
Definition build_mask (trimset : list Z) (trimlen : Z) : list Z :=
  foldl set_bit (replicate 32 0) (take (Z.to_nat trimlen) trimset).

(** A byte read and then tested must have a value. *)
Definition load_byte (owner : xs) (h : heap) (p : cptr) : result Z :=
  cs <- loadn owner h p 1 ;;
  match cs with
  | [Some b] => Ok b
  | _ => UB
  end.

(** [for (i = 0; i < slen; i++) if (!check_bit(dataptr[i])) break;]
    with [n] the number of iterations left, [slen - i]. *)
Fixpoint scan_fwd (x : xs) (h : heap) (mask : list Z) (dataptr : cptr)
    (n : nat) (i : Z) : result Z :=
  match n with
  | O => Ok i
  | S n' =>
      b <- load_byte x h (padd dataptr i) ;;
      if negb (check_bit mask b) then Ok i
      else scan_fwd x h mask dataptr n' (i + 1)
  end.

(** [for (; slen > 0; slen--) if (!check_bit(dataptr[slen - 1])) break;]
    with [n] the current [slen]. *)
Fixpoint scan_bwd (x : xs) (h : heap) (mask : list Z) (dataptr : cptr)
    (n : nat) : result Z :=
  match n with
  | O => Ok 0
  | S n' =>
      b <- load_byte x h (padd dataptr (Z.of_nat n')) ;;
      if negb (check_bit mask b) then Ok (Z.of_nat n)
      else scan_bwd x h mask dataptr n'
  end.

Definition xs_trim (x : xs) (trimset : list Z) (h : heap) : result (xs * heap) :=
  match trimset with
  | [] => UB
  | t0 :: _ =>
      if t0 =? 0 then Ok (x, h)
      else
        let dataptr := xs_data x in
        let orig := dataptr in
        '(r, x, dataptr', h) <- xs_cow_lazy_copy x (Some dataptr) h ;;
        let dataptr := default dataptr dataptr' in
        orig <- match r with
                | Some true => Ok dataptr
                | Some false => Ok orig
                | None => UB
                end ;;
        let slen := xs_size x in
        trimlen <- strlen trimset ;;
        let mask := build_mask trimset trimlen in
        i <- scan_fwd x h mask dataptr (Z.to_nat slen) 0 ;;
        slen <- scan_bwd x h mask dataptr (Z.to_nat slen) ;;
        let dataptr := padd dataptr i in
        let slen := (slen - i) mod 2 ^ 64 in
        '(x, h) <- memmove x orig x dataptr slen h ;;
        (* do not dirty memory unless it is needed *)
        c <- loadn x h (padd orig slen) 1 ;;
        '(x, h) <- match c with
                   | [Some 0] => Ok (x, h)
                   | _ => storen x h (padd orig slen) [Some 0]
                   end ;;
        if xs_is_ptr x
        then Ok (set_size x slen, h)
        else Ok (set_space_left x (15 - slen), h)
  end.

(** ** Copy (xs.c, lines 284-303): [*dest = *src], then per tier *)

Definition xs_copy (src : xs) (h : heap) : result (xs * heap) :=
  let dest := src in
  if negb (xs_is_ptr src) then Ok (dest, h)
  else if xs_is_large_string src then
    (* CoW: simply increase the reference count *)
    h <- xs_inc_ref_count src h ;;
    Ok (dest, h)
  else
    (* Medium string *)
    let '(p, h) := malloc (Z.shiftl 1 (get_capacity src)) h in
    let dest := set_ptr dest p in
    memcpy dest (Buf (get_ptr dest) 0) src (Buf (get_ptr src) 0) (get_size src) h.

(** ** Observations *)

(** The content of a value: the [xs_size] cells at [xs_data]. *)
Definition xs_content (x : xs) (h : heap) : result (list cell) :=
  loadn x h (xs_data x) (xs_size x).

(** The cell at index [xs_size] of [xs_data] (where the terminator belongs). *)
Definition xs_terminator (x : xs) (h : heap) : result (list cell) :=
  loadn x h (padd (xs_data x) (xs_size x)) 1.

(** The bytes of a string literal, with its terminating NUL. *)
Definition cstr (s : String.string) : list Z :=
  map (fun a => Z.of_N (Ascii.N_of_ascii a)) (String.list_ascii_of_string s) ++ [0].

Definition bytes (s : String.string) : list cell :=
  map (fun a => Some (Z.of_N (Ascii.N_of_ascii a))) (String.list_ascii_of_string s).

Arguments cstr s%_string.
Arguments bytes s%_string.

(** ** Notions used in the statements *)

(** The three storage tiers, read from the two flag bits. *)
Inductive tier : Type := Inline | ExclusiveHeap | SharedHeap.

Definition xs_tier (x : xs) : tier :=
  if negb (xs_is_ptr x) then Inline
  else if xs_is_large_string x then SharedHeap
  else ExclusiveHeap.

(** [k] is the least exponent with [2^k - 1 >= n]. *)
Definition min_exponent (k n : Z) : Prop :=
  n <= 2 ^ k - 1 /\ forall j, 0 <= j -> n <= 2 ^ j - 1 -> k <= j.

(** The heap with the block at [b] replaced. *)
Definition upd (b : Z) (blk : list cell) (h : heap) : heap :=
  mkheap (<[b := blk]> (blocks h)) (brk h).

(** A block with its first four cells holding the [int] [v]. *)
Definition set_hdr (v : Z) (blk : list cell) : list cell :=
  map Some (bytes_of_int v) ++ drop 4 blk.

(** The data area of the block at [p]: everything after the 4-byte header. *)
Definition data_area (p : Z) (h : heap) : option (list cell) :=
  drop 4 <$> blocks h !! p.

(** [v] is a Shared-heap value whose header reads [c] in [h]. *)
Definition shared_with_count (v : xs) (h : heap) (c : Z) : Prop :=
  xs_tier v = SharedHeap /\ load_int (get_ptr v) h = Ok c.

(** What [xs_free] needs of its argument: a heap-backed value points to a
    live block, and a Shared-heap one has a header count of at least 1. *)
Definition live (v : xs) (h : heap) : Prop :=
  match xs_tier v with
  | Inline => True
  | ExclusiveHeap => get_ptr v <> 0 /\ is_Some (blocks h !! get_ptr v)
  | SharedHeap =>
      get_ptr v <> 0 /\
      exists c, 1 <= c <= INT_MAX /\ load_int (get_ptr v) h = Ok c
  end.

(** The effect of [xs_free v] on the heap, by tier. *)
Definition released (v : xs) (h h' : heap) : Prop :=
  match xs_tier v with
  | Inline => h' = h
  | ExclusiveHeap => blocks h' = delete (get_ptr v) (blocks h)
  | SharedHeap =>
      exists c, load_int (get_ptr v) h = Ok c /\
        if c =? 1 then blocks h' = delete (get_ptr v) (blocks h)
        else load_int (get_ptr v) h' = Ok (c - 1) /\
             is_Some (blocks h' !! get_ptr v) /\
             data_area (get_ptr v) h' = data_area (get_ptr v) h
  end.

(** The value built by the heap branch of [xs_new], before allocation. *)
Definition new_header (n : Z) : xs :=
  set_is_ptr (set_size (set_capacity xs_literal_empty (Z.log2 (n + 1) + 1)) n) 1.

(** [m] calls [xs_copy(&dest, &src)], each into a destination of its own. *)
Fixpoint clone_n (m : nat) (src : xs) (h : heap) : result (list xs * heap) :=
  match m with
  | O => Ok ([], h)
  | S m' =>
      '(d, h) <- xs_copy src h ;;
      '(ds, h) <- clone_n m' src h ;;
      Ok (d :: ds, h)
  end.

(** [xs_free(&vs[i])] for the indices [i] of [idx], in order. *)
Fixpoint release_at (idx : list nat) (vs : list xs) (h : heap)
  : result (list xs * heap) :=
  match idx with
  | [] => Ok (vs, h)
  | i :: idx' =>
      match vs !! i with
      | Some x => '(x', h) <- xs_free x h ;; release_at idx' (<[i := x']> vs) h
      | None => UB
      end
  end.

(** The value and heap after [xs_new(&v, s)], 300 times 'x', on the empty
    heap. *)
Definition x300 : xs :=
  match xs_new (replicate 300 120 ++ [0]) heap_empty with
  | Ok (v, _) => v
  | UB => xs_literal_empty
  end.

Definition h300 : heap :=
  match xs_new (replicate 300 120 ++ [0]) heap_empty with
  | Ok (_, h) => h
  | UB => heap_empty
  end.

(** ** Buffers, contents and the allocator's invariant *)

(** The values of an [unsigned char]. *)
Definition is_byte (b : Z) : Prop := 0 <= b < 256.

(** The 16 bytes of the union. *)
Definition self_cells (v : xs) : list cell :=
  map (fun i => Some (get_byte v i)) (seqZ 0 16).

(** The cells available at [xs_data v]: the union itself, or the block
    from the data pointer on. *)
Definition region (v : xs) (h : heap) : option (list cell) :=
  match xs_data v with
  | Self _ => Some (self_cells v)
  | Buf b off => drop (Z.to_nat off) <$> blocks h !! b
  end.

(** [cs] written over [r] from index [i]. *)
Definition splice (i : nat) (cs r : list cell) : list cell :=
  take i r ++ cs ++ drop (i + length cs) r.

(** [v] holds the bytes [c]: its buffer has room for [xs_capacity v] bytes
    and a terminator, and starts with [c]. *)
Definition has_content (v : xs) (h : heap) (c : list Z) : Prop :=
  exists r, region v h = Some r /\
    Z.of_nat (length r) = xs_capacity v + 1 /\
    xs_size v = Z.of_nat (length c) /\
    Z.of_nat (length c) <= xs_capacity v /\
    take (length c) r = map Some c /\
    Forall is_byte c.

(** The cell after the content of [v] holds 0. *)
Definition terminated (v : xs) (h : heap) : Prop :=
  exists r, region v h = Some r /\ r !! Z.to_nat (xs_size v) = Some (Some 0).

(** [v] and [w] do not use the same heap block. *)
Definition separate (v w : xs) : Prop :=
  xs_is_ptr v = true -> xs_is_ptr w = true -> get_ptr v <> get_ptr w.

(** [v] is the only user of its buffer. *)
Definition unshared (v : xs) (h : heap) : Prop :=
  xs_is_large_string v = false \/ load_int (get_ptr v) h = Ok 1.

(** Live blocks lie strictly between NULL and the break. *)
Definition heap_ok (h : heap) : Prop :=
  0 < brk h /\ forall b, is_Some (blocks h !! b) -> 0 < b < brk h.

(** [heap_ok], computed. *)
Definition heap_okb (h : heap) : bool :=
  (0 <? brk h) &&
  forallb (fun b => (0 <? b) && (b <? brk h)) (map fst (map_to_list (blocks h))).

(** [xs_concat] after its call of [xs_cow_lazy_copy]. *)
Definition concat_body (string : xs) (data : cptr) (size capacity : Z)
    (prefix suffix : xs) (h : heap) : result (xs * heap) :=
  let pres := xs_size prefix in
  let sufs := xs_size suffix in
  let pre := xs_data prefix in
  let suf := xs_data suffix in
  if size + pres + sufs <=? capacity then
    '(string, h) <- memmove string (padd data pres) string data size h ;;
    '(string, h) <- memcpy string data prefix pre pres h ;;
    '(string, h) <- memcpy string (padd data (pres + size)) suffix suf (sufs + 1) h ;;
    if xs_is_ptr string
    then Ok (set_size string (size + pres + sufs), h)
    else Ok (set_space_left string (15 - (size + pres + sufs)), h)
  else
    let tmps := xs_literal_empty in
    '(tmps, h) <- xs_grow tmps (size + pres + sufs) h ;;
    let tmpdata := xs_data tmps in
    '(tmps, h) <- memcpy tmps (padd tmpdata pres) string data size h ;;
    '(tmps, h) <- memcpy tmps tmpdata prefix pre pres h ;;
    '(tmps, h) <- memcpy tmps (padd tmpdata (pres + size)) suffix suf (sufs + 1) h ;;
    '(_, h) <- xs_free string h ;;
    let string := tmps in
    Ok (set_size string (size + pres + sufs), h).

(** [l] without its leading elements that satisfy [m]. *)
Fixpoint lstrip (m : Z -> bool) (l : list Z) : list Z :=
  match l with
  | [] => []
  | b :: l' => if m b then lstrip m l' else l
  end.

(** [l] without its trailing elements that satisfy [m]. *)
Definition rstrip (m : Z -> bool) (l : list Z) : list Z :=
  reverse (lstrip m (reverse l)).

(** [l] without both. *)
Definition strip (m : Z -> bool) (l : list Z) : list Z := rstrip m (lstrip m l).

(** The number of leading elements of [l] that satisfy [m]. *)
Fixpoint lead (m : Z -> bool) (l : list Z) : nat :=
  match l with
  | [] => 0
  | b :: l' => if m b then S (lead m l') else 0
  end.

(** ** Client programs used below

    Sequences of calls of the public functions, as a caller would write
    them; each is the concrete input of one of the evaluation theorems. *)

(** A 300-byte source: "ab" followed by 298 times 'x'. *)
Definition ab_x298 : list Z := [97; 98] ++ replicate 298 120 ++ [0].

(** [xs_new(&a, "abxx...x"); xs_trim(&a, "x"); xs_copy(&b, &a);]
    leaves [a] and [b] aliasing one Shared-heap buffer holding "ab". *)
Definition short_shared_pair : result (xs * xs * heap) :=
  '(a, h) <- xs_new ab_x298 heap_empty ;;
  '(a, h) <- xs_trim a (cstr "x") h ;;
  '(b, h) <- xs_copy a h ;;
  Ok (a, b, h).

(** What is observed of a pair of values: content and reference count of
    each. *)
Definition observe2 (a b : xs) (h : heap)
  : result (list cell) * result Z * result (list cell) * result Z :=
  (xs_content a h, xs_get_ref_count a h, xs_content b h, xs_get_ref_count b h).

(** [... xs_concat(&b, "(", ")")] on the alias [b]. *)
Definition concat_short_shared
  : result (bool * bool * option (list cell)
            * (result (list cell) * result Z * result (list cell) * result Z)) :=
  '(a, b, h) <- short_shared_pair ;;
  '(pre, h) <- xs_new (cstr "(") h ;;
  '(suf, h) <- xs_new (cstr ")") h ;;
  '(b, h) <- xs_concat b pre suf h ;;
  Ok (xs_is_ptr b, xs_is_large_string b,
      take 4 <$> blocks h !! get_ptr b,
      observe2 a b h).

(** [... xs_concat(&b, p, s)] with [p] 254 times 'p' and [s] 254 times 's'. *)
Definition concat_short_shared_near_capacity : result (xs * heap) :=
  '(a, b, h) <- short_shared_pair ;;
  '(pre, h) <- xs_new (replicate 254 112 ++ [0]) h ;;
  '(suf, h) <- xs_new (replicate 254 115 ++ [0]) h ;;
  xs_concat b pre suf h.

(** [xs_new(&a, "abxx...x"); xs_copy(&b, &a); xs_trim(&b, "x");] *)
Definition trim_shared : result (xs * heap) :=
  '(a, h) <- xs_new ab_x298 heap_empty ;;
  '(b, h) <- xs_copy a h ;;
  xs_trim b (cstr "x") h.

(** [xs_new(&v, s); xs_concat(&v, xs_tmp(pre), xs_tmp(suf));] *)
Definition concat_of (s pre suf : list Z) : result (list cell * Z) :=
  '(v, h) <- xs_new s heap_empty ;;
  '(p, h) <- xs_new pre h ;;
  '(q, h) <- xs_new suf h ;;
  '(v, h) <- xs_concat v p q h ;;
  c <- xs_content v h ;;
  Ok (c, xs_size v).

(** [xs_new(&v, s); xs_trim(&v, cutset);] *)
Definition trim_of (s cutset : list Z) : result (list cell * Z * Z) :=
  '(v, h) <- xs_new s heap_empty ;;
  '(v, h) <- xs_trim v cutset h ;;
  c <- xs_content v h ;;
  Ok (c, xs_size v, xs_capacity v).

(** [xs_new(&v, s); xs_grow(&v, len);] *)
Definition grow_of (s : list Z) (len : Z) : result (xs * heap) :=
  '(v, h) <- xs_new s heap_empty ;;
  xs_grow v len h.

(** The first 16 cells at [xs_data] after [grow_of]. *)
Definition grow_then_read (s : list Z) (len : Z) : result (list cell) :=
  '(v, h) <- grow_of s len ;;
  loadn v h (xs_data v) 16.

(** [xs_new(&src, s); xs_copy(&dest, &src);] observing both terminators. *)
Definition copy_of (s : list Z)
  : result (bool * bool * list cell * list cell * list cell) :=
  '(src, h) <- xs_new s heap_empty ;;
  '(dest, h) <- xs_copy src h ;;
  c <- xs_content dest h ;;
  ts <- xs_terminator src h ;;
  td <- xs_terminator dest h ;;
  Ok (xs_is_ptr dest, xs_is_large_string dest, c, ts, td).

(** ** Values used as instances *)

(** The value and heap after [xs_new(&v, s)] in [h]. *)
Definition new_in (s : list Z) (h : heap) : xs * heap :=
  match xs_new (s ++ [0]) h with
  | Ok r => r
  | UB => (xs_literal_empty, h)
  end.

(** The value and heap after [xs_copy(&dest, &v)] in [h]. *)
Definition copy_in (v : xs) (h : heap) : xs * heap :=
  match xs_copy v h with
  | Ok r => r
  | UB => (v, h)
  end.

(** "foobarbar", and the same between the blanks of the demo program. *)
Definition foobarbar : list Z := [102; 111; 111; 98; 97; 114; 98; 97; 114].

Definition padded_foobarbar : list Z := [10; 32] ++ foobarbar ++ [32; 10; 10; 10].

(** "foobarbarfoobarbar": 18 bytes, an Exclusive-heap value. *)
Definition twice_foobarbar : list Z := foobarbar ++ foobarbar.

(** "abcd" and 18 times 'y': 22 bytes, an Exclusive-heap value. *)
Definition abcd_y18 : list Z := [97; 98; 99; 100] ++ replicate 18 121.

(** 300 times 'x' in a Shared-heap buffer with two users. *)
Definition x300_twice : xs * heap :=
  let '(v, h) := new_in (replicate 300 120) heap_empty in
  (v, (copy_in v h).2).

(** * Properties *)

(** ** Bit-fields *)

Lemma testbit_ones_nn len i :
  0 <= len -> 0 <= i -> Z.testbit (Z.ones len) i = (i <? len).
Proof.
  intros. destruct (Z.ltb_spec i len).
  - apply Z.ones_spec_low; lia.
  - apply Z.ones_spec_high; lia.
Qed.

Lemma testbit_getf off len w i :
  0 <= off -> 0 <= len -> 0 <= i ->
  Z.testbit (getf off len w) i = Z.testbit w (i + off) && (i <? len).
Proof.
  intros. unfold getf.
  rewrite Z.land_spec, Z.shiftr_spec, testbit_ones_nn by lia. done.
Qed.

Lemma testbit_setf off len v w i :
  0 <= off -> 0 <= len -> 0 <= i ->
  Z.testbit (setf off len v w) i =
  if (off <=? i) && (i <? off + len) then Z.testbit v (i - off) else Z.testbit w i.
Proof.
  intros. unfold setf.
  rewrite Z.lor_spec, Z.ldiff_spec, !Z.shiftl_spec, Z.land_spec by lia.
  destruct (Z.leb_spec off i); simpl.
  - rewrite !testbit_ones_nn by lia.
    replace (i - off <? len) with (i <? off + len) by lia.
    destruct (i <? off + len); simpl.
    + by rewrite andb_false_r, andb_true_r.
    + by rewrite andb_true_r, andb_false_r, orb_false_r.
  - rewrite !(Z.testbit_neg_r _ (i - off)) by lia. simpl.
    by rewrite andb_true_r, orb_false_r.
Qed.

Lemma getf_mod off len w :
  0 <= off -> 0 <= len -> getf off len w = (w / 2 ^ off) mod 2 ^ len.
Proof. intros. unfold getf. by rewrite Z.land_ones, Z.shiftr_div_pow2 by lia. Qed.

Lemma getf_range off len w : 0 <= len -> 0 <= getf off len w < 2 ^ len.
Proof.
  intros. unfold getf. rewrite Z.land_ones by lia. apply Z.mod_pos_bound. lia.
Qed.

Lemma getf_setf_same off len v w :
  0 <= off -> 0 <= len -> getf off len (setf off len v w) = v mod 2 ^ len.
Proof.
  intros. rewrite <- Z.land_ones by lia. apply Z.bits_inj'. intros i Hi.
  rewrite testbit_getf, testbit_setf, Z.land_spec, testbit_ones_nn by lia.
  replace (i + off - off) with i by lia.
  destruct (Z.ltb_spec i len); simpl.
  - replace (off <=? i + off) with true by lia.
    replace (i + off <? off + len) with true by lia. simpl. by rewrite andb_true_r.
  - by rewrite !andb_false_r.
Qed.

Lemma getf_setf_other off len off' len' v w :
  0 <= off -> 0 <= len -> 0 <= off' -> 0 <= len' ->
  off + len <= off' \/ off' + len' <= off ->
  getf off len (setf off' len' v w) = getf off len w.
Proof.
  intros. apply Z.bits_inj'. intros i Hi.
  rewrite !testbit_getf, testbit_setf by lia.
  destruct (Z.ltb_spec i len); simpl; [|by rewrite !andb_false_r].
  replace ((off' <=? i + off) && (i + off <? off' + len')) with false; [done|].
  symmetry. apply andb_false_iff. lia.
Qed.

(** A field inside a field. *)
Lemma getf_getf off len off' len' w :
  0 <= off -> 0 <= len -> 0 <= off' -> 0 <= len' -> off + len <= len' ->
  getf off len (getf off' len' w) = getf (off + off') len w.
Proof.
  intros. apply Z.bits_inj'. intros i Hi.
  rewrite !testbit_getf by lia.
  destruct (Z.ltb_spec i len); simpl; [|by rewrite !andb_false_r].
  replace (i + off <? len') with true by lia.
  by rewrite !andb_true_r, Z.add_assoc.
Qed.

Lemma getf_small len v :
  0 <= len -> 0 <= v < 2 ^ len -> getf 0 len v = v.
Proof.
  intros. rewrite getf_mod by lia.
  rewrite Z.pow_0_r, Z.div_1_r. by apply Z.mod_small.
Qed.

(** ** Fields of [xs] after assignments *)

Ltac field_other := apply getf_setf_other; lia.

Lemma is_ptr_set_is_ptr x v : get_is_ptr (set_is_ptr x v) = v mod 2.
Proof. apply (getf_setf_same 60 1); lia. Qed.

Lemma is_ptr_set_size x v : get_is_ptr (set_size x v) = get_is_ptr x.
Proof. unfold get_is_ptr, set_size; simpl. field_other. Qed.

Lemma is_ptr_set_capacity x v : get_is_ptr (set_capacity x v) = get_is_ptr x.
Proof. unfold get_is_ptr, set_capacity; simpl. field_other. Qed.

Lemma is_ptr_set_space_left x v : get_is_ptr (set_space_left x v) = get_is_ptr x.
Proof. unfold get_is_ptr, set_space_left; simpl. field_other. Qed.

Lemma is_ptr_set_is_large_string x v :
  get_is_ptr (set_is_large_string x v) = get_is_ptr x.
Proof. unfold get_is_ptr, set_is_large_string; simpl. field_other. Qed.

Lemma is_ptr_set_ptr x p : get_is_ptr (set_ptr x p) = get_is_ptr x.
Proof. done. Qed.

Lemma is_large_set_is_large x v :
  get_is_large_string (set_is_large_string x v) = v mod 2.
Proof. apply (getf_setf_same 61 1); lia. Qed.

Lemma is_large_set_is_ptr x v :
  get_is_large_string (set_is_ptr x v) = get_is_large_string x.
Proof. unfold get_is_large_string, set_is_ptr; simpl. field_other. Qed.

Lemma is_large_set_size x v : get_is_large_string (set_size x v) = get_is_large_string x.
Proof. unfold get_is_large_string, set_size; simpl. field_other. Qed.

Lemma is_large_set_capacity x v :
  get_is_large_string (set_capacity x v) = get_is_large_string x.
Proof. unfold get_is_large_string, set_capacity; simpl. field_other. Qed.

Lemma is_large_set_space_left x v :
  get_is_large_string (set_space_left x v) = get_is_large_string x.
Proof. unfold get_is_large_string, set_space_left; simpl. field_other. Qed.

Lemma is_large_set_ptr x p : get_is_large_string (set_ptr x p) = get_is_large_string x.
Proof. done. Qed.

Lemma size_set_size x v : get_size (set_size x v) = v mod 2 ^ 54.
Proof. apply (getf_setf_same 0 54); lia. Qed.

Lemma size_set_is_ptr x v : get_size (set_is_ptr x v) = get_size x.
Proof. unfold get_size, set_is_ptr; simpl. field_other. Qed.

Lemma size_set_capacity x v : get_size (set_capacity x v) = get_size x.
Proof. unfold get_size, set_capacity; simpl. field_other. Qed.

Lemma size_set_is_large x v : get_size (set_is_large_string x v) = get_size x.
Proof. unfold get_size, set_is_large_string; simpl. field_other. Qed.

Lemma size_set_ptr x p : get_size (set_ptr x p) = get_size x.
Proof. done. Qed.

Lemma capacity_set_capacity x v : get_capacity (set_capacity x v) = v mod 2 ^ 6.
Proof. apply (getf_setf_same 54 6); lia. Qed.

Lemma capacity_set_size x v : get_capacity (set_size x v) = get_capacity x.
Proof. unfold get_capacity, set_size; simpl. field_other. Qed.

Lemma capacity_set_is_ptr x v : get_capacity (set_is_ptr x v) = get_capacity x.
Proof. unfold get_capacity, set_is_ptr; simpl. field_other. Qed.

Lemma capacity_set_is_large x v :
  get_capacity (set_is_large_string x v) = get_capacity x.
Proof. unfold get_capacity, set_is_large_string; simpl. field_other. Qed.

Lemma capacity_set_ptr x p : get_capacity (set_ptr x p) = get_capacity x.
Proof. done. Qed.

Lemma space_left_set_space_left x v : get_space_left (set_space_left x v) = v mod 2 ^ 4.
Proof. apply (getf_setf_same 56 4); lia. Qed.

Lemma ptr_set_ptr x p : get_ptr (set_ptr x p) = p.
Proof. done. Qed.

Lemma ptr_set_hi x v :
  get_ptr (set_size x v) = get_ptr x /\ get_ptr (set_capacity x v) = get_ptr x /\
  get_ptr (set_is_ptr x v) = get_ptr x /\ get_ptr (set_is_large_string x v) = get_ptr x /\
  get_ptr (set_space_left x v) = get_ptr x.
Proof. done. Qed.

Create Rewrite HintDb xsf.

#[local] Hint Rewrite
  is_ptr_set_is_ptr is_ptr_set_size is_ptr_set_capacity is_ptr_set_space_left
  is_ptr_set_is_large_string is_ptr_set_ptr
  is_large_set_is_large is_large_set_is_ptr is_large_set_size
  is_large_set_capacity is_large_set_space_left is_large_set_ptr
  size_set_size size_set_is_ptr size_set_capacity size_set_is_large size_set_ptr
  capacity_set_capacity capacity_set_size capacity_set_is_ptr capacity_set_is_large
  capacity_set_ptr space_left_set_space_left ptr_set_ptr : xsf.

Lemma literal_empty_fields :
  xs_is_ptr xs_literal_empty = false /\
  xs_is_large_string xs_literal_empty = false /\
  xs_size xs_literal_empty = 0 /\
  xs_capacity xs_literal_empty = 15 /\
  get_ptr xs_literal_empty = 0.
Proof. by vm_compute. Qed.

(** Decide the integer comparisons of the goal. *)
Ltac zbool :=
  repeat match goal with
  | |- context [?a <=? ?b] => destruct (Z.leb_spec a b)
  | |- context [?a <? ?b] => destruct (Z.ltb_spec a b)
  | |- context [?a =? ?b] => destruct (Z.eqb_spec a b)
  end; simpl.

(** ** C strings *)

Lemma strlen_app (s rest : list Z) :
  Forall (fun c => c <> 0) s ->
  strlen (s ++ 0 :: rest) = Ok (Z.of_nat (length s)).
Proof.
  induction 1 as [|c s Hc _ IH]; simpl; [done|].
  destruct (Z.eqb_spec c 0); [done|].
  rewrite IH. simpl. f_equal. lia.
Qed.

Lemma strlen_inv (s : list Z) (n : Z) :
  strlen s = Ok n ->
  0 <= n /\ s !! Z.to_nat n = Some 0 /\
  Forall (fun c => c <> 0) (take (Z.to_nat n) s).
Proof.
  revert n. induction s as [|c s IH]; intros n; simpl; [done|].
  destruct (Z.eqb_spec c 0) as [->|Hc].
  - intros [= <-]. simpl. by split_and!.
  - destruct (strlen s) as [m|] eqn:E; simpl; [|done].
    intros [= <-]. destruct (IH m eq_refl) as (Hm & Hz & Hall).
    replace (Z.to_nat (m + 1)) with (S (Z.to_nat m)) by lia.
    simpl. split_and!; [lia|done|by constructor].
Qed.

(** ** The bytes of an [xs] object *)

Lemma get_byte_set_byte x i j b :
  0 <= i < 16 -> 0 <= j < 16 ->
  get_byte (set_byte x i b) j = if i =? j then b mod 2 ^ 8 else get_byte x j.
Proof.
  intros Hi Hj. unfold get_byte, set_byte.
  destruct (Z.ltb_spec i 8), (Z.ltb_spec j 8), (Z.eqb_spec i j);
    simpl; try lia; subst;
    first [ apply getf_setf_same; lia | apply getf_setf_other; lia | done ].
Qed.

Lemma store_self_bytes (bs : list Z) : forall x off,
  exists x', store_self x off (map Some bs) = Ok x' /\
    (0 <= off -> off + Z.of_nat (length bs) <= 16 ->
     forall i, 0 <= i < 16 ->
       get_byte x' i =
       if (off <=? i) && (i <? off + Z.of_nat (length bs))
       then default 0 (bs !! Z.to_nat (i - off)) mod 2 ^ 8
       else get_byte x i).
Proof.
  induction bs as [|b bs IH]; intros x off; simpl length.
  - exists x. split; [done|]. intros _ _ i _. zbool; first [done | lia].
  - simpl. destruct (IH (set_byte x off b) (off + 1)) as (x' & -> & Hx').
    exists x'. split; [done|]. intros Hoff Hlen i Hi.
    rewrite Hx' by lia. clear Hx'.
    rewrite get_byte_set_byte by lia.
    zbool; try lia; try done.
    + replace (Z.to_nat (i - off)) with (S (Z.to_nat (i - (off + 1)))) by lia.
      done.
    + subst i. by rewrite Z.sub_diag.
Qed.

Lemma is_ptr_byte15 x : get_is_ptr x = getf 4 1 (get_byte x 15).
Proof.
  unfold get_is_ptr, get_byte. simpl.
  rewrite getf_getf by lia. done.
Qed.

(** ** The reference count as four bytes *)

Lemma int_of_bytes_of_int v :
  INT_MIN <= v <= INT_MAX ->
  int_of_bytes (getf 0 8 v) (getf 8 8 v) (getf 16 8 v) (getf 24 8 v) = v.
Proof.
  unfold INT_MIN, INT_MAX, int_of_bytes. intros Hv.
  rewrite !getf_mod by lia.
  change (2 ^ 0) with 1. change (2 ^ 8) with 256.
  change (2 ^ 16) with 65536. change (2 ^ 24) with 16777216.
  destruct (Z.ltb_spec
    (v / 1 mod 256 + 256 * (v / 256 mod 256) + 65536 * (v / 65536 mod 256)
     + 16777216 * (v / 16777216 mod 256)) 2147483648);
    Z.div_mod_to_equations; lia.
Qed.

(** ** Heap blocks *)

Lemma loadn_buf owner h b off n blk :
  blocks h !! b = Some blk ->
  0 <= off -> 0 <= n -> off + n <= Z.of_nat (length blk) ->
  loadn owner h (Buf b off) n = Ok (take (Z.to_nat n) (drop (Z.to_nat off) blk)).
Proof.
  intros Hb ? ? ?. unfold loadn. rewrite Hb. zbool; first [done | lia].
Qed.

Lemma storen_buf owner h b off cs blk :
  blocks h !! b = Some blk ->
  0 <= off -> off + Z.of_nat (length cs) <= Z.of_nat (length blk) ->
  storen owner h (Buf b off) cs =
  Ok (owner, upd b (take (Z.to_nat off) blk ++ cs
                      ++ drop (Z.to_nat (off + Z.of_nat (length cs))) blk) h).
Proof.
  intros Hb ? ?. unfold storen. rewrite Hb. zbool; first [done | lia].
Qed.

Lemma load_int_inv b h c :
  load_int b h = Ok c ->
  exists blk, blocks h !! b = Some blk /\ (4 <= length blk)%nat.
Proof.
  unfold load_int, loadn. destruct (blocks h !! b) as [blk|]; [|done].
  zbool; try done. intros _. exists blk. split; [done|lia].
Qed.

Lemma load_int_hdr b h blk v :
  blocks h !! b = Some (set_hdr v blk) ->
  INT_MIN <= v <= INT_MAX ->
  load_int b h = Ok v.
Proof.
  intros Hb Hv. unfold load_int.
  erewrite loadn_buf; [|exact Hb|lia|lia|].
  - simpl. by rewrite int_of_bytes_of_int.
  - unfold set_hdr. rewrite length_app. simpl. lia.
Qed.

Lemma store_int_block b h v blk :
  blocks h !! b = Some blk -> (4 <= length blk)%nat ->
  store_int b v h = Ok (upd b (set_hdr v blk) h).
Proof.
  intros Hb Hlen. unfold store_int.
  erewrite storen_buf; [|exact Hb|lia|simpl; lia].
  simpl. done.
Qed.

Lemma blocks_upd_eq b blk h : blocks (upd b blk h) !! b = Some blk.
Proof. apply lookup_insert_eq. Qed.

Lemma blocks_upd_ne b b' blk h : b <> b' -> blocks (upd b blk h) !! b' = blocks h !! b'.
Proof. intros. by apply lookup_insert_ne. Qed.

Lemma upd_upd b blk blk' h : upd b blk' (upd b blk h) = upd b blk' h.
Proof. unfold upd. simpl. by rewrite insert_insert_eq. Qed.

Lemma set_hdr_set_hdr v v' blk : set_hdr v' (set_hdr v blk) = set_hdr v' blk.
Proof. done. Qed.

Lemma length_set_hdr v blk :
  (4 <= length blk)%nat -> length (set_hdr v blk) = length blk.
Proof.
  intros. unfold set_hdr, bytes_of_int.
  rewrite length_app, length_drop, length_map. cbn [length]. lia.
Qed.

Lemma log2_bounds n :
  16 <= n < 2 ^ 30 - 1 ->
  let k := Z.log2 (n + 1) + 1 in
  5 <= k <= 30 /\ 2 ^ (k - 1) <= n + 1 < 2 ^ k.
Proof.
  intros Hn k. subst k.
  pose proof (Z.log2_spec (n + 1) ltac:(lia)) as Hs.
  replace (Z.log2 (n + 1) + 1 - 1) with (Z.log2 (n + 1)) by lia.
  replace (Z.succ (Z.log2 (n + 1))) with (Z.log2 (n + 1) + 1) in Hs by lia.
  split; [|lia].
  assert (4 <= Z.log2 (n + 1)).
  { apply Z.log2_le_pow2; [lia|]. change (2 ^ 4) with 16. lia. }
  assert (Z.log2 (n + 1) < 30).
  { apply Z.log2_lt_pow2; lia. }
  lia.
Qed.

Lemma shiftl_1 k : 0 <= k -> Z.shiftl 1 k = 2 ^ k.
Proof. intros. rewrite Z.shiftl_mul_pow2 by lia. lia. Qed.

Lemma ilog2_small n : 0 < n < 2 ^ 32 -> ilog2 n = Ok (Z.log2 n).
Proof.
  intros. unfold ilog2. rewrite Z.mod_small by lia.
  destruct (Z.eqb_spec n 0); [lia|done].
Qed.

Lemma take_cstr (s rest : list Z) :
  take (Z.to_nat (Z.of_nat (length s) + 1)) (s ++ 0 :: rest) = s ++ [0].
Proof.
  replace (Z.to_nat (Z.of_nat (length s) + 1)) with (length s + 1)%nat by lia.
  rewrite take_app_add'; done.
Qed.

Lemma xs_data_medium x :
  get_is_ptr x = 1 -> get_is_large_string x = 0 -> xs_data x = Buf (get_ptr x) 0.
Proof. intros H1 H2. unfold xs_data, xs_is_ptr, xs_is_large_string. by rewrite H1, H2. Qed.

Lemma xs_data_large x :
  get_is_ptr x = 1 -> get_is_large_string x = 1 -> xs_data x = Buf (get_ptr x) 4.
Proof. intros H1 H2. unfold xs_data, xs_is_ptr, xs_is_large_string. by rewrite H1, H2. Qed.

Lemma drop_replicate_none (n m : nat) :
  drop n (replicate m (@None Z)) = replicate (m - n) None.
Proof. apply drop_replicate. Qed.

Lemma overwrite_fresh (pre cs : list cell) (N : nat) :
  (length cs <= N)%nat ->
  take (length pre) (pre ++ replicate N None) ++ cs
    ++ drop (length pre + length cs) (pre ++ replicate N None)
  = pre ++ cs ++ replicate (N - length cs) None.
Proof.
  intros. rewrite take_app_length, drop_app_add', drop_replicate_none by done.
  done.
Qed.

Lemma storen_fresh owner h a (pre cs : list cell) (N : nat) :
  blocks h !! a = Some (pre ++ replicate N None) ->
  (length cs <= N)%nat ->
  storen owner h (Buf a (Z.of_nat (length pre))) cs
  = Ok (owner, upd a (pre ++ cs ++ replicate (N - length cs) None) h).
Proof.
  intros Ha Hlen. erewrite storen_buf; [|exact Ha|lia|].
  - rewrite <- Nat2Z.inj_add, !Nat2Z.id. by rewrite overwrite_fresh.
  - rewrite length_app, length_replicate. lia.
Qed.

Lemma new_header_fields n :
  16 <= n < 2 ^ 30 - 1 ->
  get_is_ptr (new_header n) = 1 /\
  get_is_large_string (new_header n) = 0 /\
  get_size (new_header n) = n /\
  get_capacity (new_header n) = Z.log2 (n + 1) + 1.
Proof.
  intros Hn. destruct (log2_bounds n Hn) as [Hk _].
  unfold new_header. autorewrite with xsf.
  split_and!; try done.
  - apply Z.mod_small. lia.
  - apply Z.mod_small. change (2 ^ 6) with 64. lia.
Qed.

Lemma xs_new_heap (s rest : list Z) (h : heap) :
  Forall (fun c => c <> 0) s ->
  let n := Z.of_nat (length s) in
  let k := Z.log2 (n + 1) + 1 in
  16 <= n < 2 ^ 30 - 1 ->
  exists x blk,
    xs_new (s ++ 0 :: rest) h
    = Ok (x, mkheap (<[brk h := blk]> (blocks h))
                    (brk h + 16 * (Z.of_nat (length blk) / 16 + 1))) /\
    x = set_ptr (if n <? 256 then new_header n
                 else set_is_large_string (new_header n) 1) (brk h) /\
    blk = (if n <? 256 then [] else map Some (bytes_of_int 1))
          ++ map Some (s ++ [0])
          ++ replicate (Z.to_nat (2 ^ k - (n + 1))) None.
Proof.
  intros Hs n k Hn.
  destruct (log2_bounds n Hn) as [Hk Hpow]. fold k in Hk, Hpow.
  destruct (new_header_fields n Hn) as (Hp & Hl & Hsz & Hc). fold k in Hc.
  unfold xs_new. rewrite strlen_app by done. fold n. simpl bind.
  destruct (Z.ltb_spec 16 (n + 1)); [|lia].
  rewrite ilog2_small by lia. simpl bind. fold k.
  change (n + 1 - 1) with (n + 1 - 1). replace (n + 1 - 1) with n by lia.
  change (set_is_ptr (set_size (set_capacity xs_literal_empty k) n) 1) with (new_header n).
  rewrite Hsz.
  unfold xs_allocate_data, LARGE_STRING_LEN.
  destruct (Z.ltb_spec n 256).
  - rewrite Hc, shiftl_1 by lia. unfold malloc, alloc. simpl bind.
    rewrite xs_data_medium by (autorewrite with xsf; done).
    autorewrite with xsf.
    unfold memcpy_arr.
    replace ((0 <=? n + 1) && (n + 1 <=? Z.of_nat (length (s ++ 0 :: rest)))) with true.
    2:{ rewrite length_app. simpl. zbool; first [done | lia]. }
    subst n. rewrite take_cstr.
    rewrite (storen_fresh _ _ _ [] _ (Z.to_nat (2 ^ k))).
    2:{ apply lookup_insert_eq. }
    2:{ rewrite length_map, length_app. simpl. lia. }
    eexists _, _. split; [|split; reflexivity].
    unfold upd; simpl. rewrite insert_insert_eq.
    rewrite !length_app, !length_map, !length_app, !length_replicate. simpl length.
    do 4 f_equal; repeat (f_equal; try lia).
  - rewrite capacity_set_is_large, Hc. unfold shl_int.
    destruct (Z.ltb_spec k 31); [|lia]. simpl bind.
    rewrite shiftl_1 by lia. unfold malloc, alloc. simpl bind.
    unfold xs_set_ref_count. autorewrite with xsf.
    erewrite store_int_block; [|apply lookup_insert_eq|rewrite length_replicate; lia].
    simpl bind.
    rewrite xs_data_large by (autorewrite with xsf; done).
    autorewrite with xsf.
    unfold memcpy_arr.
    replace ((0 <=? n + 1) && (n + 1 <=? Z.of_nat (length (s ++ 0 :: rest)))) with true.
    2:{ rewrite length_app. simpl. zbool; first [done | lia]. }
    subst n. rewrite take_cstr.
    change (Buf (brk h) 4)
      with (Buf (brk h) (Z.of_nat (length (map Some (bytes_of_int 1))))).
    rewrite (storen_fresh _ _ _ _ _ (Z.to_nat (2 ^ k))).
    2:{ rewrite blocks_upd_eq. unfold set_hdr. rewrite drop_replicate_none.
        do 2 f_equal. f_equal. lia. }
    2:{ rewrite length_map, length_app. simpl. lia. }
    eexists _, _. split; [|split; reflexivity].
    unfold upd; simpl. rewrite !insert_insert_eq.
    rewrite !length_map, !length_app, !length_replicate. simpl length.
    do 4 f_equal; repeat (f_equal; try lia).
    rewrite length_map, length_app. simpl. lia.
Qed.

Lemma get_byte_set_space_left x v i :
  0 <= i < 15 -> get_byte (set_space_left x v) i = get_byte x i.
Proof.
  intros Hi. unfold get_byte, set_space_left. simpl.
  destruct (Z.ltb_spec i 8); [done|]. apply getf_setf_other; lia.
Qed.

Lemma xs_new_inline (s rest : list Z) (h : heap) :
  Forall (fun c => c <> 0) s ->
  let n := Z.of_nat (length s) in
  n <= 15 ->
  exists x,
    xs_new (s ++ 0 :: rest) h = Ok (x, h) /\
    get_is_ptr x = 0 /\ get_space_left x = 15 - n /\
    (forall i, (i < length s)%nat ->
       Some (get_byte x (Z.of_nat i)) = (fun b => b mod 2 ^ 8) <$> s !! i).
Proof.
  intros Hs n Hn.
  unfold xs_new. rewrite strlen_app by done. fold n. simpl bind.
  destruct (Z.ltb_spec 16 (n + 1)); [lia|].
  unfold memcpy_arr.
  replace ((0 <=? n + 1) && (n + 1 <=? Z.of_nat (length (s ++ 0 :: rest)))) with true.
  2:{ rewrite length_app. simpl. zbool; first [done | lia]. }
  subst n. rewrite take_cstr. unfold storen.
  assert (Hlen : Z.of_nat (length (map Some (s ++ [0]))) = Z.of_nat (length s) + 1).
  { rewrite length_map, length_app. simpl. lia. }
  rewrite Hlen.
  destruct (Z.leb_spec (0 + (Z.of_nat (length s) + 1)) 16); [|lia]. simpl andb. cbv iota.
  destruct (store_self_bytes (s ++ [0]) xs_literal_empty 0) as (x' & -> & Hx').
  simpl bind.
  assert (Hl' : Z.of_nat (length (s ++ [0])) = Z.of_nat (length s) + 1).
  { rewrite length_app. simpl. lia. }
  rewrite Hl' in Hx'. specialize (Hx' ltac:(lia) ltac:(lia)).
  eexists. split; [reflexivity|]. split_and!.
  - rewrite is_ptr_set_space_left, is_ptr_byte15, Hx' by lia.
    destruct (Z.ltb_spec 15 (0 + (Z.of_nat (length s) + 1))); simpl.
    + replace (Z.to_nat (15 - 0)) with (length s + 0)%nat by lia.
      rewrite lookup_app_r, Nat.add_comm by lia.
      replace (0 + length s - length s)%nat with 0%nat by lia. done.
    + done.
  - rewrite space_left_set_space_left.
    replace (15 - (Z.of_nat (length s) + 1 - 1)) with (15 - Z.of_nat (length s)) by lia.
    apply Z.mod_small. change (2 ^ 4) with 16. lia.
  - intros i Hi. rewrite get_byte_set_space_left, Hx' by lia.
    destruct (Z.ltb_spec (Z.of_nat i) (0 + (Z.of_nat (length s) + 1))); [|lia].
    simpl. rewrite Z.sub_0_r, Nat2Z.id.
    rewrite lookup_app_l by lia.
    destruct (Z.leb_spec 0 (Z.of_nat i)); [|lia]. simpl.
    destruct (s !! i) eqn:E; [done|].
    apply lookup_ge_None in E. lia.
Qed.

Lemma load_int_app b h v rest :
  blocks h !! b = Some (map Some (bytes_of_int v) ++ rest) ->
  INT_MIN <= v <= INT_MAX ->
  load_int b h = Ok v.
Proof.
  intros Hb Hv. apply (load_int_hdr b h (replicate 4 None ++ rest) v); [|done].
  by rewrite Hb.
Qed.

Lemma xs_tier_flags x :
  xs_tier x =
  if get_is_ptr x =? 0 then Inline
  else if get_is_large_string x =? 0 then ExclusiveHeap else SharedHeap.
Proof.
  unfold xs_tier, xs_is_ptr, xs_is_large_string.
  by destruct (get_is_ptr x =? 0), (get_is_large_string x =? 0).
Qed.

(** Where the Large path of [xs_allocate_data] is defined, i.e. for fewer
    than 2^30 - 1 bytes, [xs_new] on a source of [n] non-zero bytes followed
    by NUL is Inline with length [n] and capacity 15 when [n <= 15],
    Exclusive-heap when [16 <= n < 256], and Shared-heap with reference
    count 1 when [n >= 256]. *)
Theorem xs_new_tiers_in_range (s rest : list Z) (h : heap) :
  Forall (fun c => c <> 0) s ->
  Z.of_nat (length s) < 2 ^ 30 - 1 ->
  exists x h',
    xs_new (s ++ 0 :: rest) h = Ok (x, h') /\
    (Z.of_nat (length s) <= 15 ->
       xs_tier x = Inline /\ xs_size x = Z.of_nat (length s) /\ xs_capacity x = 15) /\
    (16 <= Z.of_nat (length s) < 256 -> xs_tier x = ExclusiveHeap) /\
    (256 <= Z.of_nat (length s) ->
       xs_tier x = SharedHeap /\ xs_get_ref_count x h' = Ok 1).
Proof.
  intros Hs Hn.
  destruct (Z.le_gt_cases (Z.of_nat (length s)) 15) as [Hsmall|Hbig].
  - destruct (xs_new_inline s rest h Hs Hsmall) as (x & Hx & Hp & Hsl & _).
    exists x, h. split; [done|]. split_and!; try lia.
    intros _. rewrite xs_tier_flags. unfold xs_size, xs_capacity, xs_is_ptr.
    rewrite Hp, Hsl. simpl. split_and!; [done|lia|done].
  - destruct (xs_new_heap s rest h Hs ltac:(lia)) as (x & blk & Hx & -> & ->).
    destruct (new_header_fields (Z.of_nat (length s)) ltac:(lia)) as (Hp & Hl & _).
    eexists _, _. split; [exact Hx|]. split_and!; try lia.
    + intros [_ Hlt]. destruct (Z.ltb_spec (Z.of_nat (length s)) 256); [|lia].
      rewrite xs_tier_flags. autorewrite with xsf. by rewrite Hp, Hl.
    + intros Hge. destruct (Z.ltb_spec (Z.of_nat (length s)) 256); [lia|].
      split.
      * rewrite xs_tier_flags. autorewrite with xsf. by rewrite Hp.
      * unfold xs_get_ref_count, xs_is_large_string. autorewrite with xsf.
        simpl negb. cbv iota.
        eapply load_int_app; [apply lookup_insert_eq|done].
Qed.

Lemma xs_new_tiers_in_range_instance :
  exists x h',
    xs_new (replicate 300 120 ++ [0]) heap_empty = Ok (x, h') /\
    xs_tier x = SharedHeap /\ xs_get_ref_count x h' = Ok 1.
Proof.
  destruct (xs_new_tiers_in_range (replicate 300 120) [] heap_empty)
    as (x & h' & Hx & _ & _ & Hshared).
  - apply Forall_replicate. lia.
  - vm_compute. reflexivity.
  - exists x, h'. split; [exact Hx|]. apply Hshared. vm_compute. discriminate.
Defined.

(** ** Capacity exponents *)

Lemma min_exponent_log2 n : 0 < n -> min_exponent (Z.log2 n + 1) n.
Proof.
  intros Hn. pose proof (Z.log2_spec n Hn) as [Hlo Hhi].
  pose proof (Z.log2_nonneg n).
  replace (Z.succ (Z.log2 n)) with (Z.log2 n + 1) in Hhi by lia.
  split; [lia|]. intros j Hj Hle.
  assert (Z.log2 n < j); [|lia].
  apply (Z.pow_lt_mono_r_iff 2); lia.
Qed.

Lemma realloc_block p sz h a h' :
  realloc p sz h = Ok (a, h') ->
  exists blk, blocks h' !! a = Some blk /\ length blk = Z.to_nat sz.
Proof.
  unfold realloc, malloc, alloc. destruct (p =? 0).
  - intros [= <- <-]. simpl. eexists. split; [apply lookup_insert_eq|].
    by rewrite length_replicate.
  - destruct (blocks h !! p); [|done]. intros [= <- <-]. simpl.
    eexists. split; [apply lookup_insert_eq|]. by rewrite length_resize.
Qed.

Lemma realloc_ok p sz h :
  p = 0 \/ is_Some (blocks h !! p) -> exists a h', realloc p sz h = Ok (a, h').
Proof.
  unfold realloc. destruct (Z.eqb_spec p 0); [by eauto|].
  intros [?|[blk ->]]; [done|]. destruct (alloc _ _). by eauto.
Qed.

Lemma xs_grow_exponent (x : xs) (len : Z) (h : heap) :
  xs_capacity x < len < 2 ^ 30 ->
  0 <= xs_capacity x ->
  get_ptr x = 0 \/ is_Some (blocks h !! get_ptr x) ->
  exists x' h',
    xs_grow x len h = Ok (x', h') /\
    xs_is_ptr x' = true /\
    get_capacity x' = Z.log2 len + 1.
Proof.
  intros Hlen Hcap Hptr. unfold xs_grow.
  destruct (Z.leb_spec len (xs_capacity x)); [lia|].
  rewrite ilog2_small by lia. cbn [bind].
  assert (Hlg : 0 <= Z.log2 len < 30).
  { split; [apply Z.log2_nonneg|apply Z.log2_lt_pow2; lia]. }
  set (x1 := set_capacity (set_is_ptr x 1) (Z.log2 len + 1)).
  assert (Hc1 : get_capacity x1 = Z.log2 len + 1).
  { unfold x1. rewrite capacity_set_capacity. apply Z.mod_small.
    change (2 ^ 6) with 64. lia. }
  assert (Hp1 : xs_is_ptr x1 = true).
  { unfold xs_is_ptr, x1. by rewrite is_ptr_set_capacity, is_ptr_set_is_ptr. }
  rewrite Hp1. unfold xs_allocate_data, LARGE_STRING_LEN.
  destruct (Z.ltb_spec len 256).
  - destruct (realloc_ok (get_ptr x1) (Z.shiftl 1 (get_capacity x1)) h Hptr)
      as (a & h' & ->).
    cbn [bind]. eexists _, _. split; [reflexivity|].
    unfold xs_is_ptr in *. by autorewrite with xsf.
  - rewrite capacity_set_is_large, Hc1. unfold shl_int.
    destruct (Z.ltb_spec (Z.log2 len + 1) 31); [|lia]. cbn [bind].
    destruct (realloc_ok (get_ptr (set_is_large_string x1 1))
                (Z.shiftl 1 (Z.log2 len + 1) + 4) h Hptr) as (a & h' & Hr).
    rewrite Hr. cbn [bind].
    destruct (realloc_block _ _ _ _ _ Hr) as (blk & Hblk & Hlblk).
    unfold xs_set_ref_count. rewrite ptr_set_ptr.
    erewrite store_int_block; [|exact Hblk|].
    2:{ rewrite Hlblk, shiftl_1 by lia.
        pose proof (Z.pow_pos_nonneg 2 (Z.log2 len + 1)). lia. }
    cbn [bind]. eexists _, _. split; [reflexivity|].
    unfold xs_is_ptr in *. by autorewrite with xsf.
Qed.

(** C5, against the claim as stated: a 31-byte source gets exponent 6
    (capacity 63) although 2^5 - 1 = 31 already holds it. *)
Lemma C5_xs_new_exponent_not_minimal :
  exists x h',
    xs_new (replicate 31 97 ++ [0]) heap_empty = Ok (x, h') /\
    xs_tier x = ExclusiveHeap /\
    get_capacity x = 6 /\ xs_capacity x = 63 /\
    ~ min_exponent (get_capacity x) 31.
Proof.
  eexists _, _. split; [vm_compute; reflexivity|].
  split_and!; try (vm_compute; reflexivity).
  change (~ min_exponent 6 31). intros [_ Hmin].
  specialize (Hmin 5 ltac:(lia) ltac:(vm_compute; discriminate)). lia.
Qed.

(** C5, amended.  [xs_new] stores the least exponent [k] with
    [2^k - 1 >= n + 1], the length counted with its terminator; [xs_grow],
    when it allocates, stores the least [k] with [2^k - 1 >= len].  In both
    cases the capacity is [2^k - 1]. *)
Theorem C5_capacity_exponents (s rest : list Z) (x : xs) (len : Z) (h : heap) :
  Forall (fun c => c <> 0) s ->
  16 <= Z.of_nat (length s) < 2 ^ 30 - 1 ->
  0 <= xs_capacity x < len -> len < 2 ^ 30 ->
  get_ptr x = 0 \/ is_Some (blocks h !! get_ptr x) ->
  (exists v h',
     xs_new (s ++ 0 :: rest) h = Ok (v, h') /\
     min_exponent (get_capacity v) (Z.of_nat (length s) + 1) /\
     xs_capacity v = 2 ^ get_capacity v - 1) /\
  (exists x' h',
     xs_grow x len h = Ok (x', h') /\
     min_exponent (get_capacity x') len /\
     xs_capacity x' = 2 ^ get_capacity x' - 1).
Proof.
  intros Hs Hn Hcap Hlen Hptr. split.
  - destruct (xs_new_heap s rest h Hs Hn) as (v & blk & Hv & -> & _).
    destruct (new_header_fields _ Hn) as (Hp & _ & _ & Hc).
    assert (Hcv : get_capacity (set_ptr
              (if Z.of_nat (length s) <? 256 then new_header (Z.of_nat (length s))
               else set_is_large_string (new_header (Z.of_nat (length s))) 1)
              (brk h)) = Z.log2 (Z.of_nat (length s) + 1) + 1).
    { destruct (_ <? 256); by autorewrite with xsf. }
    eexists _, _. split; [exact Hv|]. rewrite Hcv. split.
    + apply min_exponent_log2. lia.
    + unfold xs_capacity, xs_is_ptr. rewrite Hcv.
      destruct (_ <? 256); autorewrite with xsf; rewrite Hp; simpl;
        rewrite shiftl_1; try done; pose proof (Z.log2_nonneg (Z.of_nat (length s) + 1)); lia.
  - destruct (xs_grow_exponent x len h) as (x' & h' & Hg & Hp & Hc);
      [lia|lia|done|].
    exists x', h'. split; [done|]. rewrite Hc. split.
    + apply min_exponent_log2. lia.
    + unfold xs_capacity. rewrite Hp, Hc, shiftl_1; [done|].
      pose proof (Z.log2_nonneg len). lia.
Qed.

Lemma C5_capacity_exponents_witness :
  (exists v h',
     xs_new (replicate 31 97 ++ [0]) heap_empty = Ok (v, h') /\
     min_exponent (get_capacity v) 32) /\
  (exists x' h',
     xs_grow xs_literal_empty 31 heap_empty = Ok (x', h') /\
     min_exponent (get_capacity x') 31).
Proof.
  destruct (C5_capacity_exponents (replicate 31 97) [] xs_literal_empty 31 heap_empty)
    as [(v & h' & Hv & Hmin & _) (x' & h'' & Hx' & Hmin' & _)].
  - apply Forall_replicate. lia.
  - vm_compute. split; first [discriminate | reflexivity].
  - vm_compute. split; first [discriminate | reflexivity].
  - vm_compute. reflexivity.
  - left. reflexivity.
  - split; [exists v, h'|exists x', h'']; split; done.
Defined.

(** ** Reference counting *)

Lemma shared_flags v :
  xs_tier v = SharedHeap -> xs_is_ptr v = true /\ xs_is_large_string v = true.
Proof.
  unfold xs_tier. by destruct (xs_is_ptr v), (xs_is_large_string v).
Qed.

Lemma store_int_count p v h c :
  load_int p h = Ok c -> INT_MIN <= v <= INT_MAX ->
  exists h', store_int p v h = Ok h' /\ load_int p h' = Ok v /\
    data_area p h' = data_area p h /\ brk h' = brk h /\
    (forall q, q <> p -> blocks h' !! q = blocks h !! q).
Proof.
  intros Hc Hv. destruct (load_int_inv _ _ _ Hc) as (blk & Hblk & Hlen).
  exists (upd p (set_hdr v blk) h). split_and!.
  - by apply store_int_block.
  - eapply load_int_hdr; [apply blocks_upd_eq|done].
  - unfold data_area. by rewrite blocks_upd_eq, Hblk.
  - done.
  - intros q Hq. by apply blocks_upd_ne.
Qed.

Lemma xs_copy_shared v h c :
  shared_with_count v h c -> INT_MIN <= c + 1 <= INT_MAX ->
  exists h', xs_copy v h = Ok (v, h') /\ shared_with_count v h' (c + 1) /\
    data_area (get_ptr v) h' = data_area (get_ptr v) h.
Proof.
  intros [Ht Hc] Hr. destruct (shared_flags v Ht) as [Hp Hl].
  destruct (store_int_count _ (c + 1) _ _ Hc Hr) as (h' & Hst & Hld & Hda & _).
  exists h'. split_and!; [|done|done].
  unfold xs_copy, xs_inc_ref_count. rewrite Hp, Hl. simpl negb. cbv iota.
  rewrite Hc. cbn [bind].
  destruct (Z.eqb_spec c INT_MAX); [lia|]. by rewrite Hst.
Qed.

Lemma xs_free_shared v h c :
  shared_with_count v h c -> 1 < c <= INT_MAX ->
  exists h', xs_free v h = Ok (xs_literal_empty, h') /\
    shared_with_count v h' (c - 1) /\
    data_area (get_ptr v) h' = data_area (get_ptr v) h.
Proof.
  intros [Ht Hc] Hr. destruct (shared_flags v Ht) as [Hp Hl].
  destruct (store_int_count _ (c - 1) _ _ Hc) as (h' & Hst & Hld & Hda & _).
  { unfold INT_MIN, INT_MAX in *. lia. }
  exists h'. split_and!; [|done|done].
  unfold xs_free, xs_dec_ref_count. rewrite Hp, Hl. simpl negb. cbv iota.
  rewrite Hc. cbn [bind].
  destruct (Z.eqb_spec c INT_MIN); [unfold INT_MIN in *; lia|].
  rewrite Hst. cbn [bind].
  destruct (Z.leb_spec (c - 1) 0); [lia|]. done.
Qed.

(** Releasing the last reference frees the block. *)
Lemma xs_free_shared_last v h :
  shared_with_count v h 1 -> get_ptr v <> 0 ->
  exists h', xs_free v h = Ok (xs_literal_empty, h') /\
    blocks h' = delete (get_ptr v) (blocks h).
Proof.
  intros [Ht Hc] Hnz. destruct (shared_flags v Ht) as [Hp Hl].
  destruct (load_int_inv _ _ _ Hc) as (blk & Hblk & Hlen).
  exists (mkheap (delete (get_ptr v) (blocks h)) (brk h)). split; [|done].
  unfold xs_free, xs_dec_ref_count. rewrite Hp, Hl. simpl negb. cbv iota.
  rewrite Hc. cbn [bind].
  erewrite store_int_block by done.
  change (1 =? INT_MIN) with false. cbv iota. cbn [bind].
  change (1 - 1 <=? 0) with true. cbv iota.
  unfold free. destruct (Z.eqb_spec (get_ptr v) 0); [done|].
  rewrite blocks_upd_eq. cbn [bind]. unfold upd. simpl.
  by rewrite delete_insert_eq.
Qed.

Lemma clone_n_shared (m : nat) : forall v h c,
  shared_with_count v h c -> INT_MIN <= c + 1 -> c + Z.of_nat m <= INT_MAX ->
  exists h', clone_n m v h = Ok (replicate m v, h') /\
    shared_with_count v h' (c + Z.of_nat m) /\
    data_area (get_ptr v) h' = data_area (get_ptr v) h.
Proof.
  induction m as [|m IH]; intros v h c Hv Hlo Hhi; cbn [clone_n replicate].
  - exists h. rewrite Z.add_0_r. done.
  - destruct (xs_copy_shared v h c Hv ltac:(lia)) as (h1 & -> & Hv1 & Hd1).
    cbn [bind].
    destruct (IH v h1 (c + 1) Hv1 ltac:(lia) ltac:(lia)) as (h2 & -> & Hv2 & Hd2).
    cbn [bind]. exists h2. split_and!; [done| |congruence].
    by replace (c + Z.of_nat (S m)) with (c + 1 + Z.of_nat m) by lia.
Qed.

Lemma release_at_shared v (idx : list nat) : forall (vs : list xs) h c,
  NoDup idx -> (forall i, i ∈ idx -> vs !! i = Some v) ->
  shared_with_count v h c -> Z.of_nat (length idx) < c <= INT_MAX ->
  exists vs' h',
    release_at idx vs h = Ok (vs', h') /\
    shared_with_count v h' (c - Z.of_nat (length idx)) /\
    data_area (get_ptr v) h' = data_area (get_ptr v) h /\
    (forall i, i ∈ idx -> vs' !! i = Some xs_literal_empty) /\
    (forall j, j ∉ idx -> vs' !! j = vs !! j).
Proof.
  induction idx as [|i idx IH]; intros vs h c Hnd Hvs Hv Hc.
  - exists vs, h. cbn [release_at length]. rewrite Z.sub_0_r. split_and!; try done.
    intros i Hi. by apply elem_of_nil in Hi.
  - apply NoDup_cons in Hnd as [Hi Hnd]. cbn [length] in Hc. cbn [release_at length].
    rewrite (Hvs i) by apply list_elem_of_here.
    destruct (xs_free_shared v h c Hv ltac:(lia)) as (h1 & -> & Hv1 & Hd1).
    cbn [bind].
    destruct (IH (<[i := xs_literal_empty]> vs) h1 (c - 1) Hnd)
      as (vs' & h' & -> & Hv' & Hd' & Hin & Hout); [|done|lia|].
    { intros i' Hi'. rewrite list_lookup_insert_ne by (intros ->; done).
      apply Hvs. by apply list_elem_of_further. }
    exists vs', h'. split_and!; [done| |congruence| |].
    + by replace (c - Z.of_nat (S (length idx))) with (c - 1 - Z.of_nat (length idx)) by lia.
    + intros i' [->|Hi']%elem_of_cons; [|by apply Hin].
      rewrite Hout by done. apply list_lookup_insert_eq.
      apply lookup_lt_Some with v. apply Hvs, list_elem_of_here.
    + intros j [Hji Hj]%not_elem_of_cons.
      rewrite Hout by done. by apply list_lookup_insert_ne.
Qed.

(** C6.  From a Shared-heap value [v] with count 1: after [m] clones the
    count is [m + 1]; after releasing any [m] of the [m + 1] aliases (the
    indices [idx] into [v :: clones]) the count is 1 again, the buffer is
    still allocated with its data untouched, the released values are the
    empty value and the surviving one is unchanged. *)
Theorem C6_clone_release_counts (v : xs) (h : heap) (m : nat) (idx : list nat) :
  shared_with_count v h 1 ->
  Z.of_nat m < INT_MAX ->
  NoDup idx -> length idx = m -> Forall (fun i => (i < S m)%nat) idx ->
  exists h1,
    clone_n m v h = Ok (replicate m v, h1) /\
    xs_get_ref_count v h1 = Ok (Z.of_nat m + 1) /\
    exists vs h2,
      release_at idx (v :: replicate m v) h1 = Ok (vs, h2) /\
      xs_get_ref_count v h2 = Ok 1 /\
      is_Some (blocks h2 !! get_ptr v) /\
      data_area (get_ptr v) h2 = data_area (get_ptr v) h /\
      (forall i, i ∈ idx -> vs !! i = Some xs_literal_empty) /\
      (forall j, (j < S m)%nat -> j ∉ idx -> vs !! j = Some v).
Proof.
  intros Hv Hm Hnd Hlen Hall.
  assert (Hcount : forall h' c, shared_with_count v h' c -> xs_get_ref_count v h' = Ok c).
  { intros h' c [Ht Hc]. destruct (shared_flags v Ht) as [_ Hl].
    unfold xs_get_ref_count. by rewrite Hl. }
  destruct (clone_n_shared m v h 1 Hv) as (h1 & Hcl & Hv1 & Hd1);
    [unfold INT_MIN; lia|lia|].
  exists h1. split; [done|]. split; [rewrite (Hcount _ _ Hv1); f_equal; lia|].
  destruct (release_at_shared v idx (v :: replicate m v) h1 (1 + Z.of_nat m) Hnd)
    as (vs & h2 & Hrel & Hv2 & Hd2 & Hin & Hout); [|done|lia|].
  { intros i Hi. rewrite Forall_forall in Hall. specialize (Hall i Hi).
    change (v :: replicate m v) with (replicate (S m) v).
    by apply lookup_replicate_2. }
  replace (1 + Z.of_nat m - Z.of_nat (length idx)) with 1 in Hv2 by lia.
  exists vs, h2. split_and!; [done|by apply Hcount| |congruence|done|].
  - destruct Hv2 as [_ Hc2]. destruct (load_int_inv _ _ _ Hc2) as (blk & -> & _).
    by eexists.
  - intros j Hj Hnotin. rewrite Hout by done.
    change (v :: replicate m v) with (replicate (S m) v).
    by apply lookup_replicate_2.
Qed.

Lemma C6_clone_release_counts_witness :
  exists h1 vs h2,
    clone_n 3 x300 h300 = Ok (replicate 3 x300, h1) /\
    xs_get_ref_count x300 h1 = Ok 4 /\
    release_at [0; 2; 3]%nat (x300 :: replicate 3 x300) h1 = Ok (vs, h2) /\
    xs_get_ref_count x300 h2 = Ok 1 /\
    vs !! 1%nat = Some x300.
Proof.
  destruct (C6_clone_release_counts x300 h300 3 [0; 2; 3]%nat)
    as (h1 & Hcl & Hc1 & vs & h2 & Hrel & Hc2 & _ & _ & _ & Hsurv).
  - split; vm_compute; reflexivity.
  - vm_compute. reflexivity.
  - apply (bool_decide_unpack (NoDup [0; 2; 3]%nat)). vm_compute. exact I.
  - reflexivity.
  - repeat constructor.
  - exists h1, vs, h2.
    split; [exact Hcl|]. split; [exact Hc1|]. split; [exact Hrel|].
    split; [exact Hc2|].
    apply Hsurv; [lia|].
    apply (bool_decide_unpack (1%nat ∉ [0; 2; 3]%nat)). vm_compute. exact I.
Defined.

(** ** Release *)

(** C8.  [xs_free] leaves the canonical empty Inline value (length 0,
    capacity 15, not heap-backed); an Exclusive-heap buffer is freed; a
    Shared-heap header is decremented and the buffer freed exactly when the
    count was 1; releasing the result again changes nothing. *)
Theorem C8_release (v : xs) (h : heap) :
  live v h ->
  exists h',
    xs_free v h = Ok (xs_literal_empty, h') /\
    xs_tier xs_literal_empty = Inline /\
    xs_size xs_literal_empty = 0 /\
    xs_capacity xs_literal_empty = 15 /\
    released v h h' /\
    xs_free xs_literal_empty h' = Ok (xs_literal_empty, h').
Proof.
  unfold live, released. intros Hlive.
  destruct literal_empty_fields as (He1 & _ & He3 & He4 & _).
  assert (Hempty : forall h', xs_free xs_literal_empty h' = Ok (xs_literal_empty, h')).
  { intros h'. unfold xs_free. by rewrite He1. }
  assert (Htier : xs_tier xs_literal_empty = Inline).
  { unfold xs_tier. by rewrite He1. }
  cut (exists h', xs_free v h = Ok (xs_literal_empty, h') /\
         match xs_tier v with
         | Inline => h' = h
         | ExclusiveHeap => blocks h' = delete (get_ptr v) (blocks h)
         | SharedHeap =>
             exists c, load_int (get_ptr v) h = Ok c /\
               if c =? 1 then blocks h' = delete (get_ptr v) (blocks h)
               else load_int (get_ptr v) h' = Ok (c - 1) /\
                    is_Some (blocks h' !! get_ptr v) /\
                    data_area (get_ptr v) h' = data_area (get_ptr v) h
         end).
  { intros (h' & Hf & Hrel). exists h'. repeat (split; [assumption|]). apply Hempty. }
  destruct (xs_tier v) eqn:Ht.
  - exists h. split; [|reflexivity].
    unfold xs_tier in Ht. unfold xs_free.
    destruct (xs_is_ptr v); [|reflexivity].
    cbn [negb] in Ht. destruct (xs_is_large_string v); discriminate.
  - destruct Hlive as [Hnz [blk Hblk]].
    exists (mkheap (delete (get_ptr v) (blocks h)) (brk h)). split; [|reflexivity].
    unfold xs_tier in Ht. unfold xs_free, xs_dec_ref_count.
    destruct (xs_is_ptr v); [|discriminate]. cbn [negb] in Ht.
    destruct (xs_is_large_string v); [discriminate|].
    simpl negb. cbv iota. cbn [bind].
    change (0 <=? 0) with true. cbv iota.
    unfold free. destruct (Z.eqb_spec (get_ptr v) 0); [done|].
    by rewrite Hblk.
  - destruct Hlive as [Hnz (c & Hc & Hld)].
    destruct (Z.eqb_spec c 1) as [->|Hne].
    + destruct (xs_free_shared_last v h) as (h' & Hf & Hb); [done|done|].
      exists h'. split; [done|]. exists 1. split; [done|]. exact Hb.
    + destruct (xs_free_shared v h c) as (h' & Hf & [_ Hld'] & Hd); [done|lia|].
      exists h'. split; [done|]. exists c. split; [done|].
      destruct (Z.eqb_spec c 1); [done|]. split; [done|]. split; [|done].
      destruct (load_int_inv _ _ _ Hld') as (blk & -> & _). by eexists.
Qed.

Lemma C8_release_witness :
  exists h',
    xs_free x300 h300 = Ok (xs_literal_empty, h') /\
    blocks h' = delete (get_ptr x300) (blocks h300) /\
    xs_free xs_literal_empty h' = Ok (xs_literal_empty, h').
Proof.
  assert (Ht : xs_tier x300 = SharedHeap) by (vm_compute; reflexivity).
  assert (Hc1 : load_int (get_ptr x300) h300 = Ok 1) by (vm_compute; reflexivity).
  destruct (C8_release x300 h300) as (h' & Hf & _ & _ & _ & Hrel & Hagain).
  - unfold live. rewrite Ht. split.
    + vm_compute. discriminate.
    + exists 1. split; [vm_compute; split; discriminate|exact Hc1].
  - exists h'. split; [exact Hf|]. split; [|exact Hagain].
    unfold released in Hrel. rewrite Ht in Hrel.
    destruct Hrel as (c & Hc & Hrel).
    assert (c = 1) as -> by congruence.
    exact Hrel.
Defined.

(** ** The cutset bitmap *)

Lemma land_bit x k :
  0 <= k -> negb (Z.land x (Z.shiftl 1 k) =? 0) = Z.testbit x k.
Proof.
  intros Hk. rewrite Z.shiftl_mul_pow2, Z.mul_1_l by lia.
  assert (Z.land x (2 ^ k) = if Z.testbit x k then 2 ^ k else 0) as ->.
  { apply Z.bits_inj'. intros n Hn.
    rewrite Z.land_spec, Z.pow2_bits_eqb by lia.
    destruct (Z.eqb_spec k n) as [->|Hne].
    - destruct (Z.testbit x n); [|by rewrite Z.bits_0].
      rewrite Z.pow2_bits_eqb by lia. by rewrite Z.eqb_refl.
    - rewrite andb_false_r. destruct (Z.testbit x k); [|by rewrite Z.bits_0].
      rewrite Z.pow2_bits_eqb by lia. by destruct (Z.eqb_spec k n). }
  destruct (Z.testbit x k); [|done].
  pose proof (Z.pow_pos_nonneg 2 k). destruct (Z.eqb_spec (2 ^ k) 0); [lia|done].
Qed.

Lemma check_bit_testbit mask b :
  check_bit mask b
  = Z.testbit (default 0 (mask !! Z.to_nat (b / 8))) (b mod 8).
Proof.
  unfold check_bit. apply land_bit.
  pose proof (Z.mod_pos_bound b 8). lia.
Qed.

Lemma length_set_bit mask c : length (set_bit mask c) = length mask.
Proof. apply length_insert. Qed.

Lemma check_bit_set_bit mask b c :
  length mask = 32%nat -> 0 <= b < 256 -> 0 <= c < 256 ->
  check_bit (set_bit mask c) b = check_bit mask b || (b =? c).
Proof.
  intros Hlen Hb Hc. rewrite !check_bit_testbit. unfold set_bit.
  pose proof (Z.mod_pos_bound b 8 ltac:(lia)).
  pose proof (Z.mod_pos_bound c 8 ltac:(lia)).
  assert (0 <= b / 8 < 32) by (split; [apply Z.div_pos|apply Z.div_lt_upper_bound]; lia).
  assert (0 <= c / 8 < 32) by (split; [apply Z.div_pos|apply Z.div_lt_upper_bound]; lia).
  destruct (Z.eq_dec (b / 8) (c / 8)) as [Heq|Hne].
  - rewrite Heq, list_lookup_insert_eq by lia. cbn [default from_option]. unfold id.
    change 256 with (2 ^ 8).
    rewrite Z.mod_pow2_bits_low, Z.lor_spec by lia.
    rewrite Z.shiftl_mul_pow2, Z.mul_1_l, Z.pow2_bits_eqb by lia.
    f_equal.
    destruct (Z.eqb_spec (c mod 8) (b mod 8)), (Z.eqb_spec b c); try done.
    + exfalso. pose proof (Z.div_mod b 8). pose proof (Z.div_mod c 8). lia.
    + subst. done.
  - rewrite list_lookup_insert_ne by lia.
    destruct (Z.eqb_spec b c); [by subst|]. by rewrite orb_false_r.
Qed.

Lemma check_bit_foldl (cs : list Z) : forall mask b,
  length mask = 32%nat -> 0 <= b < 256 ->
  Forall (fun c => 0 <= c < 256) cs ->
  check_bit (foldl set_bit mask cs) b = check_bit mask b || bool_decide (b ∈ cs).
Proof.
  induction cs as [|c cs IH]; intros mask b Hlen Hb Hcs; cbn [foldl].
  - rewrite bool_decide_eq_false_2, orb_false_r; [done|]. apply not_elem_of_nil.
  - apply Forall_cons in Hcs as [Hc Hcs].
    rewrite IH by (rewrite ?length_set_bit; done).
    rewrite check_bit_set_bit by done.
    rewrite <- orb_assoc. f_equal.
    destruct (Z.eqb_spec b c) as [->|Hne]; cbn [orb].
    + symmetry. apply bool_decide_eq_true_2, list_elem_of_here.
    + apply bool_decide_ext. rewrite elem_of_cons. tauto.
Qed.

Lemma check_bit_zeros b : check_bit (replicate 32 0) b = false.
Proof.
  rewrite check_bit_testbit.
  destruct (replicate 32 0 !! Z.to_nat (b / 8)) as [z|] eqn:E; cbn [default from_option]; unfold id.
  - apply lookup_replicate_1 in E as [-> _]. apply Z.bits_0.
  - apply Z.bits_0.
Qed.

(** ** Worked examples of the demo program ([func_test]) *)

Example concat_mid : concat_of (cstr "mid") (cstr "(") (cstr ")") = Ok (bytes "(mid)", 5).
Proof. vm_compute. reflexivity. Qed.

Example trim_foobarbar :
  trim_of (padded_foobarbar ++ [0]) [10; 32; 0]
  = Ok (bytes "foobarbar", 9, 15).
Proof. vm_compute. reflexivity. Qed.

(** ** Evaluations at the inputs where the code leaves its contract *)

(** C1 (code defect).  Detaching a Shared-heap alias whose length is below
    256: after [xs_concat] on the alias [b], the other alias [a] still reads
    "ab" and its count went from 2 to 1, [b] reads "(ab)" from a private
    buffer, and [b] is still flagged Shared-heap; but the four header cells of
    [b]'s buffer were never written, so [b] has no reference count of 1. *)
Theorem C1_detach_short_shared_leaves_header_unset :
  concat_short_shared
  = Ok (true, true, Some [None; None; None; None],
        (Ok (bytes "ab"), Ok 1, Ok (bytes "(ab)"), UB)).
Proof. vm_compute. reflexivity. Qed.

(** The same detach through [xs_trim]: the value of [xs_cow_lazy_copy] is
    tested although its copying path returns none. *)
Lemma xs_trim_shared_uses_missing_return : trim_shared = UB.
Proof. vm_compute. reflexivity. Qed.

(** C2 (code defect).  The alias of C1 has capacity 511; wrapping its content
    "ab" in 254 + 254 bytes needs 510 <= 511, so the in-place path runs on the
    private buffer, which is 512 bytes with the data at offset 4: the write
    of the suffix ends past the block. *)
Theorem C2_concat_short_shared_overruns_buffer :
  concat_short_shared_near_capacity = UB.
Proof. vm_compute. reflexivity. Qed.

(** C3 (code defect).  A content made only of cutset bytes: both scans run
    over the whole content, [slen -= i] wraps around and [memmove] is called
    with a length of 2^64 - 3. *)
Theorem C3_trim_all_cutset_content_undefined :
  trim_of (cstr "   ") (cstr " ") = UB.
Proof. vm_compute. reflexivity. Qed.

(** From 2^30 - 1 bytes on (and below 2^32 - 1, where [ilog2] still sees
    the whole length) the exponent is 31 or 32 and the Large path evaluates
    [1 << x->capacity] as an [int]. *)
Lemma xs_new_shift_undefined (s rest : list Z) (h : heap) :
  Forall (fun c => c <> 0) s ->
  2 ^ 30 - 1 <= Z.of_nat (length s) < 2 ^ 32 - 1 ->
  xs_new (s ++ 0 :: rest) h = UB.
Proof.
  intros Hnz Hn. set (n := Z.of_nat (length s)) in *.
  assert (Hlg : 30 <= Z.log2 (n + 1) < 32).
  { split; [apply Z.log2_le_pow2; lia|apply Z.log2_lt_pow2; lia]. }
  unfold xs_new. rewrite strlen_app by done. cbn [bind]. fold n.
  destruct (Z.ltb_spec 16 (n + 1)); [|lia].
  rewrite ilog2_small by lia. cbn [bind].
  replace (n + 1 - 1) with n by lia.
  set (x := set_is_ptr (set_size (set_capacity xs_literal_empty (Z.log2 (n + 1) + 1)) n) 1).
  assert (Hsize : get_size x = n).
  { unfold x. autorewrite with xsf. apply Z.mod_small.
    change (2 ^ 54) with 18014398509481984. change (2 ^ 32) with 4294967296 in Hn. lia. }
  assert (Hcap : get_capacity x = Z.log2 (n + 1) + 1).
  { unfold x. autorewrite with xsf. apply Z.mod_small. change (2 ^ 6) with 64. lia. }
  unfold xs_allocate_data, LARGE_STRING_LEN. rewrite Hsize.
  destruct (Z.ltb_spec n 256); [lia|].
  rewrite capacity_set_is_large, Hcap. unfold shl_int.
  destruct (Z.ltb_spec (Z.log2 (n + 1) + 1) 31); [lia|]. reflexivity.
Qed.

(** C4 (code defect).  [xs_new] on a C string of 2^30 - 1 bytes: [len] is
    2^30, the stored exponent is 31, and the Large path of
    [xs_allocate_data] computes [(size_t)(1 << x->capacity)], an [int] shift
    by 31, before it allocates: the call is undefined, where the claim (and
    the 54-bit [size] field) promise a Shared-heap value with count 1.  The
    Medium path casts before it shifts. *)
Theorem C4_xs_new_gigabyte_undefined :
  xs_new (replicate (Z.to_nat (2 ^ 30 - 1)) 120 ++ [0]) heap_empty = UB.
Proof.
  apply (xs_new_shift_undefined (replicate (Z.to_nat (2 ^ 30 - 1)) 120) [] heap_empty).
  - apply Forall_replicate. lia.
  - rewrite length_replicate, Z2Nat.id by lia. lia.
Qed.

(** C7 (code defect).  [xs_grow] sets [is_ptr] before it tests it, so an
    Inline value always takes the [realloc] path with its first eight content
    bytes as the pointer, and the backup is never copied back: growing "abc"
    is undefined, and growing the empty value (whose pointer view is NULL)
    yields a buffer none of whose 16 first cells was written. *)
Theorem C7_grow_inline_drops_content :
  grow_of (cstr "abc") 16 = UB /\
  grow_then_read (cstr "") 16 = Ok (replicate 16 None).
Proof. split; vm_compute; reflexivity. Qed.

(** C9 (code defect).  [xs_copy] of an Exclusive-heap source copies
    [src->size] bytes, without the terminator: the cell at index [length] of
    the destination was never written, while the source's holds 0. *)
Theorem C9_copy_medium_leaves_terminator_unset :
  copy_of (cstr "0123456789abcdef")
  = Ok (true, false, bytes "0123456789abcdef", [Some 0], [None]).
Proof. vm_compute. reflexivity. Qed.

(** ** Values and their buffers *)

#[local] Arguments getf : simpl never.
#[local] Arguments setf : simpl never.

Lemma length_self_cells v : length (self_cells v) = 16%nat.
Proof. unfold self_cells. by rewrite length_map, length_seqZ. Qed.

Lemma lookup_self_cells v (i : nat) :
  (i < 16)%nat -> self_cells v !! i = Some (Some (get_byte v (Z.of_nat i))).
Proof.
  intros Hi. unfold self_cells. rewrite list_lookup_fmap, lookup_seqZ_lt by lia.
  simpl. by rewrite Z.add_0_l.
Qed.

Lemma length_splice i cs r :
  (i + length cs <= length r)%nat -> length (splice i cs r) = length r.
Proof.
  intros. unfold splice. rewrite !length_app, length_take, length_drop. lia.
Qed.

Lemma lookup_splice i cs r (j : nat) :
  (i + length cs <= length r)%nat ->
  splice i cs r !! j =
  if decide (j < i)%nat then r !! j
  else if decide (j < i + length cs)%nat then cs !! (j - i)%nat
  else r !! j.
Proof.
  intros Hlen. unfold splice.
  destruct (decide (j < i)%nat).
  - rewrite lookup_app_l by (rewrite length_take; lia).
    by rewrite lookup_take_lt.
  - rewrite lookup_app_r by (rewrite length_take; lia).
    rewrite length_take, Nat.min_l by lia.
    destruct (decide (j < i + length cs)%nat).
    + by rewrite lookup_app_l by lia.
    + rewrite lookup_app_r by lia. rewrite lookup_drop. f_equal. lia.
Qed.

Lemma xs_data_cases v :
  (xs_is_ptr v = false /\ xs_data v = Self 0) \/
  (xs_is_ptr v = true /\ exists off, (off = 0 \/ off = 4) /\ xs_data v = Buf (get_ptr v) off).
Proof.
  unfold xs_data. destruct (xs_is_ptr v); [right|left]; [|done].
  split; [done|]. destruct (xs_is_large_string v); eauto.
Qed.

Lemma loadn_region v h r (i n : nat) :
  region v h = Some r -> (0 < length r)%nat -> (i + n <= length r)%nat ->
  loadn v h (padd (xs_data v) (Z.of_nat i)) (Z.of_nat n) = Ok (take n (drop i r)).
Proof.
  unfold region. intros Hr Hpos Hb.
  destruct (xs_data_cases v) as [[_ E]|[_ (off & Hoff & E)]]; rewrite E in *.
  - injection Hr as <-. rewrite length_self_cells in Hb.
    unfold padd, loadn. rewrite Z.add_0_l.
    replace ((0 <=? Z.of_nat i) && (0 <=? Z.of_nat n) && (Z.of_nat i + Z.of_nat n <=? 16))
      with true by (symmetry; rewrite !andb_true_iff, !Z.leb_le; lia).
    f_equal. apply list_eq. intros j.
    rewrite lookup_take, lookup_drop, list_lookup_fmap.
    destruct (decide (j < n)%nat).
    + rewrite lookup_self_cells, lookup_seqZ_lt by lia. simpl. do 3 f_equal. lia.
    + by rewrite lookup_seqZ_ge by lia.
  - destruct (blocks h !! get_ptr v) as [blk|] eqn:Hblk; [|done].
    cbn in Hr. injection Hr as <-. rewrite length_drop in Hb, Hpos.
    unfold padd. erewrite loadn_buf; [|done|lia|lia|lia].
    rewrite drop_drop. do 3 f_equal; lia.
Qed.

Lemma region_ext w h h' :
  (xs_is_ptr w = true -> blocks h' !! get_ptr w = blocks h !! get_ptr w) ->
  region w h' = region w h.
Proof.
  intros Hb. unfold region.
  destruct (xs_data_cases w) as [[_ E]|[Hp (off & _ & E)]]; rewrite E; [done|].
  by rewrite Hb.
Qed.

Lemma storen_region_heap v h r (i : nat) (cs : list cell) :
  xs_is_ptr v = true -> region v h = Some r -> (0 < length r)%nat ->
  (i + length cs <= length r)%nat ->
  exists h',
    storen v h (padd (xs_data v) (Z.of_nat i)) cs = Ok (v, h') /\
    region v h' = Some (splice i cs r) /\
    brk h' = brk h /\
    (forall b, b <> get_ptr v -> blocks h' !! b = blocks h !! b) /\
    (xs_is_large_string v = true ->
       take 4 <$> blocks h' !! get_ptr v = take 4 <$> blocks h !! get_ptr v).
Proof.
  intros Hp Hr Hpos Hb. unfold region in *.
  destruct (xs_data_cases v) as [[E _]|[_ (off & Hoff & E)]]; [congruence|].
  rewrite E in *.
  destruct (blocks h !! get_ptr v) as [blk|] eqn:Hblk; [|done].
  cbn in Hr. injection Hr as <-. rewrite length_drop in Hb, Hpos.
  unfold padd. erewrite storen_buf; [|done|lia|lia].
  eexists. split; [reflexivity|]. split_and!.
  - rewrite blocks_upd_eq. cbn. f_equal. unfold splice.
    replace (Z.to_nat (off + Z.of_nat i)) with (Z.to_nat off + i)%nat by lia.
    replace (Z.to_nat (off + Z.of_nat i + Z.of_nat (length cs)))
      with (Z.to_nat off + (i + length cs))%nat by lia.
    rewrite drop_app_le by (rewrite length_take; lia).
    rewrite <- take_drop_commute, drop_drop. done.
  - done.
  - intros b Hne. by apply blocks_upd_ne.
  - intros Hl. rewrite blocks_upd_eq. cbn. f_equal.
    assert (off = 4) as ->.
    { unfold xs_data in E. rewrite Hp, Hl in E. simpl in E. congruence. }
    rewrite take_app_le by (rewrite length_take; lia).
    rewrite take_take. f_equal. lia.
Qed.

Lemma storen_region_inline v h (i : nat) (bs : list Z) :
  xs_is_ptr v = false -> (i + length bs <= 16)%nat -> Forall is_byte bs ->
  exists v',
    storen v h (padd (xs_data v) (Z.of_nat i)) (map Some bs) = Ok (v', h) /\
    self_cells v' = splice i (map Some bs) (self_cells v).
Proof.
  intros Hp Hb Hbs.
  destruct (xs_data_cases v) as [[_ E]|[E _]]; [|congruence]. rewrite E.
  unfold padd, storen. rewrite Z.add_0_l, length_map.
  replace ((0 <=? Z.of_nat i) && (Z.of_nat i + Z.of_nat (length bs) <=? 16)) with true
    by (symmetry; rewrite !andb_true_iff, !Z.leb_le; lia).
  destruct (store_self_bytes bs v (Z.of_nat i)) as (v' & -> & Hv').
  specialize (Hv' ltac:(lia) ltac:(lia)).
  exists v'. split; [done|].
  apply list_eq. intros j.
  rewrite lookup_splice by (rewrite length_map, length_self_cells; lia).
  rewrite length_map.
  destruct (decide (j < 16)%nat) as [Hj|Hj].
  2:{ rewrite !(lookup_ge_None_2 (self_cells _)) by (rewrite length_self_cells; lia).
      repeat case_decide; try done; lia. }
  rewrite !lookup_self_cells, Hv' by lia.
  repeat case_decide.
  - by replace ((Z.of_nat i <=? Z.of_nat j) && _) with false
      by (symmetry; rewrite andb_false_iff, Z.leb_gt, Z.ltb_ge; lia).
  - replace ((Z.of_nat i <=? Z.of_nat j) && _) with true
      by (symmetry; rewrite andb_true_iff, Z.leb_le, Z.ltb_lt; lia).
    replace (Z.to_nat (Z.of_nat j - Z.of_nat i)) with (j - i)%nat by lia.
    rewrite list_lookup_fmap.
    destruct (bs !! (j - i)%nat) as [b|] eqn:Eb.
    + simpl. do 2 f_equal. apply Z.mod_small.
      rewrite Forall_forall in Hbs. apply Hbs. by eapply list_elem_of_lookup_2.
    + apply lookup_ge_None in Eb. lia.
  - by replace ((Z.of_nat i <=? Z.of_nat j) && _) with false
      by (symmetry; rewrite andb_false_iff, Z.leb_gt, Z.ltb_ge; lia).
Qed.

(** The flag byte of an Inline value. *)
Lemma flags_of_byte15 x :
  get_is_ptr x = getf 4 1 (get_byte x 15) /\
  get_is_large_string x = getf 5 1 (get_byte x 15) /\
  get_space_left x = getf 0 4 (get_byte x 15).
Proof.
  unfold get_is_ptr, get_is_large_string, get_space_left, get_byte.
  change (15 <? 8) with false. cbv iota. change (8 * (15 - 8)) with 56.
  rewrite !getf_getf by lia. done.
Qed.

Lemma byte15_of_cells v v' :
  self_cells v' !! 15%nat = self_cells v !! 15%nat -> get_byte v' 15 = get_byte v 15.
Proof.
  rewrite !lookup_self_cells by lia. change (Z.of_nat 15) with 15.
  by intros [= E].
Qed.

Lemma inline_tier_of_byte15 v v' :
  get_byte v' 15 = get_byte v 15 ->
  xs_is_ptr v' = xs_is_ptr v /\ xs_is_large_string v' = xs_is_large_string v /\
  get_space_left v' = get_space_left v.
Proof.
  intros E. unfold xs_is_ptr, xs_is_large_string.
  destruct (flags_of_byte15 v) as (-> & -> & ->).
  destruct (flags_of_byte15 v') as (-> & -> & ->).
  by rewrite E.
Qed.

Lemma inline_tier_of_byte15_zero v' :
  get_byte v' 15 = 0 ->
  xs_is_ptr v' = false /\ xs_is_large_string v' = false /\ get_space_left v' = 0.
Proof.
  intros E. unfold xs_is_ptr, xs_is_large_string.
  destruct (flags_of_byte15 v') as (-> & -> & ->).
  by rewrite E.
Qed.

Lemma xs_data_inline v : xs_is_ptr v = false -> xs_data v = Self 0.
Proof. intros E. unfold xs_data. by rewrite E. Qed.

Lemma region_inline v h : xs_is_ptr v = false -> region v h = Some (self_cells v).
Proof. intros E. unfold region. by rewrite xs_data_inline. Qed.

(** Writing bytes into the buffer of [v]: the region is updated in place;
    an Inline value stays Inline provided its flag byte is either left alone
    or overwritten with 0. *)
Lemma store_own v h r (i : nat) (bs : list Z) :
  region v h = Some r -> (0 < length r)%nat ->
  (i + length bs <= length r)%nat -> Forall is_byte bs ->
  (xs_is_ptr v = false -> (i + length bs <= 15)%nat \/ last bs = Some 0) ->
  exists v' h',
    storen v h (padd (xs_data v) (Z.of_nat i)) (map Some bs) = Ok (v', h') /\
    region v' h' = Some (splice i (map Some bs) r) /\
    xs_is_ptr v' = xs_is_ptr v /\
    xs_data v' = xs_data v /\
    (xs_is_ptr v = true -> v' = v) /\
    (xs_is_ptr v = false -> h' = h) /\
    brk h' = brk h /\
    (forall b, xs_is_ptr v = false \/ b <> get_ptr v -> blocks h' !! b = blocks h !! b) /\
    (xs_is_large_string v = true ->
       take 4 <$> blocks h' !! get_ptr v = take 4 <$> blocks h !! get_ptr v).
Proof.
  intros Hr Hpos Hb Hbs Hflag.
  destruct (xs_is_ptr v) eqn:Hp.
  - destruct (storen_region_heap v h r i (map Some bs) Hp Hr Hpos)
      as (h' & Hst & Hr' & Hbrk & Hfr & Hhdr); [by rewrite length_map|].
    exists v, h'. split_and!; try done.
    intros b [?|?]; [done|by apply Hfr].
  - rewrite region_inline in Hr by done. injection Hr as <-.
    rewrite length_self_cells in Hb.
    destruct (storen_region_inline v h i bs Hp Hb Hbs) as (v' & Hst & Hcells).
    assert (Hp' : xs_is_ptr v' = false).
    { destruct (Hflag eq_refl) as [Hlt|Hlast].
      - destruct (inline_tier_of_byte15 v v') as (-> & _); [|done].
        apply byte15_of_cells. rewrite Hcells, lookup_splice
          by (rewrite length_map, length_self_cells; lia).
        rewrite length_map. repeat case_decide; try done; lia.
      - destruct (decide (i + length bs <= 15)%nat) as [Hlt|Hge].
        + destruct (inline_tier_of_byte15 v v') as (-> & _); [|done].
          apply byte15_of_cells. rewrite Hcells, lookup_splice
            by (rewrite length_map, length_self_cells; lia).
          rewrite length_map. repeat case_decide; try done; lia.
        + cut (get_byte v' 15 = 0).
          { intros E0. by destruct (inline_tier_of_byte15_zero v' E0) as (? & _). }
          assert (0 < length bs)%nat by (destruct bs; [done|simpl; lia]).
          assert (self_cells v' !! 15%nat = Some (Some 0)) as E.
          { rewrite Hcells, lookup_splice
              by (rewrite length_map, length_self_cells; lia).
            rewrite length_map. repeat case_decide; try lia.
            rewrite list_lookup_fmap.
            rewrite last_lookup in Hlast.
            replace (15 - i)%nat with (pred (length bs)) by lia.
            by rewrite Hlast. }
          rewrite lookup_self_cells in E by lia. change (Z.of_nat 15) with 15 in E.
          by injection E. }
    exists v', h. split_and!; try done.
    + by rewrite region_inline, Hcells.
    + by rewrite !xs_data_inline.
Qed.

Lemma has_content_load v h c :
  has_content v h c ->
  loadn v h (xs_data v) (xs_size v) = Ok (map Some c).
Proof.
  intros (r & Hr & Hlen & Hsz & Hcap & Htake & _).
  pose proof (loadn_region v h r 0 (length c) Hr) as H.
  rewrite Hsz. replace (xs_data v) with (padd (xs_data v) (Z.of_nat 0))
    by (destruct (xs_data v); simpl; f_equal; lia).
  rewrite H by lia. by rewrite drop_0, Htake.
Qed.

Lemma has_content_load_terminated v h c :
  has_content v h c -> terminated v h ->
  loadn v h (xs_data v) (xs_size v + 1) = Ok (map Some (c ++ [0])).
Proof.
  intros (r & Hr & Hlen & Hsz & Hcap & Htake & _) (r' & Hr' & Ht).
  assert (r' = r) as -> by congruence.
  pose proof (loadn_region v h r 0 (length c + 1) Hr) as H.
  rewrite Hsz in *. rewrite Nat2Z.id in Ht.
  replace (xs_data v) with (padd (xs_data v) (Z.of_nat 0))
    by (destruct (xs_data v); simpl; f_equal; lia).
  replace (Z.of_nat (length c) + 1) with (Z.of_nat (length c + 1)) by lia.
  rewrite H by lia. rewrite drop_0. f_equal.
  rewrite map_app. simpl.
  rewrite <- Htake. rewrite <- take_take_drop.
  f_equal. by rewrite (take_S_r _ _ (Some 0)), take_0 by (by rewrite lookup_drop, Nat.add_0_r).
Qed.

Lemma has_content_frame w h h' c :
  has_content w h c ->
  (xs_is_ptr w = true -> blocks h' !! get_ptr w = blocks h !! get_ptr w) ->
  has_content w h' c.
Proof.
  intros (r & Hr & H) Hb. exists r. split; [|done]. by rewrite (region_ext w h h').
Qed.

Lemma terminated_frame w h h' :
  terminated w h ->
  (xs_is_ptr w = true -> blocks h' !! get_ptr w = blocks h !! get_ptr w) ->
  terminated w h'.
Proof.
  intros (r & Hr & H) Hb. exists r. split; [|done]. by rewrite (region_ext w h h').
Qed.

Lemma padd_0 p : padd p 0 = p.
Proof. destruct p; simpl; f_equal; lia. Qed.

(** One [memcpy] into the buffer of [t] of bytes read elsewhere. *)
Lemma memcpy_into t h r (i : nat) src sdata n (bs : list Z) :
  region t h = Some r -> (0 < length r)%nat ->
  (i + length bs <= length r)%nat -> Forall is_byte bs ->
  (xs_is_ptr t = false -> (i + length bs <= 15)%nat \/ last bs = Some 0) ->
  loadn src h sdata n = Ok (map Some bs) ->
  exists t' h',
    memcpy t (padd (xs_data t) (Z.of_nat i)) src sdata n h = Ok (t', h') /\
    region t' h' = Some (splice i (map Some bs) r) /\
    xs_is_ptr t' = xs_is_ptr t /\
    xs_data t' = xs_data t /\
    (xs_is_ptr t = true -> t' = t) /\
    (xs_is_ptr t = false -> h' = h) /\
    brk h' = brk h /\
    (forall b, xs_is_ptr t = false \/ b <> get_ptr t -> blocks h' !! b = blocks h !! b) /\
    (xs_is_large_string t = true ->
       take 4 <$> blocks h' !! get_ptr t = take 4 <$> blocks h !! get_ptr t).
Proof.
  intros Hr Hpos Hb Hbs Hflag Hld. unfold memcpy. rewrite Hld. cbn [bind].
  by apply store_own.
Qed.

(** The buffer after the three copies of [xs_concat]. *)
Lemma concat_layout (r : list cell) (p c s : list Z) :
  (length p + length c + length s + 1 <= length r)%nat ->
  let r3 := splice (length p + length c) (map Some (s ++ [0]))
              (splice 0 (map Some p) (splice (length p) (map Some c) r)) in
  length r3 = length r /\
  take (length (p ++ c ++ s)) r3 = map Some (p ++ c ++ s) /\
  r3 !! length (p ++ c ++ s) = Some (Some 0).
Proof.
  intros Hlen r3.
  assert (Hl1 : length (splice (length p) (map Some c) r) = length r)
    by (apply length_splice; rewrite length_map; lia).
  assert (Hl2 : length (splice 0 (map Some p) (splice (length p) (map Some c) r))
                = length r)
    by (rewrite length_splice; rewrite ?length_map; lia).
  assert (Hl3 : length r3 = length r).
  { unfold r3. rewrite length_splice; rewrite ?length_map, ?length_app; simpl; lia. }
  assert (Hlook : forall j, (j < length p + length c + length s + 1)%nat ->
            r3 !! j = map Some (p ++ c ++ s ++ [0]) !! j).
  { intros j Hj. unfold r3.
    rewrite lookup_splice by (rewrite ?length_map, ?length_app; simpl; lia).
    rewrite length_map, length_app. simpl length.
    rewrite !list_lookup_fmap.
    destruct (decide (j < length p + length c)%nat).
    - rewrite lookup_splice by (rewrite ?length_map; lia).
      rewrite length_map. destruct (decide (j < 0)%nat); [lia|].
      destruct (decide (j < 0 + length p)%nat).
      + rewrite list_lookup_fmap, Nat.sub_0_r. by rewrite lookup_app_l by lia.
      + rewrite lookup_splice by (rewrite ?length_map; lia).
        rewrite length_map. destruct (decide (j < length p)%nat); [lia|].
        destruct (decide (j < length p + length c)%nat); [|lia].
        rewrite list_lookup_fmap.
        rewrite (lookup_app_r p) by lia. by rewrite lookup_app_l by lia.
    - destruct (decide (j < length p + length c + (length s + 1))%nat); [|lia].
      rewrite (lookup_app_r p) by lia. rewrite (lookup_app_r c) by lia.
      do 2 f_equal. lia. }
  split; [done|]. split.
  - apply list_eq. intros j. rewrite !length_app.
    destruct (decide (j < length p + (length c + length s))%nat).
    + rewrite lookup_take_lt, Hlook by lia.
      rewrite !list_lookup_fmap. f_equal.
      rewrite !app_assoc. rewrite lookup_app_l; [done|].
      rewrite !length_app. lia.
    + rewrite lookup_take_ge by lia. symmetry. apply lookup_ge_None_2.
      rewrite length_map, !length_app. lia.
  - rewrite Hlook by (rewrite !length_app; lia).
    rewrite list_lookup_fmap, !app_assoc.
    rewrite lookup_app_r by (rewrite !length_app; lia).
    by rewrite Nat.sub_diag.
Qed.

Lemma xs_set_size_props v n :
  xs_is_ptr (set_size v n) = xs_is_ptr v /\
  xs_is_large_string (set_size v n) = xs_is_large_string v /\
  xs_data (set_size v n) = xs_data v /\
  xs_capacity (set_size v n) = xs_capacity v /\
  get_ptr (set_size v n) = get_ptr v.
Proof.
  unfold xs_data, xs_capacity, xs_is_ptr, xs_is_large_string.
  by rewrite is_ptr_set_size, is_large_set_size, capacity_set_size.
Qed.

Lemma region_same_data v v' h :
  xs_is_ptr v = true -> xs_data v' = xs_data v -> region v' h = region v h.
Proof.
  intros Hp Hd. unfold region. rewrite Hd.
  destruct (xs_data_cases v) as [[E _]|[_ (off & _ & E)]]; [congruence|].
  by rewrite E.
Qed.

Lemma finish_heap v h r (bs : list Z) :
  xs_is_ptr v = true -> region v h = Some r ->
  Z.of_nat (length r) = xs_capacity v + 1 ->
  take (length bs) r = map Some bs -> r !! length bs = Some (Some 0) ->
  Z.of_nat (length bs) <= xs_capacity v -> Z.of_nat (length bs) < 2 ^ 54 ->
  Forall is_byte bs ->
  has_content (set_size v (Z.of_nat (length bs))) h bs /\
  terminated (set_size v (Z.of_nat (length bs))) h.
Proof.
  intros Hp Hr Hlen Htake Hterm Hcap Hsz Hbs.
  destruct (xs_set_size_props v (Z.of_nat (length bs))) as (Hp' & Hl' & Hd' & Hc' & Hq').
  assert (Hr' : region (set_size v (Z.of_nat (length bs))) h = Some r).
  { by rewrite (region_same_data v). }
  assert (Hs' : xs_size (set_size v (Z.of_nat (length bs))) = Z.of_nat (length bs)).
  { unfold xs_size. rewrite Hp', Hp, size_set_size. apply Z.mod_small. lia. }
  split.
  - exists r. rewrite Hc', Hs'. split_and!; done.
  - exists r. rewrite Hs', Nat2Z.id. split; done.
Qed.

Lemma byte15_set_space_left_zero v :
  get_byte v 15 = 0 -> get_byte (set_space_left v 0) 15 = 0.
Proof.
  unfold get_byte, set_space_left. change (15 <? 8) with false. cbv iota.
  change (8 * (15 - 8)) with 56. cbn [hi]. intros E.
  apply Z.bits_inj'. intros i Hi. rewrite Z.bits_0.
  rewrite testbit_getf, testbit_setf by lia.
  destruct (Z.ltb_spec i 8); [|by rewrite andb_false_r].
  rewrite andb_true_r.
  destruct ((56 <=? i + 56) && (i + 56 <? 56 + 4)); [apply Z.bits_0|].
  assert (Z.testbit (getf 56 8 (hi v)) i = false) as Hb by (rewrite E; apply Z.bits_0).
  rewrite testbit_getf in Hb by lia.
  destruct (Z.ltb_spec i 8); [|lia]. by rewrite andb_true_r in Hb.
Qed.

Lemma finish_inline v h (bs : list Z) :
  xs_is_ptr v = false ->
  take (length bs) (self_cells v) = map Some bs ->
  self_cells v !! length bs = Some (Some 0) ->
  (length bs <= 15)%nat -> Forall is_byte bs ->
  has_content (set_space_left v (15 - Z.of_nat (length bs))) h bs /\
  terminated (set_space_left v (15 - Z.of_nat (length bs))) h.
Proof.
  intros Hp Htake Hterm Hlen Hbs.
  set (v' := set_space_left v (15 - Z.of_nat (length bs))).
  assert (Hp' : xs_is_ptr v' = false).
  { unfold xs_is_ptr, v' in *. by rewrite is_ptr_set_space_left. }
  assert (Hs' : xs_size v' = Z.of_nat (length bs)).
  { unfold xs_size. rewrite Hp'. unfold v'. rewrite space_left_set_space_left.
    change (2 ^ 4) with 16. rewrite Z.mod_small by lia. lia. }
  assert (Hc' : xs_capacity v' = 15) by (unfold xs_capacity; by rewrite Hp').
  assert (Hcells : forall j, (j <= length bs)%nat -> self_cells v' !! j = self_cells v !! j).
  { intros j Hj. rewrite !lookup_self_cells by lia. do 2 f_equal.
    destruct (decide (j < 15)%nat).
    - unfold v'. apply get_byte_set_space_left. lia.
    - assert (j = 15%nat) as -> by lia. assert (length bs = 15%nat) as E by lia.
      rewrite E in Hterm. rewrite lookup_self_cells in Hterm by lia.
      change (Z.of_nat 15) with 15 in *. injection Hterm as Hterm.
      unfold v'. rewrite E. change (15 - Z.of_nat 15) with 0.
      by rewrite byte15_set_space_left_zero, Hterm. }
  split.
  - exists (self_cells v'). rewrite region_inline by done. split; [done|].
    rewrite length_self_cells, Hc', Hs'. split_and!; try done; try lia.
    rewrite <- Htake. apply list_eq. intros j.
    destruct (decide (j < length bs)%nat).
    + rewrite !lookup_take_lt by lia. apply Hcells. lia.
    + by rewrite !lookup_take_ge by lia.
  - exists (self_cells v'). rewrite region_inline by done. split; [done|].
    rewrite Hs', Nat2Z.id, Hcells by lia. done.
Qed.

Lemma xs_concat_eq string prefix suffix h :
  xs_concat string prefix suffix h =
  '(_, string', data', h') <- xs_cow_lazy_copy string (Some (xs_data string)) h ;;
  concat_body string' (default (xs_data string) data') (xs_size string)
    (xs_capacity string) prefix suffix h'.
Proof. reflexivity. Qed.

Lemma separate_frame (t w : xs) (h h' : heap) :
  separate t w ->
  (forall b, xs_is_ptr t = false \/ b <> get_ptr t -> blocks h' !! b = blocks h !! b) ->
  xs_is_ptr w = true -> blocks h' !! get_ptr w = blocks h !! get_ptr w.
Proof.
  intros Hsep Hfr Hw. apply Hfr.
  destruct (xs_is_ptr t) eqn:Ht; [right|by left].
  intros E. by apply Hsep.
Qed.

Lemma concat_body_in_place string prefix suffix h (c p s : list Z) :
  has_content string h c -> has_content prefix h p ->
  has_content suffix h s -> terminated suffix h ->
  separate string prefix -> separate string suffix ->
  Z.of_nat (length p + length c + length s) <= xs_capacity string ->
  Z.of_nat (length p + length c + length s) < 2 ^ 54 ->
  exists v' h',
    concat_body string (xs_data string) (xs_size string) (xs_capacity string)
      prefix suffix h = Ok (v', h') /\
    has_content v' h' (p ++ c ++ s) /\ terminated v' h' /\
    xs_is_ptr v' = xs_is_ptr string /\
    xs_capacity v' = xs_capacity string /\
    (xs_is_ptr string = true ->
       v' = set_size string (Z.of_nat (length (p ++ c ++ s)))) /\
    brk h' = brk h /\
    (forall b, xs_is_ptr string = false \/ b <> get_ptr string ->
       blocks h' !! b = blocks h !! b) /\
    (xs_is_large_string string = true ->
       take 4 <$> blocks h' !! get_ptr string = take 4 <$> blocks h !! get_ptr string).
Proof.
  intros Hc Hp Hs Hts Hsp Hss Hcap Hbound.
  pose proof Hc as (r & Hr & Hlen & Hsz & Hcc & Htake & Hbc).
  pose proof Hp as (rp & Hrp & Hlenp & Hszp & Hcp & Htakep & Hbp).
  pose proof Hs as (rs & Hrs & Hlens & Hszs & Hcs & Htakes & Hbs).
  unfold concat_body. rewrite Hsz, Hszp, Hszs.
  destruct (Z.leb_spec (Z.of_nat (length c) + Z.of_nat (length p) + Z.of_nat (length s))
              (xs_capacity string)) as [_|?]; [|lia].
  assert (Hcap15 : xs_is_ptr string = false -> xs_capacity string = 15).
  { intros E. unfold xs_capacity. by rewrite E. }
  (* memmove(data + pres, data, size) *)
  destruct (memcpy_into string h r (length p) string (xs_data string)
              (Z.of_nat (length c)) c Hr)
    as (t1 & h1 & Hm1 & Hr1 & Hp1 & Hd1 & Hsame1 & Hh1 & Hbrk1 & Hfr1 & Hhdr1);
    [lia|lia|done| |by rewrite <- Hsz; apply has_content_load|].
  { intros E. left. specialize (Hcap15 E). lia. }
  unfold memmove. rewrite Hm1. cbn [bind].
  (* memcpy(data, pre, pres) *)
  assert (Hp_1 : has_content prefix h1 p).
  { eapply has_content_frame; [done|]. by apply (separate_frame string). }
  destruct (memcpy_into t1 h1 _ 0 prefix (xs_data prefix) (Z.of_nat (length p)) p Hr1)
    as (t2 & h2 & Hm2 & Hr2 & Hp2 & Hd2 & Hsame2 & Hh2 & Hbrk2 & Hfr2 & Hhdr2).
  { rewrite length_splice; rewrite ?length_map; lia. }
  { rewrite length_splice; rewrite ?length_map; lia. }
  { done. }
  { intros E. left. rewrite Hp1 in E. specialize (Hcap15 E). lia. }
  { rewrite <- Hszp. by apply has_content_load. }
  rewrite Hd1, padd_0 in Hm2. rewrite Hm2. cbn [bind].
  (* memcpy(data + pres + size, suf, sufs + 1) *)
  assert (Hfr12 : forall b, xs_is_ptr string = false \/ b <> get_ptr string ->
            blocks h2 !! b = blocks h !! b).
  { intros b Hb. rewrite Hfr2, Hfr1; try done.
    rewrite Hp1. destruct Hb as [?|Hb]; [by left|].
    destruct (xs_is_ptr string) eqn:E; [|by left]. right. by rewrite Hsame1. }
  assert (Hs_2 : has_content suffix h2 s).
  { eapply has_content_frame; [done|]. by apply (separate_frame string). }
  assert (Hts_2 : terminated suffix h2).
  { eapply terminated_frame; [done|]. by apply (separate_frame string). }
  destruct (memcpy_into t2 h2 _ (length p + length c) suffix (xs_data suffix)
              (Z.of_nat (length s) + 1) (s ++ [0]) Hr2)
    as (t3 & h3 & Hm3 & Hr3 & Hp3 & Hd3 & Hsame3 & Hh3 & Hbrk3 & Hfr3 & Hhdr3).
  { rewrite !length_splice; rewrite ?length_map, ?length_splice; rewrite ?length_map; lia. }
  { rewrite length_app. simpl length.
    rewrite !length_splice; rewrite ?length_map, ?length_splice; rewrite ?length_map; lia. }
  { apply Forall_app. split; [done|]. repeat constructor; unfold is_byte; lia. }
  { intros _. right. by rewrite last_snoc. }
  { rewrite <- Hszs. by apply has_content_load_terminated. }
  rewrite Hd2, Hd1 in Hm3.
  replace (Z.of_nat (length p + length c)) with (Z.of_nat (length p) + Z.of_nat (length c))
    in Hm3 by lia.
  rewrite Hm3. cbn [bind].
  destruct (concat_layout r p c s) as (Hl3 & Htake3 & Hterm3); [lia|].
  assert (Hlenpcs : length (p ++ c ++ s) = (length p + length c + length s)%nat)
    by (rewrite !length_app; lia).
  assert (Hbytes : Forall is_byte (p ++ c ++ s)) by (rewrite !Forall_app; done).
  replace (Z.of_nat (length c) + Z.of_nat (length p) + Z.of_nat (length s))
    with (Z.of_nat (length (p ++ c ++ s))) by lia.
  assert (Hfr123 : forall b, xs_is_ptr string = false \/ b <> get_ptr string ->
            blocks h3 !! b = blocks h !! b).
  { intros b Hb. rewrite Hfr3, Hfr12; try done.
    rewrite Hp2, Hp1. destruct Hb as [?|Hb]; [by left|].
    destruct (xs_is_ptr string) eqn:E; [|by left]. right.
    rewrite Hsame2, Hsame1; [done|done|by rewrite Hp1]. }
  rewrite Hp3, Hp2, Hp1.
  destruct (xs_is_ptr string) eqn:Hptr.
  - pose proof (Hsame1 ltac:(done)) as E1. subst t1.
    pose proof (Hsame2 ltac:(done)) as E2. subst t2.
    pose proof (Hsame3 ltac:(done)) as E3. subst t3.
    destruct (finish_heap string h3 _ (p ++ c ++ s) Hptr Hr3) as [Hc' Ht'];
      try done; try lia.
    eexists _, _. split; [reflexivity|].
    destruct (xs_set_size_props string (Z.of_nat (length (p ++ c ++ s))))
      as (Hp' & _ & _ & Hc'' & _).
    split_and!; try done.
    + by rewrite Hp'.
    + congruence.
    + intros Hl. by rewrite Hhdr3, Hhdr2, Hhdr1.
  - assert (Hreg3 : self_cells t3 = splice (length p + length c) (map Some (s ++ [0]))
              (splice 0 (map Some p) (splice (length p) (map Some c) r))).
    { rewrite region_inline in Hr3 by (by rewrite Hp3, Hp2, Hp1). by injection Hr3. }
    specialize (Hcap15 eq_refl).
    destruct (finish_inline t3 h3 (p ++ c ++ s)) as [Hc' Ht'];
      [by rewrite Hp3, Hp2, Hp1|by rewrite Hreg3|by rewrite Hreg3|lia|done|].
    eexists _, _. split; [reflexivity|].
    split_and!; try done.
    + unfold xs_is_ptr. rewrite is_ptr_set_space_left.
      fold (xs_is_ptr t3). by rewrite Hp3, Hp2, Hp1.
    + unfold xs_capacity, xs_is_ptr. rewrite is_ptr_set_space_left.
      fold (xs_is_ptr t3). rewrite Hp3, Hp2, Hp1. done.
    + congruence.
    + intros Hl. rewrite Hh3, Hh2, Hh1; try done; by rewrite ?Hp2, ?Hp1.
Qed.

(** ** Allocator invariant *)

Lemma heap_ok_fresh h : heap_ok h -> blocks h !! brk h = None.
Proof.
  intros [_ Hok]. destruct (blocks h !! brk h) eqn:E; [|done].
  specialize (Hok (brk h)). rewrite E in Hok. specialize (Hok ltac:(by eexists)). lia.
Qed.

Lemma heap_ok_alloc cs h : heap_ok h -> heap_ok (alloc cs h).2.
Proof.
  intros [Hpos Hok]. unfold alloc. cbn [snd blocks brk].
  assert (0 <= Z.of_nat (length cs) / 16) by (apply Z.div_pos; lia).
  unfold heap_ok. cbn [blocks brk].
  split; [lia|]. intros b [blk Hb].
  destruct (decide (b = brk h)) as [->|Hne]; [lia|].
  rewrite lookup_insert_ne in Hb by done.
  specialize (Hok b ltac:(by eexists)). lia.
Qed.

Lemma heap_ok_same_dom h h' :
  heap_ok h -> brk h' = brk h ->
  (forall b, is_Some (blocks h' !! b) -> is_Some (blocks h !! b)) ->
  heap_ok h'.
Proof.
  intros [Hpos Hok] Hbrk Hdom. split; [lia|].
  intros b Hb. rewrite Hbrk. by apply Hok, Hdom.
Qed.

Lemma has_content_block w h c :
  has_content w h c -> xs_is_ptr w = true -> is_Some (blocks h !! get_ptr w).
Proof.
  intros (r & Hr & _) Hp. unfold region in Hr.
  destruct (xs_data_cases w) as [[E _]|[_ (off & _ & E)]]; [congruence|].
  rewrite E in Hr. destruct (blocks h !! get_ptr w); [by eexists|done].
Qed.

Lemma has_content_not_fresh w h c :
  heap_ok h -> has_content w h c -> xs_is_ptr w = true -> get_ptr w <> brk h.
Proof.
  intros Hok Hc Hp E. pose proof (has_content_block w h c Hc Hp) as [blk Hb].
  rewrite E, heap_ok_fresh in Hb; done.
Qed.

(** [xs_grow] of the empty value: a fresh buffer. *)
Lemma xs_grow_literal (total : Z) (h : heap) :
  15 < total < 2 ^ 30 ->
  let k := Z.log2 total + 1 in
  exists t blk,
    xs_grow xs_literal_empty total h = Ok (t, (alloc blk h).2) /\
    get_ptr t = brk h /\
    xs_is_ptr t = true /\
    xs_is_large_string t = negb (total <? 256) /\
    xs_capacity t = 2 ^ k - 1 /\
    region t (alloc blk h).2 = Some (replicate (Z.to_nat (2 ^ k)) None) /\
    (xs_is_large_string t = true -> load_int (brk h) (alloc blk h).2 = Ok 1).
Proof.
  intros Htot k.
  assert (Hlg : 4 <= Z.log2 total < 30).
  { split; [apply Z.log2_le_pow2; [lia|change (2 ^ 4) with 16; lia]
           |apply Z.log2_lt_pow2; lia]. }
  destruct literal_empty_fields as (He1 & He2 & He3 & He4 & He5).
  unfold xs_grow. rewrite He4.
  destruct (Z.leb_spec total 15); [lia|].
  rewrite ilog2_small by lia. cbn [bind]. fold k.
  set (x1 := set_capacity (set_is_ptr xs_literal_empty 1) k).
  assert (Hc1 : get_capacity x1 = k).
  { unfold x1. rewrite capacity_set_capacity. apply Z.mod_small.
    change (2 ^ 6) with 64. unfold k. lia. }
  assert (Hg1 : get_is_ptr x1 = 1).
  { unfold x1. by rewrite is_ptr_set_capacity, is_ptr_set_is_ptr. }
  assert (Hp1 : xs_is_ptr x1 = true).
  { unfold xs_is_ptr. by rewrite Hg1. }
  assert (Hl1 : get_is_large_string x1 = 0).
  { unfold x1. rewrite is_large_set_capacity, is_large_set_is_ptr.
    unfold xs_is_large_string in He2. by destruct (Z.eqb_spec (get_is_large_string xs_literal_empty) 0). }
  assert (Hq1 : get_ptr x1 = 0) by done.
  rewrite Hp1. unfold xs_allocate_data, LARGE_STRING_LEN.
  assert (Hpow : 0 < 2 ^ k) by (apply Z.pow_pos_nonneg; unfold k; lia).
  destruct (Z.ltb_spec total 256).
  - rewrite Hq1, Hc1, shiftl_1 by (unfold k; lia).
    unfold realloc. change (0 =? 0) with true. cbv iota.
    unfold malloc, alloc. cbn [bind snd].
    eexists _, _. split; [reflexivity|].
    assert (Hdata : xs_data (set_ptr x1 (brk h)) = Buf (brk h) 0).
    { rewrite xs_data_medium by (by autorewrite with xsf). done. }
    split_and!.
    + done.
    + unfold xs_is_ptr in *. by autorewrite with xsf.
    + unfold xs_is_large_string. autorewrite with xsf. by rewrite Hl1.
    + unfold xs_capacity, xs_is_ptr in *. autorewrite with xsf.
      rewrite Hg1. cbn [negb Z.eqb]. cbv iota.
      rewrite Hc1, shiftl_1 by (unfold k; lia). done.
    + unfold region. rewrite Hdata. cbn [blocks].
      rewrite lookup_insert_eq. done.
    + unfold xs_is_large_string. autorewrite with xsf. by rewrite Hl1.
  - rewrite capacity_set_is_large, Hc1. unfold shl_int.
    destruct (Z.ltb_spec k 31); [|unfold k in *; lia]. cbn [bind].
    rewrite shiftl_1 by (unfold k; lia).
    replace (get_ptr (set_is_large_string x1 1)) with 0 by done.
    unfold realloc. change (0 =? 0) with true. cbv iota.
    unfold malloc, alloc. cbn [bind snd].
    unfold xs_set_ref_count. rewrite ptr_set_ptr.
    erewrite store_int_block; [|apply lookup_insert_eq|rewrite length_replicate; lia].
    cbn [bind].
    exists (set_ptr (set_is_large_string x1 1) (brk h)),
           (set_hdr 1 (replicate (Z.to_nat (2 ^ k + 4)) None)).
    assert (Hdata : xs_data (set_ptr (set_is_large_string x1 1) (brk h)) = Buf (brk h) 4).
    { rewrite xs_data_large by (by autorewrite with xsf). done. }
    split_and!.
    + f_equal. f_equal. unfold upd. cbn [blocks brk]. rewrite insert_insert_eq.
      f_equal. rewrite length_set_hdr by (rewrite length_replicate; lia).
      by rewrite length_replicate.
    + done.
    + unfold xs_is_ptr in *. by autorewrite with xsf.
    + unfold xs_is_large_string. by autorewrite with xsf.
    + unfold xs_capacity, xs_is_ptr in *. autorewrite with xsf.
      rewrite Hg1. cbn [negb Z.eqb]. cbv iota.
      rewrite Hc1, shiftl_1 by (unfold k; lia). done.
    + unfold region. rewrite Hdata. cbn [blocks].
      rewrite lookup_insert_eq. cbn [fmap option_fmap option_map]. f_equal.
      change (Z.to_nat 4) with 4%nat. unfold set_hdr.
      rewrite drop_app_length' by done. rewrite drop_replicate_none.
      f_equal. lia.
    + intros _. eapply load_int_hdr; [|done]. cbn [blocks].
      apply lookup_insert_eq.
Qed.

Lemma load_int_ext p h h' :
  blocks h' !! p = blocks h !! p -> load_int p h' = load_int p h.
Proof. intros E. unfold load_int, loadn. by rewrite E. Qed.

Lemma load_int_take4 p h h' :
  take 4 <$> blocks h' !! p = take 4 <$> blocks h !! p ->
  forall c, load_int p h = Ok c -> load_int p h' = Ok c.
Proof.
  intros E c. unfold load_int, loadn.
  destruct (blocks h !! p) as [blk|] eqn:Hb; [|done].
  destruct (blocks h' !! p) as [blk'|] eqn:Hb'; [|done].
  cbn in E. injection E as E.
  change (Z.to_nat 0) with 0%nat. change (Z.to_nat 4) with 4%nat.
  rewrite !drop_0, E.
  destruct (Z.leb_spec (0 + 4) (Z.of_nat (length blk))); cbn [andb Z.leb]; [|done].
  assert (length (take 4 blk') = length (take 4 blk)) as Hl by (by rewrite E).
  rewrite !length_take in Hl.
  destruct (Z.leb_spec (0 + 4) (Z.of_nat (length blk'))); [done|lia].
Qed.

Lemma unshared_frame v h h' :
  unshared v h -> blocks h' !! get_ptr v = blocks h !! get_ptr v -> unshared v h'.
Proof.
  intros [?|Hc] E; [by left|right]. by rewrite (load_int_ext _ h h').
Qed.

Lemma cow_unshared v d h :
  unshared v h -> xs_cow_lazy_copy v d h = Ok (Some false, v, d, h).
Proof.
  intros Hu. unfold xs_cow_lazy_copy, xs_get_ref_count.
  destruct Hu as [->|Hc]; [done|].
  destruct (xs_is_large_string v); cbn [negb]; [|done].
  by rewrite Hc.
Qed.

Lemma xs_free_unshared v h :
  unshared v h ->
  (xs_is_ptr v = true -> is_Some (blocks h !! get_ptr v)) ->
  exists h',
    xs_free v h = Ok (xs_literal_empty, h') /\
    brk h' = brk h /\
    (forall b, xs_is_ptr v = false \/ b <> get_ptr v -> blocks h' !! b = blocks h !! b) /\
    (forall b, is_Some (blocks h' !! b) -> is_Some (blocks h !! b)).
Proof.
  intros Hu Hblk. unfold xs_free.
  destruct (xs_is_ptr v) eqn:Hp.
  2:{ exists h. cbn [bind]. split_and!; done. }
  destruct (Hblk eq_refl) as [blk Hb].
  unfold xs_dec_ref_count.
  destruct (xs_is_large_string v) eqn:Hl; cbn [negb].
  - destruct Hu as [?|Hc]; [congruence|]. rewrite Hc. cbn [bind].
    change (1 =? INT_MIN) with false. cbv iota.
    destruct (load_int_inv _ _ _ Hc) as (blk' & Hb' & Hlen).
    erewrite store_int_block by done. cbn [bind].
    change (1 - 1 <=? 0) with true. cbv iota.
    unfold free. destruct (Z.eqb_spec (get_ptr v) 0) as [E|E]; cbn [bind].
    + eexists. split; [reflexivity|]. split_and!; [done| |].
      * intros b [?|Hne]; [done|]. by apply blocks_upd_ne.
      * intros b. destruct (decide (b = get_ptr v)) as [->|Hne].
        -- intros _. by eexists.
        -- by rewrite blocks_upd_ne.
    + rewrite blocks_upd_eq. cbn [bind].
      eexists. split; [reflexivity|]. cbn [blocks brk upd]. split_and!; [done| |].
      * intros b [?|Hne]; [done|].
        by rewrite lookup_delete_ne, lookup_insert_ne.
      * intros b. destruct (decide (b = get_ptr v)) as [->|Hne].
        -- intros _. by eexists.
        -- by rewrite lookup_delete_ne, lookup_insert_ne.
  - cbn [bind]. change (0 <=? 0) with true. cbv iota.
    unfold free. destruct (Z.eqb_spec (get_ptr v) 0) as [E|E]; cbn [bind].
    + exists h. split_and!; done.
    + rewrite Hb. cbn [bind]. eexists. split; [reflexivity|].
      cbn [blocks brk]. split_and!; [done| |].
      * intros b [?|Hne]; [done|]. by rewrite lookup_delete_ne.
      * intros b. destruct (decide (b = get_ptr v)) as [->|Hne].
        -- intros _. by eexists.
        -- by rewrite lookup_delete_ne.
Qed.

Lemma concat_body_realloc string prefix suffix h (c p s : list Z) :
  heap_ok h ->
  has_content string h c -> has_content prefix h p ->
  has_content suffix h s -> terminated suffix h ->
  unshared string h ->
  15 <= xs_capacity string ->
  xs_capacity string < Z.of_nat (length p + length c + length s) < 2 ^ 30 ->
  exists v' h',
    concat_body string (xs_data string) (xs_size string) (xs_capacity string)
      prefix suffix h = Ok (v', h') /\
    has_content v' h' (p ++ c ++ s) /\ terminated v' h' /\
    xs_is_ptr v' = true /\ get_ptr v' = brk h /\
    xs_is_large_string v' = negb (Z.of_nat (length (p ++ c ++ s)) <? 256) /\
    (xs_is_large_string v' = true -> load_int (get_ptr v') h' = Ok 1) /\
    heap_ok h' /\
    (forall b, b <> brk h -> xs_is_ptr string = false \/ b <> get_ptr string ->
       blocks h' !! b = blocks h !! b).
Proof.
  intros Hok Hc Hp Hs Hts Hu Hcap15 Htot.
  pose proof Hc as (r & Hr & Hlen & Hsz & Hcc & Htake & Hbc).
  pose proof Hp as (rp & Hrp & Hlenp & Hszp & Hcp & Htakep & Hbp).
  pose proof Hs as (rs & Hrs & Hlens & Hszs & Hcs & Htakes & Hbs).
  unfold concat_body. rewrite Hsz, Hszp, Hszs.
  destruct (Z.leb_spec (Z.of_nat (length c) + Z.of_nat (length p) + Z.of_nat (length s))
              (xs_capacity string)) as [?|_]; [lia|].
  set (total := Z.of_nat (length c) + Z.of_nat (length p) + Z.of_nat (length s)).
  assert (Htotal : total = Z.of_nat (length (p ++ c ++ s)))
    by (unfold total; rewrite !length_app; lia).
  destruct (xs_grow_literal total h) as (t & blk & Hg & Hqt & Hpt & Hlt & Hct & Hrt & Hhdrt);
    [unfold total; lia|].
  rewrite Hg. cbn [bind].
  set (k := Z.log2 total + 1) in *.
  set (h1 := (alloc blk h).2) in *.
  assert (Hpow : total < 2 ^ k).
  { pose proof (Z.log2_spec total ltac:(unfold total; lia)) as [_ Hhi].
    unfold k. by replace (Z.log2 total + 1) with (Z.succ (Z.log2 total)) by lia. }
  assert (Hfr0 : forall b, b <> brk h -> blocks h1 !! b = blocks h !! b).
  { intros b Hb. unfold h1, alloc. cbn [snd blocks]. by rewrite lookup_insert_ne. }
  assert (Hok1 : heap_ok h1) by (by apply heap_ok_alloc).
  assert (Hbrk01 : brk h <= brk h1).
  { unfold h1, alloc. cbn [snd brk].
    assert (0 <= Z.of_nat (length blk) / 16) by (apply Z.div_pos; lia). lia. }
  (* the three sources are not the new block *)
  assert (Hnf : forall w cw, has_content w h cw -> xs_is_ptr w = true ->
            get_ptr w <> brk h).
  { intros w cw Hw Hpw. by eapply has_content_not_fresh. }
  assert (Hkeep : forall w (hx : heap),
            (forall b, b <> brk h -> blocks hx !! b = blocks h !! b) ->
            forall cw, has_content w h cw -> has_content w hx cw).
  { intros w hx Hfr cw Hw. eapply has_content_frame; [done|].
    intros Hpw. apply Hfr. by eapply Hnf. }
  assert (Hlenr0 : length (replicate (Z.to_nat (2 ^ k)) (@None Z)) = Z.to_nat (2 ^ k))
    by apply length_replicate.
  (* memcpy(tmpdata + pres, data, size) *)
  destruct (memcpy_into t h1 _ (length p) string (xs_data string)
              (Z.of_nat (length c)) c Hrt)
    as (t1 & h2 & Hm1 & Hr1 & Hp1 & Hd1 & Hsame1 & _ & Hbrk1 & Hfr1 & Hhdr1);
    [rewrite Hlenr0; lia|rewrite Hlenr0; unfold total in *; lia|done|congruence| |].
  { rewrite <- Hsz. apply has_content_load. by apply Hkeep. }
  rewrite Hm1. cbn [bind]. pose proof (Hsame1 Hpt) as ->.
  assert (Hfr02 : forall b, b <> brk h -> blocks h2 !! b = blocks h !! b).
  { intros b Hb. rewrite Hfr1 by (right; congruence). by apply Hfr0. }
  (* memcpy(tmpdata, pre, pres) *)
  destruct (memcpy_into t h2 _ 0 prefix (xs_data prefix) (Z.of_nat (length p)) p Hr1)
    as (t2 & h3 & Hm2 & Hr2 & Hp2 & Hd2 & Hsame2 & _ & Hbrk2 & Hfr2 & Hhdr2).
  { rewrite length_splice; rewrite ?length_map, ?Hlenr0; unfold total in *; lia. }
  { rewrite length_splice; rewrite ?length_map, ?Hlenr0; unfold total in *; lia. }
  { done. }
  { congruence. }
  { rewrite <- Hszp. apply has_content_load. by apply Hkeep. }
  rewrite padd_0 in Hm2. rewrite Hm2. cbn [bind]. pose proof (Hsame2 Hpt) as ->.
  assert (Hfr03 : forall b, b <> brk h -> blocks h3 !! b = blocks h !! b).
  { intros b Hb. rewrite Hfr2 by (right; congruence). by apply Hfr02. }
  (* memcpy(tmpdata + pres + size, suf, sufs + 1) *)
  destruct (memcpy_into t h3 _ (length p + length c) suffix (xs_data suffix)
              (Z.of_nat (length s) + 1) (s ++ [0]) Hr2)
    as (t3 & h4 & Hm3 & Hr3 & Hp3 & Hd3 & Hsame3 & _ & Hbrk3 & Hfr3 & Hhdr3).
  { rewrite !length_splice; rewrite ?length_map, ?length_splice;
      rewrite ?length_map, ?Hlenr0; unfold total in *; lia. }
  { rewrite length_app. simpl length.
    rewrite !length_splice; rewrite ?length_map, ?length_splice;
      rewrite ?length_map, ?Hlenr0; unfold total in *; lia. }
  { apply Forall_app. split; [done|]. repeat constructor; unfold is_byte; lia. }
  { congruence. }
  { rewrite <- Hszs. apply has_content_load_terminated.
    - by apply Hkeep.
    - eapply terminated_frame; [done|]. intros Hpw. apply Hfr03. by eapply Hnf. }
  replace (Z.of_nat (length p + length c)) with (Z.of_nat (length p) + Z.of_nat (length c))
    in Hm3 by lia.
  rewrite Hm3. cbn [bind]. pose proof (Hsame3 Hpt) as ->.
  assert (Hfr04 : forall b, b <> brk h -> blocks h4 !! b = blocks h !! b).
  { intros b Hb. rewrite Hfr3 by (right; congruence). by apply Hfr03. }
  (* xs_free(string) *)
  destruct (xs_free_unshared string h4) as (h5 & Hf & Hbrk5 & Hfr5 & Hdom5).
  { destruct (xs_is_ptr string) eqn:Hps.
    - apply unshared_frame with h; [done|]. apply Hfr04. by eapply Hnf.
    - destruct Hu as [?|Hc1]; [by left|].
      destruct (decide (get_ptr string = brk h)) as [E|E].
      + pose proof (load_int_inv _ _ _ Hc1) as (b' & Hb' & _).
        rewrite E, heap_ok_fresh in Hb'; done.
      + apply unshared_frame with h; [by right|]. by apply Hfr04. }
  { intros Hps. rewrite Hfr04 by (by eapply Hnf). by eapply has_content_block. }
  rewrite Hf. cbn [bind].
  (* the result *)
  destruct (concat_layout (replicate (Z.to_nat (2 ^ k)) None) p c s)
    as (Hl3 & Htake3 & Hterm3); [rewrite Hlenr0; unfold total in *; lia|].
  assert (Hrt5 : region t h5 = Some
            (splice (length p + length c) (map Some (s ++ [0]))
               (splice 0 (map Some p)
                  (splice (length p) (map Some c)
                     (replicate (Z.to_nat (2 ^ k)) None))))).
  { rewrite <- Hr3. apply region_ext. intros _. apply Hfr5.
    destruct (xs_is_ptr string) eqn:Hps; [right|by left].
    rewrite Hqt. intros E. symmetry in E. revert E. by eapply Hnf. }
  destruct (finish_heap t h5 _ (p ++ c ++ s) Hpt Hrt5) as [Hc' Ht'].
  { rewrite Hl3, Hlenr0, Hct. lia. }
  { done. }
  { done. }
  { rewrite Hct. lia. }
  { change (2 ^ 54) with 18014398509481984. change (2 ^ 30) with 1073741824 in Htot. lia. }
  { rewrite !Forall_app. done. }
  rewrite Htotal.
  destruct (xs_set_size_props t (Z.of_nat (length (p ++ c ++ s))))
    as (Hp' & Hl' & _ & _ & Hq').
  eexists _, _. split; [reflexivity|].
  split_and!; try done.
  - congruence.
  - congruence.
  - rewrite Hl', Hq', Hqt. intros Hlarge.
    specialize (Hhdrt Hlarge).
    rewrite (load_int_ext _ h4 h5).
    2:{ apply Hfr5. destruct (xs_is_ptr string) eqn:Hps; [right|by left].
        intros E. symmetry in E. revert E. by eapply Hnf. }
    eapply load_int_take4; [|eapply load_int_take4; [|eapply load_int_take4; [|exact Hhdrt]]].
    + rewrite <- Hqt. by apply Hhdr3.
    + rewrite <- Hqt. by apply Hhdr2.
    + rewrite <- Hqt. by apply Hhdr1.
  - apply heap_ok_same_dom with h4; [|done|done].
    apply heap_ok_same_dom with h3; [|done|].
    2:{ intros b. destruct (decide (b = get_ptr t)) as [->|Hne].
        - intros _. rewrite Hqt. unfold region in Hr2. rewrite Hqt in *.
          destruct (xs_data_cases t) as [[E _]|[_ (off & _ & E)]]; [congruence|].
          rewrite E, Hqt in Hr2. by destruct (blocks h3 !! brk h); [eexists|].
        - by rewrite Hfr3 by (by right). }
    apply heap_ok_same_dom with h2; [|done|].
    2:{ intros b. destruct (decide (b = get_ptr t)) as [->|Hne].
        - intros _. rewrite Hqt. unfold region in Hr1. rewrite Hqt in *.
          destruct (xs_data_cases t) as [[E _]|[_ (off & _ & E)]]; [congruence|].
          rewrite E, Hqt in Hr1. by destruct (blocks h2 !! brk h); [eexists|].
        - by rewrite Hfr2 by (by right). }
    apply heap_ok_same_dom with h1; [done|done|].
    intros b. destruct (decide (b = get_ptr t)) as [->|Hne].
    + intros _. rewrite Hqt. unfold region in Hrt.
      destruct (xs_data_cases t) as [[E _]|[_ (off & _ & E)]]; [congruence|].
      rewrite E, Hqt in Hrt. by destruct (blocks h1 !! brk h); [eexists|].
    + by rewrite Hfr1 by (by right).
  - intros b Hb1 Hb2. rewrite Hfr5 by done. by apply Hfr04.
Qed.

Lemma has_content_observed v h c :
  has_content v h c ->
  xs_content v h = Ok (map Some c) /\ xs_size v = Z.of_nat (length c).
Proof.
  intros Hc. split; [by apply has_content_load|]. by destruct Hc as (? & ? & ? & ? & ?).
Qed.

Lemma terminated_observed v h c :
  has_content v h c -> terminated v h -> xs_terminator v h = Ok [Some 0].
Proof.
  intros (r & Hr & Hlen & Hsz & Hcap & _) (r' & Hr' & Ht).
  assert (r' = r) as -> by congruence.
  unfold xs_terminator. rewrite Hsz in *. rewrite Nat2Z.id in Ht.
  change 1 with (Z.of_nat 1).
  rewrite (loadn_region v h r) by (try done; lia).
  by rewrite (take_S_r _ _ (Some 0)), take_0 by (by rewrite lookup_drop, Nat.add_0_r).
Qed.

Lemma xs_concat_unshared_spec string prefix suffix h (c p s : list Z) :
  heap_ok h ->
  has_content string h c -> has_content prefix h p ->
  has_content suffix h s -> terminated suffix h ->
  unshared string h ->
  separate string prefix -> separate string suffix ->
  15 <= xs_capacity string ->
  Z.of_nat (length p + length c + length s) < 2 ^ 30 ->
  exists v' h',
    xs_concat string prefix suffix h = Ok (v', h') /\
    has_content v' h' (p ++ c ++ s) /\ terminated v' h' /\
    xs_content v' h' = Ok (map Some (p ++ c ++ s)) /\
    xs_size v' = Z.of_nat (length p) + Z.of_nat (length c) + Z.of_nat (length s) /\
    xs_terminator v' h' = Ok [Some 0] /\
    heap_ok h' /\
    (forall w cw, has_content w h cw -> separate string w -> xs_is_ptr w = true ->
       blocks h' !! get_ptr w = blocks h !! get_ptr w).
Proof.
  intros Hok Hc Hp Hs Hts Hu Hsp Hss Hcap15 Htot.
  rewrite xs_concat_eq, cow_unshared by done. cbn [bind default from_option].
  unfold id.
  assert (exists v' h',
    concat_body string (xs_data string) (xs_size string) (xs_capacity string)
      prefix suffix h = Ok (v', h') /\
    has_content v' h' (p ++ c ++ s) /\ terminated v' h' /\ heap_ok h' /\
    (forall b, b <> brk h -> xs_is_ptr string = false \/ b <> get_ptr string ->
       blocks h' !! b = blocks h !! b))
    as (v' & h' & Hb & Hc' & Ht' & Hok' & Hfr').
  { destruct (Z.le_gt_cases (Z.of_nat (length p + length c + length s))
                (xs_capacity string)) as [Hle|Hgt].
    - destruct (concat_body_in_place string prefix suffix h c p s)
        as (v' & h' & Hb & Hc' & Ht' & _ & _ & _ & Hbrk' & Hfr' & _); try done.
      { change (2 ^ 54) with 18014398509481984.
        change (2 ^ 30) with 1073741824 in Htot. lia. }
      exists v', h'. split; [done|]. split; [done|]. split; [done|].
      split; [|by intros b _ Hb'; apply Hfr'].
      apply (heap_ok_same_dom h); [done|done|].
      intros b Hs'. destruct (xs_is_ptr string) eqn:E.
      + destruct (decide (b = get_ptr string)) as [->|Hne].
        * by apply (has_content_block string h c).
        * by rewrite <- Hfr' by (by right).
      + by rewrite <- Hfr' by (by left).
    - destruct (concat_body_realloc string prefix suffix h c p s)
        as (v' & h' & Hb & Hc' & Ht' & _ & _ & _ & _ & Hok' & Hfr'); try done; try lia.
      by exists v', h'. }
  exists v', h'. split; [done|]. split; [done|]. split; [done|].
  destruct (has_content_observed v' h' _ Hc') as [Hcont Hsize].
  split; [done|]. split; [rewrite Hsize, !length_app; lia|].
  split; [by eapply terminated_observed|]. split; [exact Hok'|].
  intros w cw Hw Hsep Hpw. apply Hfr'.
  - by eapply has_content_not_fresh.
  - destruct (xs_is_ptr string) eqn:E; [right|by left].
    intros E'. exact (Hsep E Hpw (eq_sym E')).
Qed.

(** X3.  [xs_concat] where [string] is the only user of its buffer and has
    capacity at least 15, [prefix] and [suffix] hold their contents in
    buffers other than [string]'s, [suffix] is 0-terminated, live blocks lie
    between NULL and the break, and the three lengths total less than 2^30:
    [string] ends up holding [prefix ++ content ++ suffix], followed by a 0,
    with [xs_size] the sum of the three lengths, whether it is written in
    place or moved to a larger block. *)
Theorem xs_concat_unshared string prefix suffix h (c p s : list Z) :
  heap_ok h ->
  has_content string h c -> has_content prefix h p ->
  has_content suffix h s -> terminated suffix h ->
  unshared string h ->
  separate string prefix -> separate string suffix ->
  15 <= xs_capacity string ->
  Z.of_nat (length p + length c + length s) < 2 ^ 30 ->
  exists v' h',
    xs_concat string prefix suffix h = Ok (v', h') /\
    has_content v' h' (p ++ c ++ s) /\ terminated v' h' /\
    xs_content v' h' = Ok (map Some (p ++ c ++ s)) /\
    xs_size v' = Z.of_nat (length p) + Z.of_nat (length c) + Z.of_nat (length s) /\
    xs_terminator v' h' = Ok [Some 0].
Proof.
  intros Hok Hc Hp Hs Hts Hu Hsp Hss Hcap Htot.
  destruct (xs_concat_unshared_spec string prefix suffix h c p s)
    as (v' & h' & H1 & H2 & H3 & H4 & H5 & H6 & _); try done.
  by exists v', h'.
Qed.

(** ** Construction, generally *)

Lemma literal_inline : xs_is_ptr xs_literal_empty = false.
Proof. vm_compute. reflexivity. Qed.

Lemma heap_ok_insert_fresh h blk n :
  heap_ok h -> 0 < n -> heap_ok (mkheap (<[brk h := blk]> (blocks h)) (brk h + n)).
Proof.
  intros [Hb Hok] Hn. split; cbn [brk blocks]; [lia|].
  intros b Hs. destruct (decide (b = brk h)) as [->|Hne]; [lia|].
  rewrite lookup_insert_ne in Hs by done. specialize (Hok b Hs). lia.
Qed.

Lemma is_byte_snoc0 s : Forall is_byte s -> Forall is_byte (s ++ [0]).
Proof.
  intros H. apply Forall_app. split; [exact H|].
  apply Forall_cons. split; [unfold is_byte; lia|apply Forall_nil_2].
Qed.

Lemma xs_new_inline_spec (s rest : list Z) (h : heap) :
  Forall (fun c => c <> 0) s -> Forall is_byte s ->
  Z.of_nat (length s) <= 15 ->
  exists x,
    xs_new (s ++ 0 :: rest) h = Ok (x, h) /\
    has_content x h s /\ terminated x h /\
    xs_is_ptr x = false /\ xs_is_large_string x = false.
Proof.
  intros Hnz Hby Hs.
  destruct (store_own xs_literal_empty h (self_cells xs_literal_empty) 0 (s ++ [0]))
    as (v' & h' & Hst & Hreg & Hp & _ & _ & Hh & _).
  { apply region_inline, literal_inline. }
  { rewrite length_self_cells. lia. }
  { rewrite length_self_cells, length_app. cbn [length]. lia. }
  { by apply is_byte_snoc0. }
  { intros _. right. apply last_snoc. }
  rewrite literal_inline in Hp. specialize (Hh literal_inline). subst h'.
  rewrite region_inline in Hreg by done. injection Hreg as Hcells.
  assert (Hl : (length s + 1 <= 16)%nat) by lia.
  assert (Hls : length (map Some (s ++ [0])) = (length s + 1)%nat).
  { rewrite length_map, length_app. cbn [length]. lia. }
  assert (Htake : take (length s) (self_cells v') = map Some s).
  { rewrite Hcells. unfold splice. rewrite take_0, app_nil_l, map_app.
    rewrite <- app_assoc. rewrite take_app_length'; [done|]. by rewrite length_map. }
  assert (Hterm : self_cells v' !! length s = Some (Some 0)).
  { rewrite Hcells. rewrite lookup_splice by (rewrite length_self_cells, Hls; lia).
    rewrite decide_False by lia. rewrite decide_True by lia.
    rewrite Nat.sub_0_r, map_app. rewrite lookup_app_r by (rewrite length_map; lia).
    rewrite length_map, Nat.sub_diag. done. }
  destruct (finish_inline v' h s Hp Htake Hterm ltac:(lia) Hby) as [Hc Ht].
  exists (set_space_left v' (15 - Z.of_nat (length s))).
  split; [|split; [exact Hc|split; [exact Ht|]]].
  - unfold xs_new. rewrite strlen_app by done. cbn [bind].
    destruct (Z.ltb_spec 16 (Z.of_nat (length s) + 1)); [lia|].
    unfold memcpy_arr. rewrite take_cstr.
    destruct (Z.leb_spec 0 (Z.of_nat (length s) + 1)); [|lia].
    rewrite length_app. cbn [length].
    destruct (Z.leb_spec (Z.of_nat (length s) + 1) (Z.of_nat (length s + S (length rest))));
      [|lia].
    cbn [andb].
    rewrite xs_data_inline, padd_0 in Hst by apply literal_inline.
    rewrite Hst. cbn [bind]. do 3 f_equal. lia.
  - split.
    + unfold xs_is_ptr in *. by rewrite is_ptr_set_space_left.
    + unfold xs_is_large_string. rewrite is_large_set_space_left.
      fold (xs_is_large_string v').
      destruct (decide (length s = 15%nat)) as [E|E].
      * rewrite E in Hterm. rewrite lookup_self_cells in Hterm by lia.
        injection Hterm as Hterm. change (Z.of_nat 15) with 15 in Hterm.
        by destruct (inline_tier_of_byte15_zero v' Hterm) as (_ & ? & _).
      * assert (E15 : self_cells v' !! 15%nat = self_cells xs_literal_empty !! 15%nat).
        { rewrite Hcells. rewrite lookup_splice by (rewrite length_self_cells, Hls; lia).
          rewrite decide_False by lia. rewrite decide_False by lia. done. }
        apply byte15_of_cells in E15.
        destruct (inline_tier_of_byte15 _ _ E15) as (_ & -> & _).
        vm_compute. reflexivity.
Qed.

Lemma xs_new_heap_spec (s rest : list Z) (h : heap) :
  Forall (fun c => c <> 0) s -> Forall is_byte s ->
  15 < Z.of_nat (length s) < 2 ^ 30 - 1 ->
  exists x h',
    xs_new (s ++ 0 :: rest) h = Ok (x, h') /\
    has_content x h' s /\ terminated x h' /\ unshared x h' /\
    xs_is_ptr x = true /\ get_ptr x = brk h /\
    xs_is_large_string x = negb (Z.of_nat (length s) <? 256) /\
    xs_capacity x = 2 ^ (Z.log2 (Z.of_nat (length s) + 1) + 1) - 1 /\
    (heap_ok h -> heap_ok h') /\
    (forall b, b <> brk h -> blocks h' !! b = blocks h !! b).
Proof.
  intros Hnz Hby Hlen.
  destruct (xs_new_heap s rest h Hnz ltac:(lia)) as (x & blk & Hnew & Hx & Hblk).
  set (n := Z.of_nat (length s)) in *.
  set (k := Z.log2 (n + 1) + 1) in *.
  destruct (log2_bounds n ltac:(lia)) as [Hk Hpow]. fold k in Hk, Hpow.
  destruct (new_header_fields n ltac:(lia)) as (Hf1 & Hf2 & Hf3 & Hf4). fold k in Hf4.
  assert (Hptr : get_ptr x = brk h) by (rewrite Hx; apply ptr_set_ptr).
  assert (Hisp : get_is_ptr x = 1).
  { rewrite Hx, is_ptr_set_ptr. destruct (n <? 256); [done|].
    by rewrite is_ptr_set_is_large_string. }
  assert (Hlarge : get_is_large_string x = if n <? 256 then 0 else 1).
  { rewrite Hx, is_large_set_ptr. destruct (n <? 256); [done|].
    by rewrite is_large_set_is_large. }
  assert (Hsize : get_size x = n).
  { rewrite Hx, size_set_ptr. destruct (n <? 256); [done|].
    by rewrite size_set_is_large. }
  assert (Hcap : get_capacity x = k).
  { rewrite Hx, capacity_set_ptr. destruct (n <? 256); [done|].
    by rewrite capacity_set_is_large. }
  assert (Hp : xs_is_ptr x = true) by (unfold xs_is_ptr; by rewrite Hisp).
  assert (Hl : xs_is_large_string x = negb (n <? 256)).
  { unfold xs_is_large_string. rewrite Hlarge. by destruct (n <? 256). }
  assert (Hc : xs_capacity x = 2 ^ k - 1).
  { unfold xs_capacity. rewrite Hp, Hcap. by rewrite shiftl_1 by lia. }
  assert (Hs : xs_size x = n) by (unfold xs_size; by rewrite Hp).
  set (h' := mkheap _ _) in Hnew.
  assert (Hlook : blocks h' !! brk h = Some blk) by apply lookup_insert_eq.
  assert (Hreg : region x h' =
            Some (map Some (s ++ [0]) ++ replicate (Z.to_nat (2 ^ k - (n + 1))) None)).
  { unfold region, xs_data. rewrite Hp, Hl, Hptr. cbn [negb].
    destruct (n <? 256); cbn [negb]; rewrite Hlook; cbn [fmap option_fmap option_map];
      f_equal; rewrite Hblk.
    - done.
    - by rewrite drop_app_length' by done. }
  exists x, h'. split; [exact Hnew|].
  assert (Hlen_s0 : length (map Some (s ++ [0])) = S (length s)).
  { rewrite length_map, length_app. cbn [length]. lia. }
  split; [|split; [|split]].
  - eexists. split; [exact Hreg|].
    rewrite length_app, Hlen_s0, length_replicate, Hc, Hs.
    split; [unfold n in *; lia|]. split; [done|]. split; [unfold n in *; lia|].
    split; [|done].
    rewrite map_app, <- app_assoc. apply take_app_length'. by rewrite length_map.
  - eexists. split; [exact Hreg|]. rewrite Hs. unfold n. rewrite Nat2Z.id.
    rewrite lookup_app_l by (rewrite Hlen_s0; lia).
    rewrite map_app, lookup_app_r by (rewrite length_map; lia).
    by rewrite length_map, Nat.sub_diag.
  - unfold unshared. rewrite Hl, Hptr.
    destruct (n <? 256); [by left|right].
    eapply (load_int_hdr _ _ blk); [|vm_compute; split; discriminate].
    rewrite Hlook. f_equal. unfold set_hdr. rewrite Hblk.
    by rewrite drop_app_length' by done.
  - split; [exact Hp|]. split; [exact Hptr|]. split; [exact Hl|]. split; [exact Hc|].
    split.
    + intros Hok. apply heap_ok_insert_fresh; [done|].
      pose proof (Z.div_pos (Z.of_nat (length blk)) 16). lia.
    + intros b Hb. unfold h'. cbn [blocks]. by rewrite lookup_insert_ne.
Qed.

Lemma xs_new_spec (s rest : list Z) (h : heap) :
  Forall (fun c => c <> 0) s -> Forall is_byte s ->
  Z.of_nat (length s) < 2 ^ 30 - 1 ->
  exists x h',
    xs_new (s ++ 0 :: rest) h = Ok (x, h') /\
    has_content x h' s /\ terminated x h' /\ unshared x h' /\
    15 <= xs_capacity x /\
    xs_is_ptr x = negb (Z.of_nat (length s) <=? 15) /\
    (xs_is_ptr x = true -> get_ptr x = brk h) /\
    (xs_is_ptr x = false -> h' = h) /\
    (heap_ok h -> heap_ok h') /\
    (forall b, b <> brk h -> blocks h' !! b = blocks h !! b).
Proof.
  intros Hnz Hby Hlen.
  destruct (Z.leb_spec (Z.of_nat (length s)) 15) as [Hs|Hs]; cbn [negb].
  - destruct (xs_new_inline_spec s rest h Hnz Hby Hs) as (x & Hn & Hc & Ht & Hp & Hl).
    exists x, h. split; [exact Hn|]. split; [exact Hc|]. split; [exact Ht|].
    split; [by left|]. split; [unfold xs_capacity; rewrite Hp; lia|].
    split; [exact Hp|]. split; [congruence|]. done.
  - destruct (xs_new_heap_spec s rest h Hnz Hby ltac:(lia))
      as (x & h' & Hn & Hc & Ht & Hu & Hp & Hptr & Hl & Hcap & Hok & Hfr).
    exists x, h'. split; [exact Hn|]. split; [exact Hc|]. split; [exact Ht|].
    split; [exact Hu|]. split.
    + rewrite Hcap.
      destruct (log2_bounds (Z.of_nat (length s)) ltac:(lia)) as [Hk Hpow]. lia.
    + split; [exact Hp|]. split; [done|]. split; [congruence|].
      split; [exact Hok|exact Hfr].
Qed.

(** ** Trimming, generally *)

Lemma lstrip_drop m l : lstrip m l = drop (lead m l) l.
Proof. induction l as [|b l IH]; [done|]. cbn. by destruct (m b). Qed.

Lemma lead_le m l : (lead m l <= length l)%nat.
Proof. induction l as [|b l IH]; cbn; [lia|]. destruct (m b); cbn; lia. Qed.

Lemma lead_le_lookup m l : forall j b,
  l !! j = Some b -> m b = false -> (lead m l <= j)%nat.
Proof.
  induction l as [|a l IH]; intros j b Hj Hb; [done|].
  cbn. destruct j as [|j]; cbn in Hj.
  - injection Hj as ->. rewrite Hb. lia.
  - destruct (m a); [|lia]. specialize (IH j b Hj Hb). lia.
Qed.

Lemma lead_lt m l : Exists (fun b => m b = false) l -> (lead m l < length l)%nat.
Proof.
  induction 1 as [b l Hb|b l _ IH]; cbn.
  - rewrite Hb. lia.
  - destruct (m b); lia.
Qed.

Lemma lead_take m l : forall k, (lead m l < k)%nat -> lead m (take k l) = lead m l.
Proof.
  induction l as [|b l IH]; intros k Hk; [by destruct k|].
  destruct k as [|k]; [lia|]. cbn in *. destruct (m b); [|done].
  f_equal. apply IH. lia.
Qed.

Lemma rstrip_take m l : rstrip m l = take (length l - lead m (reverse l)) l.
Proof.
  unfold rstrip. rewrite lstrip_drop, reverse_drop, reverse_involutive.
  by rewrite length_reverse.
Qed.

(** With an element outside [m], stripping both ends keeps the segment
    between the first and the last such element. *)
Lemma strip_segment m l :
  Exists (fun b => m b = false) l ->
  let i := lead m l in
  let e := (length l - lead m (reverse l))%nat in
  (i < e)%nat /\ (e <= length l)%nat /\ strip m l = take (e - i) (drop i l).
Proof.
  intros Hex i e.
  pose proof (lead_lt m l Hex) as Hlt. fold i in Hlt.
  assert (Hat : exists b, l !! i = Some b /\ m b = false).
  { clear -Hlt. subst i. induction l as [|a l IH]; cbn in *; [lia|].
    destruct (m a) eqn:E; [|by exists a].
    cbn. apply IH. lia. }
  destruct Hat as (b & Hi & Hb).
  assert (Hrev : reverse l !! (length l - S i)%nat = Some b).
  { rewrite reverse_lookup by lia. rewrite <- Hi. f_equal. lia. }
  pose proof (lead_le_lookup m _ _ _ Hrev Hb) as Htr.
  split; [unfold e; lia|]. split; [unfold e; lia|].
  unfold strip. rewrite rstrip_take, lstrip_drop. fold i.
  rewrite length_drop, reverse_drop.
  rewrite lead_take by lia. f_equal. unfold e. lia.
Qed.

Lemma load_byte_region x h r (i : nat) b :
  region x h = Some r -> r !! i = Some (Some b) ->
  load_byte x h (padd (xs_data x) (Z.of_nat i)) = Ok b.
Proof.
  intros Hr Hi. unfold load_byte.
  pose proof (lookup_lt_Some _ _ _ Hi) as Hlt.
  change 1 with (Z.of_nat 1).
  rewrite (loadn_region x h r i 1 Hr) by lia. cbn [bind].
  by rewrite (drop_S _ _ _ Hi).
Qed.

Lemma content_cell r (c : list Z) (i : nat) b :
  take (length c) r = map Some c -> c !! i = Some b -> r !! i = Some (Some b).
Proof.
  intros Ht Hi. pose proof (lookup_lt_Some _ _ _ Hi) as Hlt.
  rewrite <- (lookup_take_lt r (length c)) by done.
  by rewrite Ht, list_lookup_fmap, Hi.
Qed.

Lemma scan_fwd_lead x h r mask m (c : list Z) :
  region x h = Some r -> take (length c) r = map Some c ->
  (forall b, b ∈ c -> check_bit mask b = m b) ->
  forall l i, drop i c = l ->
    scan_fwd x h mask (xs_data x) (length l) (Z.of_nat i)
    = Ok (Z.of_nat (i + lead m l)).
Proof.
  intros Hr Ht Hm. induction l as [|b l IH]; intros i Hd.
  - cbn. do 2 f_equal. lia.
  - assert (Hi : c !! i = Some b).
    { rewrite <- (Nat.add_0_r i), <- lookup_drop, Hd. done. }
    cbn [length scan_fwd lead].
    rewrite (load_byte_region x h r i b Hr (content_cell _ _ _ _ Ht Hi)). cbn [bind].
    rewrite (Hm b (list_elem_of_lookup_2 _ _ _ Hi)).
    destruct (m b); cbn [negb].
    + replace (Z.of_nat i + 1) with (Z.of_nat (S i)) by lia.
      rewrite IH.
      * do 2 f_equal. lia.
      * rewrite (drop_S _ _ _ Hi) in Hd. by injection Hd.
    + do 2 f_equal. lia.
Qed.

Lemma scan_bwd_trail x h r mask m (c : list Z) :
  region x h = Some r -> take (length c) r = map Some c ->
  (forall b, b ∈ c -> check_bit mask b = m b) ->
  forall n, (n <= length c)%nat ->
    scan_bwd x h mask (xs_data x) n
    = Ok (Z.of_nat (n - lead m (reverse (take n c)))).
Proof.
  intros Hr Ht Hm. induction n as [|n IH]; intros Hn; [done|].
  destruct (lookup_lt_is_Some_2 c n ltac:(lia)) as [b Hi].
  cbn [scan_bwd].
  rewrite (load_byte_region x h r n b Hr (content_cell _ _ _ _ Ht Hi)). cbn [bind].
  rewrite (Hm b (list_elem_of_lookup_2 _ _ _ Hi)).
  rewrite (take_S_r _ _ _ Hi), reverse_snoc. cbn [lead].
  destruct (m b); cbn [negb].
  - rewrite IH by lia. do 2 f_equal.
  - do 2 f_equal.
Qed.

Lemma build_mask_member (cut rest : list Z) b :
  Forall is_byte cut -> is_byte b ->
  check_bit (build_mask (cut ++ 0 :: rest) (Z.of_nat (length cut))) b
  = bool_decide (b ∈ cut).
Proof.
  intros Hcut Hb. unfold build_mask. rewrite Nat2Z.id, take_app_length.
  rewrite check_bit_foldl; [|by rewrite length_replicate|exact Hb|exact Hcut].
  by rewrite check_bit_zeros.
Qed.

Lemma xs_size_bound v : 0 <= xs_size v < 2 ^ 54.
Proof.
  unfold xs_size. destruct (xs_is_ptr v).
  - apply getf_range. lia.
  - pose proof (getf_range 56 4 (hi v) ltac:(lia)) as H.
    unfold get_space_left. change (2 ^ 4) with 16 in H. lia.
Qed.

Lemma content_segment r (c : list Z) (i n : nat) :
  take (length c) r = map Some c -> (i + n <= length c)%nat ->
  take n (drop i r) = map Some (take n (drop i c)).
Proof.
  intros Ht Hin. apply list_eq. intros j.
  destruct (decide (j < n)%nat) as [Hj|Hj].
  - rewrite lookup_take_lt, lookup_drop by done.
    rewrite list_lookup_fmap, lookup_take_lt, lookup_drop by done.
    destruct (lookup_lt_is_Some_2 c (i + j) ltac:(lia)) as [b Hb].
    by rewrite Hb, (content_cell _ _ _ _ Ht Hb).
  - rewrite lookup_take_ge by lia.
    by rewrite list_lookup_fmap, lookup_take_ge by lia.
Qed.

(** The last statements of [xs_trim] and [xs_concat]: the new length is
    recorded in [size] or in [space_left]. *)
Lemma finish_either v h r (bs : list Z) :
  region v h = Some r ->
  Z.of_nat (length r) = xs_capacity v + 1 ->
  take (length bs) r = map Some bs -> r !! length bs = Some (Some 0) ->
  Z.of_nat (length bs) <= xs_capacity v -> Z.of_nat (length bs) < 2 ^ 54 ->
  Forall is_byte bs ->
  let v' := if xs_is_ptr v then set_size v (Z.of_nat (length bs))
            else set_space_left v (15 - Z.of_nat (length bs)) in
  has_content v' h bs /\ terminated v' h /\
  xs_capacity v' = xs_capacity v /\ xs_is_ptr v' = xs_is_ptr v /\
  xs_is_large_string v' = xs_is_large_string v /\ get_ptr v' = get_ptr v.
Proof.
  intros Hr Hlr Ht Hz Hcap Hb Hby.
  destruct (xs_is_ptr v) eqn:Hp; cbv zeta.
  - destruct (finish_heap v h r bs Hp Hr Hlr Ht Hz Hcap Hb Hby) as [Hc Htm].
    destruct (xs_set_size_props v (Z.of_nat (length bs))) as (Hp' & Hl' & _ & Hc' & Hq').
    split; [exact Hc|]. split; [exact Htm|]. split; [exact Hc'|].
    split; [congruence|]. split; [exact Hl'|exact Hq'].
  - rewrite region_inline in Hr by done. injection Hr as <-.
    assert (Hc15 : xs_capacity v = 15) by (unfold xs_capacity; by rewrite Hp).
    destruct (finish_inline v h bs Hp Ht Hz ltac:(lia) Hby) as [Hc Htm].
    split; [exact Hc|]. split; [exact Htm|].
    assert (Hp' : xs_is_ptr (set_space_left v (15 - Z.of_nat (length bs))) = false).
    { unfold xs_is_ptr in *. by rewrite is_ptr_set_space_left. }
    split; [unfold xs_capacity; by rewrite Hp', Hp|].
    split; [exact Hp'|]. split; [|done].
    unfold xs_is_large_string. by rewrite is_large_set_space_left.
Qed.

(** [if (orig[slen]) orig[slen] = 0;] *)
Lemma write_terminator v h r (n : nat) :
  region v h = Some r -> (n < length r)%nat ->
  exists cell v' h' r',
    loadn v h (padd (xs_data v) (Z.of_nat n)) 1 = Ok [cell] /\
    match [cell] with
    | [Some 0] => Ok (v, h)
    | _ => storen v h (padd (xs_data v) (Z.of_nat n)) [Some 0]
    end = Ok (v', h') /\
    region v' h' = Some r' /\ length r' = length r /\
    take n r' = take n r /\ r' !! n = Some (Some 0) /\
    xs_is_ptr v' = xs_is_ptr v /\
    (xs_is_ptr v = true -> v' = v) /\
    brk h' = brk h /\
    (forall b, xs_is_ptr v = false \/ b <> get_ptr v -> blocks h' !! b = blocks h !! b) /\
    (xs_is_large_string v = true ->
       take 4 <$> blocks h' !! get_ptr v = take 4 <$> blocks h !! get_ptr v).
Proof.
  intros Hr Hn.
  destruct (lookup_lt_is_Some_2 r n Hn) as [cell Hcell].
  exists cell.
  assert (Hload : loadn v h (padd (xs_data v) (Z.of_nat n)) 1 = Ok [cell]).
  { change 1 with (Z.of_nat 1). rewrite (loadn_region v h r n 1 Hr) by lia.
    by rewrite (drop_S _ _ _ Hcell). }
  destruct (store_own v h r n [0] Hr) as
    (v' & h' & Hst & Hr' & Hp' & _ & Hsame & _ & Hbrk & Hfr & Hhdr).
  { lia. }
  { cbn [length]. lia. }
  { repeat constructor; unfold is_byte; lia. }
  { intros _. by right. }
  assert (Hstored : exists v' h' r',
    storen v h (padd (xs_data v) (Z.of_nat n)) [Some 0] = Ok (v', h') /\
    region v' h' = Some r' /\ length r' = length r /\
    take n r' = take n r /\ r' !! n = Some (Some 0) /\
    xs_is_ptr v' = xs_is_ptr v /\
    (xs_is_ptr v = true -> v' = v) /\
    brk h' = brk h /\
    (forall b, xs_is_ptr v = false \/ b <> get_ptr v -> blocks h' !! b = blocks h !! b) /\
    (xs_is_large_string v = true ->
       take 4 <$> blocks h' !! get_ptr v = take 4 <$> blocks h !! get_ptr v)).
  { exists v', h', (splice n [Some 0] r). split; [exact Hst|]. split; [exact Hr'|].
    split; [apply length_splice; cbn [length]; lia|].
    split.
    { unfold splice. rewrite take_app_length'; [done|]. rewrite length_take. lia. }
    split.
    { rewrite lookup_splice by (cbn [length]; lia).
      rewrite decide_False by lia. rewrite decide_True by (cbn [length]; lia).
      by rewrite Nat.sub_diag. }
    done. }
  assert (Hkept : exists v' h' r',
    Ok (v, h) = Ok (v', h') /\
    region v' h' = Some r' /\ length r' = length r /\
    take n r' = take n r /\ (cell = Some 0 -> r' !! n = Some (Some 0)) /\
    xs_is_ptr v' = xs_is_ptr v /\
    (xs_is_ptr v = true -> v' = v) /\
    brk h' = brk h /\
    (forall b, xs_is_ptr v = false \/ b <> get_ptr v -> blocks h' !! b = blocks h !! b) /\
    (xs_is_large_string v = true ->
       take 4 <$> blocks h' !! get_ptr v = take 4 <$> blocks h !! get_ptr v)).
  { exists v, h, r. split; [done|]. split; [done|]. split; [done|]. split; [done|].
    split; [by intros ->|]. done. }
  destruct cell as [[| |]|].
  - destruct Hkept as (v1 & h1 & r1 & E & H1 & H2 & H3 & H4 & H5).
    exists v1, h1, r1. split; [exact Hload|]. split; [exact E|].
    split; [exact H1|]. split; [exact H2|]. split; [exact H3|].
    split; [by apply H4|]. exact H5.
  - destruct Hstored as (v1 & h1 & r1 & E & H1).
    exists v1, h1, r1. split; [exact Hload|]. split; [exact E|]. exact H1.
  - destruct Hstored as (v1 & h1 & r1 & E & H1).
    exists v1, h1, r1. split; [exact Hload|]. split; [exact E|]. exact H1.
  - destruct Hstored as (v1 & h1 & r1 & E & H1).
    exists v1, h1, r1. split; [exact Hload|]. split; [exact E|]. exact H1.
Qed.

Lemma xs_trim_spec x h (c cut rest : list Z) :
  has_content x h c -> unshared x h ->
  cut <> [] -> Forall (fun b => b <> 0) cut -> Forall is_byte cut ->
  Exists (fun b => b ∉ cut) c ->
  let kept := strip (fun b => bool_decide (b ∈ cut)) c in
  exists x' h',
    xs_trim x (cut ++ 0 :: rest) h = Ok (x', h') /\
    has_content x' h' kept /\ terminated x' h' /\
    xs_content x' h' = Ok (map Some kept) /\
    xs_terminator x' h' = Ok [Some 0] /\
    xs_capacity x' = xs_capacity x /\
    xs_is_ptr x' = xs_is_ptr x /\
    (xs_is_ptr x = true -> get_ptr x' = get_ptr x) /\
    brk h' = brk h /\
    (forall b, xs_is_ptr x = false \/ b <> get_ptr x -> blocks h' !! b = blocks h !! b).
Proof.
  intros Hc Hu Hne Hnz Hcut Hex kept.
  pose proof Hc as (r & Hr & Hlr & Hs & Hcap & Ht & Hby).
  set (m := fun b => bool_decide (b ∈ cut)) in *.
  assert (Hex' : Exists (fun b => m b = false) c).
  { eapply Exists_impl; [exact Hex|]. intros b Hb. by apply bool_decide_eq_false. }
  destruct (strip_segment m c Hex') as (Hie & Hel & Hstrip).
  set (i := lead m c) in *.
  set (e := (length c - lead m (reverse c))%nat) in *.
  fold kept in Hstrip.
  assert (Hklen : length kept = (e - i)%nat).
  { rewrite Hstrip, length_take, length_drop. lia. }
  assert (Hkby : Forall is_byte kept).
  { rewrite Hstrip. by apply Forall_take, Forall_drop. }
  set (mask := build_mask (cut ++ 0 :: rest) (Z.of_nat (length cut))).
  assert (Hm : forall b, b ∈ c -> check_bit mask b = m b).
  { intros b Hb. apply build_mask_member; [done|].
    by apply (proj1 (Forall_forall _ _) Hby). }
  assert (Hhead : exists t0 tl, cut ++ 0 :: rest = t0 :: tl /\ t0 <> 0).
  { destruct cut as [|t0 cut']; [done|]. exists t0, (cut' ++ 0 :: rest).
    split; [done|]. by inversion Hnz. }
  destruct Hhead as (t0 & tl & Ehd & Ht0).
  assert (Htrim : xs_trim x (cut ++ 0 :: rest) h =
    (let dataptr := xs_data x in
     let orig := dataptr in
     i <- scan_fwd x h mask dataptr (Z.to_nat (xs_size x)) 0 ;;
     slen <- scan_bwd x h mask dataptr (Z.to_nat (xs_size x)) ;;
     let dataptr := padd dataptr i in
     let slen := (slen - i) mod 2 ^ 64 in
     '(x, h) <- memmove x orig x dataptr slen h ;;
     c <- loadn x h (padd orig slen) 1 ;;
     '(x, h) <- match c with
                | [Some 0] => Ok (x, h)
                | _ => storen x h (padd orig slen) [Some 0]
                end ;;
     if xs_is_ptr x
     then Ok (set_size x slen, h)
     else Ok (set_space_left x (15 - slen), h))).
  { unfold xs_trim. rewrite Ehd.
    destruct (Z.eqb_spec t0 0); [done|].
    rewrite (cow_unshared _ _ _ Hu). cbn [bind default from_option]. unfold id.
    rewrite <- Ehd. rewrite strlen_app by done. cbn [bind]. reflexivity. }
  rewrite Htrim. clear Htrim. cbv zeta.
  rewrite Hs, Nat2Z.id.
  pose proof (scan_fwd_lead x h r mask m c Hr Ht Hm c 0 eq_refl) as Hfwd.
  change (Z.of_nat 0) with 0 in Hfwd. rewrite Nat.add_0_l in Hfwd. fold i in Hfwd.
  rewrite Hfwd. cbn [bind].
  pose proof (scan_bwd_trail x h r mask m c Hr Ht Hm (length c) ltac:(lia)) as Hbwd.
  rewrite firstn_all in Hbwd. fold e in Hbwd.
  rewrite Hbwd. cbn [bind].
  replace ((Z.of_nat e - Z.of_nat i) mod 2 ^ 64) with (Z.of_nat (length kept)).
  2:{ rewrite Z.mod_small; [lia|]. pose proof (xs_size_bound x). lia. }
  (* memmove(orig, dataptr, slen) *)
  destruct (memcpy_into x h r 0 x (padd (xs_data x) (Z.of_nat i))
              (Z.of_nat (length kept)) kept Hr)
    as (x1 & h1 & Hm1 & Hr1 & Hp1 & Hd1 & Hsame1 & _ & Hbrk1 & Hfr1 & Hhdr1).
  { lia. }
  { lia. }
  { exact Hkby. }
  { intros E. left. unfold xs_capacity in Hcap. rewrite E in Hcap. lia. }
  { rewrite (loadn_region x h r i (length kept) Hr) by lia.
    f_equal. rewrite Hklen, Hstrip. apply content_segment; [done|lia]. }
  change (Z.of_nat 0) with 0 in Hm1. rewrite padd_0 in Hm1.
  unfold memmove. rewrite Hm1. cbn [bind].
  set (r1 := splice 0 (map Some kept) r) in *.
  assert (Hlr1 : length r1 = length r).
  { apply length_splice. rewrite length_map. lia. }
  assert (Ht1 : take (length kept) r1 = map Some kept).
  { unfold r1, splice. rewrite take_0, app_nil_l.
    apply take_app_length'. by rewrite length_map. }
  (* the terminator *)
  destruct (write_terminator x1 h1 r1 (length kept) Hr1 ltac:(lia))
    as (cell & x2 & h2 & r2 & Hld & Hw & Hr2 & Hlr2 & Ht2 & Hz2 & Hp2 & Hsame2
        & Hbrk2 & Hfr2 & Hhdr2).
  rewrite Hd1 in Hld, Hw. rewrite Hld. cbn [bind].
  rewrite Hw. cbn [bind].
  assert (Hcap2 : xs_capacity x2 = xs_capacity x).
  { unfold xs_capacity. rewrite Hp2, Hp1.
    destruct (xs_is_ptr x) eqn:E; [|done].
    rewrite (Hsame2 ltac:(congruence)), (Hsame1 eq_refl). done. }
  destruct (finish_either x2 h2 r2 kept Hr2) as (Hc' & Ht' & Hcap' & Hp' & _ & Hq').
  { rewrite Hlr2, Hlr1, Hcap2. exact Hlr. }
  { by rewrite Ht2. }
  { exact Hz2. }
  { rewrite Hcap2. lia. }
  { pose proof (xs_size_bound x). lia. }
  { exact Hkby. }
  cbv zeta in Hc', Ht', Hcap', Hp', Hq'.
  exists (if xs_is_ptr x2 then set_size x2 (Z.of_nat (length kept))
          else set_space_left x2 (15 - Z.of_nat (length kept))), h2.
  split; [by destruct (xs_is_ptr x2)|].
  assert (Hsame : xs_is_ptr x = true -> x2 = x).
  { intros E. rewrite (Hsame2 ltac:(congruence)). by apply Hsame1. }
  split; [exact Hc'|]. split; [exact Ht'|].
  split; [exact (proj1 (has_content_observed _ _ _ Hc'))|].
  split; [exact (terminated_observed _ _ _ Hc' Ht')|].
  split; [congruence|]. split; [congruence|].
  split.
  { intros E. by rewrite Hq', Hsame. }
  split; [congruence|].
  intros b Hb. rewrite Hfr2, Hfr1; [done|done|].
  rewrite Hp1. destruct Hb as [Hb|Hb]; [by left|].
  destruct (xs_is_ptr x) eqn:E; [right|by left].
  by rewrite (Hsame1 eq_refl).
Qed.

(** X6.  [xs_trim] on a value that is the only user of its buffer and holds a
    byte outside the cutset: the content loses its leading and trailing
    cutset bytes, in place. *)
Theorem xs_trim_strips x h (c cut rest : list Z) :
  has_content x h c -> unshared x h ->
  cut <> [] -> Forall (fun b => b <> 0) cut -> Forall is_byte cut ->
  Exists (fun b => b ∉ cut) c ->
  let kept := strip (fun b => bool_decide (b ∈ cut)) c in
  exists x' h',
    xs_trim x (cut ++ 0 :: rest) h = Ok (x', h') /\
    has_content x' h' kept /\ terminated x' h' /\
    xs_content x' h' = Ok (map Some kept) /\
    xs_terminator x' h' = Ok [Some 0] /\
    xs_capacity x' = xs_capacity x /\
    xs_is_ptr x' = xs_is_ptr x /\
    (xs_is_ptr x = true -> get_ptr x' = get_ptr x) /\
    brk h' = brk h /\
    (forall b, xs_is_ptr x = false \/ b <> get_ptr x -> blocks h' !! b = blocks h !! b).
Proof.
  intros Hc Hu Hne Hnz Hcut Hex.
  exact (xs_trim_spec x h c cut rest Hc Hu Hne Hnz Hcut Hex).
Qed.

(** ** The cutset as a C string *)

Lemma build_mask_prefix (s rest : list Z) :
  build_mask (s ++ 0 :: rest) (Z.of_nat (length s)) = foldl set_bit (replicate 32 0) s.
Proof. unfold build_mask. by rewrite Nat2Z.id, take_app_length. Qed.

(** Only the bytes before the first zero of the cutset reach [xs_trim]. *)
Lemma xs_trim_cutset_prefix x h (s rest rest' : list Z) :
  Forall (fun c => c <> 0) s ->
  xs_trim x (s ++ 0 :: rest) h = xs_trim x (s ++ 0 :: rest') h.
Proof.
  intros Hnz. destruct s as [|t0 s']; [reflexivity|].
  assert (Ht0 : t0 <> 0) by (by inversion Hnz).
  assert (Hlen : forall r, strlen ((t0 :: s') ++ 0 :: r) = Ok (Z.of_nat (length (t0 :: s'))))
    by (intros r; by apply strlen_app).
  assert (Hmask : forall r,
            build_mask ((t0 :: s') ++ 0 :: r) (Z.of_nat (length (t0 :: s')))
            = foldl set_bit (replicate 32 0) (t0 :: s'))
    by (intros r; apply build_mask_prefix).
  unfold xs_trim.
  change ((t0 :: s') ++ 0 :: rest) with (t0 :: (s' ++ 0 :: rest)) in *.
  change ((t0 :: s') ++ 0 :: rest') with (t0 :: (s' ++ 0 :: rest')) in *.
  destruct (Z.eqb_spec t0 0); [done|].
  destruct (xs_cow_lazy_copy x (Some (xs_data x)) h) as [[[[r x'] d'] h']|]; [|reflexivity].
  cbn [bind].
  destruct r as [[|]|]; cbn [bind]; [| |reflexivity].
  - pose proof (Hlen rest) as H1. pose proof (Hlen rest') as H2.
    pose proof (Hmask rest) as M1. pose proof (Hmask rest') as M2.
    cbn [app] in H1, H2, M1, M2.
    rewrite H1, H2. cbn [bind]. by rewrite M1, M2.
  - pose proof (Hlen rest) as H1. pose proof (Hlen rest') as H2.
    pose proof (Hmask rest) as M1. pose proof (Hmask rest') as M2.
    cbn [app] in H1, H2, M1, M2.
    rewrite H1, H2. cbn [bind]. by rewrite M1, M2.
Qed.

Lemma strip_zero_ends (m : Z -> bool) (mid : list Z) :
  m 0 = false -> strip m (0 :: mid ++ [0]) = 0 :: mid ++ [0].
Proof.
  intros H0. unfold strip, rstrip. cbn [lstrip]. rewrite H0.
  rewrite reverse_cons, reverse_snoc. cbn [app lstrip]. rewrite H0.
  rewrite reverse_cons, reverse_snoc, reverse_involutive. reflexivity.
Qed.

(** C10.  The cutset is read as a NUL-terminated string: for a cutset whose
    bytes before the first zero are [s], a byte is a member of the bitmap
    exactly when it occurs in [s], whatever follows the zero; the byte 0 is
    never a member, so both scans of [xs_trim] stop at a zero byte; a cutset
    whose first byte is 0 leaves the value and the heap untouched.  For
    [xs_trim] itself: its result is the same whatever follows the zero; on a
    value that is the only user of its buffer it removes exactly the leading
    and trailing bytes that occur in [s]; and a content that begins and ends
    with the byte 0 comes back unchanged. *)
Theorem C10_cutset_is_nul_terminated (s rest : list Z) :
  Forall (fun c => 0 < c < 256) s ->
  let trimset := s ++ 0 :: rest in
  exists trimlen,
    strlen trimset = Ok trimlen /\
    let mask := build_mask trimset trimlen in
    (forall b, 0 <= b < 256 -> check_bit mask b = true <-> b ∈ s) /\
    check_bit mask 0 = false /\
    (forall x h dataptr n i,
       load_byte x h (padd dataptr i) = Ok 0 ->
       scan_fwd x h mask dataptr (S n) i = Ok i) /\
    (forall x h dataptr n,
       load_byte x h (padd dataptr (Z.of_nat n)) = Ok 0 ->
       scan_bwd x h mask dataptr (S n) = Ok (Z.of_nat (S n))) /\
    (forall x h rest', xs_trim x (0 :: rest') h = Ok (x, h)) /\
    (forall x h rest', xs_trim x trimset h = xs_trim x (s ++ 0 :: rest') h) /\
    (forall x h c,
       has_content x h c -> unshared x h -> s <> [] ->
       Exists (fun b => b ∉ s) c ->
       exists x' h',
         xs_trim x trimset h = Ok (x', h') /\
         xs_content x' h' = Ok (map Some (strip (fun b => bool_decide (b ∈ s)) c)) /\
         xs_terminator x' h' = Ok [Some 0]) /\
    (forall x h mid,
       has_content x h (0 :: mid ++ [0]) -> unshared x h ->
       exists x' h',
         xs_trim x trimset h = Ok (x', h') /\
         xs_content x' h' = Ok (map Some (0 :: mid ++ [0]))).
Proof.
  intros Hs trimset. exists (Z.of_nat (length s)).
  assert (Hnz : Forall (fun c => c <> 0) s).
  { eapply Forall_impl; [exact Hs|]. cbv beta. lia. }
  assert (Hrange : Forall (fun c => 0 <= c < 256) s).
  { eapply Forall_impl; [exact Hs|]. cbv beta. lia. }
  split; [by apply strlen_app|].
  assert (Hmask : build_mask trimset (Z.of_nat (length s))
                  = foldl set_bit (replicate 32 0) s) by apply build_mask_prefix.
  rewrite Hmask.
  assert (Hmem : forall b, 0 <= b < 256 ->
            check_bit (foldl set_bit (replicate 32 0) s) b = bool_decide (b ∈ s)).
  { intros b Hb. rewrite check_bit_foldl by done. by rewrite check_bit_zeros. }
  assert (Hzero : check_bit (foldl set_bit (replicate 32 0) s) 0 = false).
  { rewrite Hmem by lia. apply bool_decide_eq_false_2.
    intros Hin. rewrite Forall_forall in Hnz. by apply (Hnz 0). }
  assert (Hnotin : 0 ∉ s).
  { intros Hin. rewrite Forall_forall in Hnz. by apply (Hnz 0). }
  assert (Htrim : forall x h c,
    has_content x h c -> unshared x h -> s <> [] -> Exists (fun b => b ∉ s) c ->
    exists x' h',
      xs_trim x trimset h = Ok (x', h') /\
      xs_content x' h' = Ok (map Some (strip (fun b => bool_decide (b ∈ s)) c)) /\
      xs_terminator x' h' = Ok [Some 0]).
  { intros x h c Hc Hu Hne Hex.
    destruct (xs_trim_spec x h c s rest Hc Hu Hne Hnz Hrange Hex)
      as (x' & h' & Ht & _ & _ & Hcont & Hterm & _).
    by exists x', h'. }
  cbv zeta. split; [|split; [exact Hzero|]].
  { intros b Hb. rewrite Hmem by done. apply bool_decide_eq_true. }
  split.
  { intros x h dataptr n i Hld. cbn [scan_fwd]. rewrite Hld. cbn [bind].
    by rewrite Hzero. }
  split.
  { intros x h dataptr n Hld. cbn [scan_bwd]. rewrite Hld. cbn [bind].
    by rewrite Hzero. }
  split; [intros x h rest'; reflexivity|].
  split; [intros x h rest'; by apply xs_trim_cutset_prefix|].
  split; [exact Htrim|].
  intros x h mid Hc Hu.
  destruct s as [|t0 s'] eqn:Es.
  - exists x, h. split; [reflexivity|]. exact (proj1 (has_content_observed _ _ _ Hc)).
  - rewrite <- Es in *.
    destruct (Htrim x h (0 :: mid ++ [0]) Hc Hu) as (x' & h' & Ht & Hcont & _).
    { rewrite Es. discriminate. }
    { apply Exists_cons_hd. exact Hnotin. }
    exists x', h'. split; [exact Ht|].
    rewrite strip_zero_ends in Hcont; [exact Hcont|].
    by apply bool_decide_eq_false_2.
Qed.

(** ** Detaching a shared buffer *)

Lemma region_large v h :
  xs_is_ptr v = true -> xs_is_large_string v = true ->
  region v h = data_area (get_ptr v) h.
Proof. intros Hp Hl. unfold region, xs_data, data_area. by rewrite Hp, Hl. Qed.

Lemma has_content_data_area v h h' c :
  has_content v h c -> xs_is_ptr v = true -> xs_is_large_string v = true ->
  data_area (get_ptr v) h' = data_area (get_ptr v) h -> has_content v h' c.
Proof.
  intros (r & Hr & H) Hp Hl Hd. exists r. split; [|exact H].
  rewrite region_large in * by done. by rewrite Hd.
Qed.

Lemma terminated_data_area v h h' :
  terminated v h -> xs_is_ptr v = true -> xs_is_large_string v = true ->
  data_area (get_ptr v) h' = data_area (get_ptr v) h -> terminated v h'.
Proof.
  intros (r & Hr & H) Hp Hl Hd. exists r. split; [|exact H].
  rewrite region_large in * by done. by rewrite Hd.
Qed.

Lemma cow_shared v h (c : list Z) k :
  heap_ok h -> has_content v h c ->
  xs_is_ptr v = true -> xs_is_large_string v = true ->
  load_int (get_ptr v) h = Ok k -> 1 < k <= INT_MAX ->
  256 <= Z.of_nat (length c) -> get_capacity v < 31 ->
  exists v' h',
    xs_cow_lazy_copy v (Some (xs_data v)) h = Ok (None, v', Some (xs_data v'), h') /\
    has_content v' h' c /\
    xs_is_ptr v' = true /\ xs_is_large_string v' = true /\
    get_ptr v' = brk h /\ load_int (brk h) h' = Ok 1 /\
    xs_size v' = xs_size v /\ xs_capacity v' = xs_capacity v /\
    load_int (get_ptr v) h' = Ok (k - 1) /\
    data_area (get_ptr v) h' = data_area (get_ptr v) h /\
    heap_ok h' /\
    (forall b, b <> brk h -> b <> get_ptr v -> blocks h' !! b = blocks h !! b).
Proof.
  intros Hok Hc Hp Hl Hld Hk Hlen Hcap.
  pose proof Hc as (r & Hr & Hlr & Hs & Hcc & Ht & Hby).
  assert (Hgs : get_size v = Z.of_nat (length c)).
  { unfold xs_size in Hs. by rewrite Hp in Hs. }
  assert (Hgp : get_is_ptr v = 1).
  { unfold xs_is_ptr in Hp. pose proof (getf_range 60 1 (hi v) ltac:(lia)) as Hrg.
    unfold get_is_ptr in *. destruct (Z.eqb_spec (getf 60 1 (hi v)) 0); [done|].
    change (2 ^ 1) with 2 in Hrg. lia. }
  assert (Hcap0 : 0 <= get_capacity v) by (apply getf_range; lia).
  assert (Hpow : 0 < 2 ^ get_capacity v) by (apply Z.pow_pos_nonneg; lia).
  assert (Hfresh : get_ptr v <> brk h) by (by eapply has_content_not_fresh).
  unfold xs_cow_lazy_copy, xs_get_ref_count. rewrite Hl. cbn [negb].
  rewrite Hld. cbn [bind]. destruct (Z.leb_spec k 1); [lia|].
  unfold xs_dec_ref_count. rewrite Hl. cbn [negb]. rewrite Hld. cbn [bind].
  destruct (Z.eqb_spec k INT_MIN); [unfold INT_MIN, INT_MAX in *; lia|].
  destruct (store_int_count (get_ptr v) (k - 1) h k Hld)
    as (h1 & Hst & Hld1 & Hda1 & Hbrk1 & Hfr1);
    [unfold INT_MIN, INT_MAX in *; lia|].
  rewrite Hst. cbn [bind].
  unfold xs_allocate_data, LARGE_STRING_LEN. rewrite Hgs.
  destruct (Z.ltb_spec (Z.of_nat (length c)) 256); [lia|].
  rewrite capacity_set_is_large. unfold shl_int.
  destruct (Z.ltb_spec (get_capacity v) 31); [|lia]. cbn [bind].
  rewrite shiftl_1 by lia.
  unfold malloc, alloc. cbn [bind].
  unfold xs_set_ref_count. rewrite ptr_set_ptr.
  erewrite store_int_block; [|apply lookup_insert_eq|rewrite length_replicate; lia].
  cbn [bind].
  set (v1 := set_ptr (set_is_large_string v 1) (brk h1)).
  set (h3 := upd (brk h1) _ _).
  assert (Hp1 : xs_is_ptr v1 = true).
  { unfold xs_is_ptr, v1 in *. by autorewrite with xsf. }
  assert (Hl1 : xs_is_large_string v1 = true).
  { unfold xs_is_large_string, v1. by autorewrite with xsf. }
  assert (Hq1 : get_ptr v1 = brk h) by (unfold v1; by rewrite ptr_set_ptr).
  assert (Hs1 : get_size v1 = Z.of_nat (length c)).
  { unfold v1. by autorewrite with xsf. }
  assert (Hc1 : xs_capacity v1 = xs_capacity v).
  { unfold xs_capacity. rewrite Hp1, Hp. unfold v1. by autorewrite with xsf. }
  assert (Hcv : xs_capacity v = 2 ^ get_capacity v - 1).
  { unfold xs_capacity. rewrite Hp. by rewrite shiftl_1 by lia. }
  assert (Hb3 : blocks h3 !! brk h =
            Some (set_hdr 1 (replicate (Z.to_nat (2 ^ get_capacity v + 4)) None))).
  { unfold h3. rewrite Hbrk1. apply blocks_upd_eq. }
  assert (Hr3 : region v1 h3 = Some (replicate (Z.to_nat (2 ^ get_capacity v)) None)).
  { rewrite region_large by done. unfold data_area. rewrite Hq1, Hb3.
    cbn [fmap option_fmap option_map]. f_equal. unfold set_hdr.
    rewrite drop_app_length' by done. rewrite drop_replicate_none. f_equal. lia. }
  assert (Hold3 : blocks h3 !! get_ptr v = blocks h1 !! get_ptr v).
  { unfold h3. rewrite blocks_upd_ne by congruence. cbn [blocks].
    rewrite lookup_insert_ne by congruence. done. }
  assert (Hda3 : data_area (get_ptr v) h3 = data_area (get_ptr v) h).
  { unfold data_area in *. by rewrite Hold3. }
  assert (Hc3 : has_content v h3 c) by (by eapply has_content_data_area).
  rewrite Hs1.
  destruct (memcpy_into v1 h3 _ 0 v (xs_data v) (Z.of_nat (length c)) c Hr3)
    as (v2 & h4 & Hm & Hr4 & Hp4 & Hd4 & Hsame4 & _ & Hbrk4 & Hfr4 & Hhdr4).
  { rewrite length_replicate. lia. }
  { rewrite length_replicate. lia. }
  { exact Hby. }
  { intros E. congruence. }
  { rewrite <- Hs. by apply has_content_load. }
  change (Z.of_nat 0) with 0 in Hm. rewrite padd_0 in Hm.
  rewrite Hm. cbn [bind].
  specialize (Hsame4 Hp1). subst v2.
  exists v1, h4. split; [reflexivity|].
  assert (Hld3 : load_int (brk h) h3 = Ok 1).
  { eapply load_int_hdr; [exact Hb3|]. vm_compute. split; discriminate. }
  assert (Hold4 : blocks h4 !! get_ptr v = blocks h1 !! get_ptr v).
  { rewrite Hfr4 by (right; congruence). exact Hold3. }
  split.
  { eexists. split; [exact Hr4|].
    rewrite length_splice by (rewrite length_map, length_replicate; lia).
    rewrite length_replicate, Hc1, Hcv.
    split; [lia|]. split; [unfold xs_size; by rewrite Hp1|]. split; [lia|].
    split; [|done].
    unfold splice. rewrite take_0, app_nil_l.
    apply take_app_length'. by rewrite length_map. }
  split; [exact Hp1|]. split; [exact Hl1|]. split; [exact Hq1|].
  split.
  { eapply load_int_take4; [|exact Hld3]. rewrite <- Hq1. by apply Hhdr4. }
  split; [unfold xs_size; by rewrite Hp1, Hp, Hs1|].
  split; [exact Hc1|].
  split.
  { rewrite <- Hld1. by apply load_int_ext. }
  split.
  { unfold data_area in *. by rewrite Hold4. }
  split.
  { apply (heap_ok_same_dom h3).
    - unfold h3, upd. cbn [blocks brk]. rewrite insert_insert_eq.
      apply (heap_ok_insert_fresh h1).
      + apply (heap_ok_same_dom h); [done|done|].
        intros b Hb. destruct (decide (b = get_ptr v)) as [->|Hne].
        * destruct (load_int_inv _ _ _ Hld) as (blk & -> & _). by eexists.
        * by rewrite <- Hfr1.
      + pose proof (Z.div_pos (Z.of_nat (length (replicate (Z.to_nat (2 ^ get_capacity v + 4)) (@None Z)))) 16).
        lia.
    - exact Hbrk4.
    - intros b Hb. destruct (decide (b = get_ptr v1)) as [->|Hne].
      + rewrite Hq1, Hb3. by eexists.
      + by rewrite <- Hfr4 by (by right). }
  intros b Hb1 Hb2. rewrite Hfr4 by (right; congruence).
  unfold h3. rewrite blocks_upd_ne by congruence. cbn [blocks].
  rewrite lookup_insert_ne by congruence. by apply Hfr1.
Qed.

Lemma xs_concat_detaches_spec string prefix suffix h (c p s : list Z) k :
  heap_ok h ->
  has_content string h c -> has_content prefix h p ->
  has_content suffix h s -> terminated suffix h ->
  xs_is_ptr string = true -> xs_is_large_string string = true ->
  load_int (get_ptr string) h = Ok k -> 1 < k <= INT_MAX ->
  256 <= Z.of_nat (length c) -> get_capacity string < 31 ->
  separate string prefix -> separate string suffix ->
  Z.of_nat (length p + length c + length s) < 2 ^ 30 ->
  exists v' h',
    xs_concat string prefix suffix h = Ok (v', h') /\
    has_content v' h' (p ++ c ++ s) /\ terminated v' h' /\
    xs_is_large_string v' = true /\ xs_get_ref_count v' h' = Ok 1 /\
    get_ptr v' <> get_ptr string /\
    xs_get_ref_count string h' = Ok (k - 1) /\
    has_content string h' c /\
    data_area (get_ptr string) h' = data_area (get_ptr string) h.
Proof.
  intros Hok Hc Hp Hs Hts Hptr Hlg Hld Hk Hlen Hcap Hsp Hss Hbound.
  destruct (cow_shared string h c k Hok Hc Hptr Hlg Hld Hk Hlen Hcap)
    as (v1 & h1 & Hcow & Hc1 & Hp1 & Hl1 & Hq1 & Hld1 & Hs1 & Hcap1 & Hold1 & Hda1
        & Hok1 & Hfr1).
  assert (Hfresh : get_ptr string <> brk h) by (by eapply has_content_not_fresh).
  assert (Hframe1 : forall w cw, has_content w h cw -> separate string w ->
            xs_is_ptr w = true -> blocks h1 !! get_ptr w = blocks h !! get_ptr w).
  { intros w cw Hw Hsep Hpw. apply Hfr1.
    - by eapply has_content_not_fresh.
    - intros E. by apply (Hsep Hptr Hpw). }
  assert (Hp_1 : has_content prefix h1 p).
  { eapply has_content_frame; [exact Hp|]. by apply (Hframe1 prefix p). }
  assert (Hs_1 : has_content suffix h1 s).
  { eapply has_content_frame; [exact Hs|]. by apply (Hframe1 suffix s). }
  assert (Hts_1 : terminated suffix h1).
  { eapply terminated_frame; [exact Hts|]. by apply (Hframe1 suffix s). }
  assert (Hsep1 : forall w cw, has_content w h cw -> separate v1 w).
  { intros w cw Hw _ Hpw. rewrite Hq1. intros E.
    by apply (has_content_not_fresh w h cw Hok Hw Hpw). }
  assert (Hstr1 : has_content string h1 c)
    by exact (has_content_data_area string h h1 c Hc Hptr Hlg Hda1).
  assert (Hne1 : get_ptr string <> brk h1).
  { by apply (has_content_not_fresh string h1 c). }
  rewrite xs_concat_eq, Hcow. cbn [bind default from_option]. unfold id.
  rewrite <- Hs1, <- Hcap1.
  assert (Hlen3 : length (p ++ c ++ s) = (length p + length c + length s)%nat)
    by (rewrite !length_app; lia).
  assert (Hdone : forall v' h',
    has_content v' h' (p ++ c ++ s) -> terminated v' h' ->
    xs_is_large_string v' = true -> load_int (get_ptr v') h' = Ok 1 ->
    get_ptr v' <> get_ptr string ->
    blocks h' !! get_ptr string = blocks h1 !! get_ptr string ->
    has_content v' h' (p ++ c ++ s) /\ terminated v' h' /\
    xs_is_large_string v' = true /\ xs_get_ref_count v' h' = Ok 1 /\
    get_ptr v' <> get_ptr string /\
    xs_get_ref_count string h' = Ok (k - 1) /\
    has_content string h' c /\
    data_area (get_ptr string) h' = data_area (get_ptr string) h).
  { intros v' h' H1 H2 H3 H4 H5 H6.
    split; [exact H1|]. split; [exact H2|]. split; [exact H3|].
    split; [unfold xs_get_ref_count; by rewrite H3|].
    split; [exact H5|].
    split; [unfold xs_get_ref_count; rewrite Hlg; cbn [negb];
            rewrite <- Hold1; by apply load_int_ext|].
    assert (Hda : data_area (get_ptr string) h' = data_area (get_ptr string) h).
    { unfold data_area in *. by rewrite H6. }
    split; [exact (has_content_data_area string h h' c Hc Hptr Hlg Hda)|exact Hda]. }
  destruct (Z_le_gt_dec (Z.of_nat (length p + length c + length s)) (xs_capacity v1))
    as [Hfit|Hfit].
  - destruct (concat_body_in_place v1 prefix suffix h1 c p s)
      as (v' & h' & Hb & Hc' & Ht' & Hp' & Hcap' & Hv' & Hbrk' & Hfr' & Hhdr');
      try done; [by eapply Hsep1|by eapply Hsep1|lia|].
    exists v', h'. split; [exact Hb|].
    specialize (Hv' Hp1). 
    destruct (xs_set_size_props v1 (Z.of_nat (length (p ++ c ++ s))))
      as (_ & Hl' & _ & _ & Hq').
    apply Hdone; try done.
    + by rewrite Hv', Hl'.
    + rewrite Hv', Hq', Hq1. eapply load_int_take4; [|exact Hld1].
      rewrite <- Hq1. by apply Hhdr'.
    + rewrite Hv', Hq', Hq1. congruence.
    + apply Hfr'. right. congruence.
  - destruct (concat_body_realloc v1 prefix suffix h1 c p s)
      as (v' & h' & Hb & Hc' & Ht' & Hp' & Hq' & Hl' & Hld' & Hok' & Hfr');
      try done.
    { right. by rewrite Hq1. }
    { destruct Hc as (_ & _ & _ & _ & Hcc & _). lia. }
    { lia. }
    exists v', h'. split; [exact Hb|].
    assert (Hlv' : xs_is_large_string v' = true).
    { rewrite Hl', Hlen3. destruct (Z.ltb_spec (Z.of_nat (length p + length c + length s)) 256);
        [lia|done]. }
    apply Hdone; try done.
    + by apply Hld'.
    + rewrite Hq'. congruence.
    + apply Hfr'; [done|]. right. congruence.
Qed.

(** X5.  [xs_concat] where [string] is a Shared-heap value holding at least
    256 bytes, with capacity exponent below 31 and a reference count [k],
    [1 < k <= INT_MAX]; [prefix] and [suffix] hold their contents in buffers
    other than [string]'s, [suffix] is 0-terminated, live blocks lie between
    NULL and the break, and the three lengths total less than 2^30: the
    result holds [prefix ++ content ++ suffix], followed by a 0, in a
    Shared-heap buffer of its own with count 1, and the old buffer keeps its
    bytes with count [k - 1]. *)
Theorem xs_concat_detaches string prefix suffix h (c p s : list Z) k :
  heap_ok h ->
  has_content string h c -> has_content prefix h p ->
  has_content suffix h s -> terminated suffix h ->
  xs_is_ptr string = true -> xs_is_large_string string = true ->
  load_int (get_ptr string) h = Ok k -> 1 < k <= INT_MAX ->
  256 <= Z.of_nat (length c) -> get_capacity string < 31 ->
  separate string prefix -> separate string suffix ->
  Z.of_nat (length p + length c + length s) < 2 ^ 30 ->
  exists v' h',
    xs_concat string prefix suffix h = Ok (v', h') /\
    xs_content v' h' = Ok (map Some (p ++ c ++ s)) /\
    xs_terminator v' h' = Ok [Some 0] /\
    xs_is_large_string v' = true /\ xs_get_ref_count v' h' = Ok 1 /\
    get_ptr v' <> get_ptr string /\
    xs_get_ref_count string h' = Ok (k - 1) /\
    xs_content string h' = Ok (map Some c) /\
    data_area (get_ptr string) h' = data_area (get_ptr string) h /\
    has_content v' h' (p ++ c ++ s) /\ has_content string h' c.
Proof.
  intros Hok Hc Hp Hs Hts Hptr Hlg Hld Hk Hlen Hcap Hsp Hss Hbound.
  destruct (xs_concat_detaches_spec string prefix suffix h c p s k)
    as (v' & h' & Hcat & Hc' & Ht' & Hl' & Hone & Hne & Hold & Hkept & Hda);
    try done.
  exists v', h'. split; [exact Hcat|].
  split; [exact (proj1 (has_content_observed _ _ _ Hc'))|].
  split; [exact (terminated_observed _ _ _ Hc' Ht')|].
  split; [exact Hl'|]. split; [exact Hone|]. split; [exact Hne|].
  split; [exact Hold|].
  split; [exact (proj1 (has_content_observed _ _ _ Hkept))|].
  split; [exact Hda|]. split; [exact Hc'|exact Hkept].
Qed.

(** ** Copies *)

Lemma is_ptr_field v : xs_is_ptr v = true -> get_is_ptr v = 1.
Proof.
  unfold xs_is_ptr. pose proof (getf_range 60 1 (hi v) ltac:(lia)) as Hrg.
  unfold get_is_ptr in *. destruct (Z.eqb_spec (getf 60 1 (hi v)) 0); [done|].
  change (2 ^ 1) with 2 in Hrg. lia.
Qed.

Lemma heap_ok_store_int p h h' k :
  heap_ok h -> load_int p h = Ok k -> brk h' = brk h ->
  (forall q, q <> p -> blocks h' !! q = blocks h !! q) -> heap_ok h'.
Proof.
  intros Hok Hld Hbrk Hfr. apply (heap_ok_same_dom h); [done|done|].
  intros b Hb. destruct (decide (b = p)) as [->|Hne].
  - destruct (load_int_inv _ _ _ Hld) as (blk & -> & _). by eexists.
  - by rewrite <- Hfr.
Qed.

Lemma xs_copy_spec src h (c : list Z) :
  heap_ok h -> has_content src h c ->
  (xs_tier src = SharedHeap ->
     exists k, 1 <= k < INT_MAX /\ load_int (get_ptr src) h = Ok k) ->
  exists dest h',
    xs_copy src h = Ok (dest, h') /\
    has_content dest h' c /\ has_content src h' c /\
    xs_content dest h' = Ok (map Some c) /\
    xs_tier dest = xs_tier src /\
    xs_capacity dest = xs_capacity src /\
    (xs_tier src = Inline -> dest = src /\ h' = h) /\
    (xs_tier src = ExclusiveHeap ->
       get_ptr dest = brk h /\ get_ptr dest <> get_ptr src /\
       blocks h' !! get_ptr src = blocks h !! get_ptr src) /\
    (xs_tier src = SharedHeap -> dest = src) /\
    heap_ok h' /\
    (forall b, b <> brk h -> b <> get_ptr src -> blocks h' !! b = blocks h !! b) /\
    (terminated src h -> terminated src h') /\
    (xs_tier src = SharedHeap -> forall k,
       load_int (get_ptr src) h = Ok k -> load_int (get_ptr src) h' = Ok (k + 1)).
Proof.
  intros Hok Hc Hcount.
  cut (exists dest h',
    xs_copy src h = Ok (dest, h') /\
    has_content dest h' c /\ has_content src h' c /\
    xs_tier dest = xs_tier src /\
    xs_capacity dest = xs_capacity src /\
    (xs_tier src = Inline -> dest = src /\ h' = h) /\
    (xs_tier src = ExclusiveHeap ->
       get_ptr dest = brk h /\ get_ptr dest <> get_ptr src /\
       blocks h' !! get_ptr src = blocks h !! get_ptr src) /\
    (xs_tier src = SharedHeap -> dest = src) /\
    heap_ok h' /\
    (forall b, b <> brk h -> b <> get_ptr src -> blocks h' !! b = blocks h !! b) /\
    (terminated src h -> terminated src h') /\
    (xs_tier src = SharedHeap -> forall k,
       load_int (get_ptr src) h = Ok k -> load_int (get_ptr src) h' = Ok (k + 1))).
  { intros (dest & h' & H1 & H2 & H3 & H4).
    exists dest, h'. split; [exact H1|]. split; [exact H2|]. split; [exact H3|].
    split; [exact (proj1 (has_content_observed _ _ _ H2))|exact H4]. }
  unfold xs_copy, xs_tier in *.
  destruct (xs_is_ptr src) eqn:Hp; cbn [negb] in *.
  - destruct (xs_is_large_string src) eqn:Hl.
    + (* Shared-heap *)
      destruct (Hcount eq_refl) as (k & Hk & Hld).
      unfold xs_inc_ref_count. rewrite Hl, Hld. cbn [bind].
      destruct (Z.eqb_spec k INT_MAX); [lia|].
      destruct (store_int_count (get_ptr src) (k + 1) h k Hld)
        as (h1 & Hst & Hld1 & Hda1 & Hbrk1 & Hfr1);
        [unfold INT_MIN, INT_MAX in *; lia|].
      rewrite Hst. cbn [bind].
      assert (Hc1 : has_content src h1 c)
        by exact (has_content_data_area src h h1 c Hc Hp Hl Hda1).
      exists src, h1. split; [done|]. split; [exact Hc1|]. split; [exact Hc1|].
      rewrite Hp, Hl. cbn [negb].
      split; [done|]. split; [done|]. split; [done|]. split; [done|].
      split; [done|]. split; [by eapply heap_ok_store_int|].
      split; [intros b _ Hb; by apply Hfr1|].
      split.
      { intros Htm. exact (terminated_data_area src h h1 Htm Hp Hl Hda1). }
      intros _ k' Hk'. assert (k' = k) as -> by congruence. exact Hld1.
    + (* Exclusive-heap *)
      pose proof Hc as (r & Hr & Hlr & Hs & Hcc & Ht & Hby).
      assert (Hcap0 : 0 <= get_capacity src) by (apply getf_range; lia).
      assert (Hpow : 0 < 2 ^ get_capacity src) by (apply Z.pow_pos_nonneg; lia).
      assert (Hfresh : get_ptr src <> brk h) by (by eapply has_content_not_fresh).
      assert (Hcv : xs_capacity src = 2 ^ get_capacity src - 1).
      { unfold xs_capacity. rewrite Hp. by rewrite shiftl_1 by lia. }
      rewrite shiftl_1 by lia. unfold malloc, alloc.
      set (d := set_ptr src (brk h)).
      set (h1 := mkheap _ _).
      assert (Hpd : xs_is_ptr d = true).
      { unfold xs_is_ptr, d in *. by autorewrite with xsf. }
      assert (Hld : xs_is_large_string d = false).
      { unfold xs_is_large_string, d in *. by autorewrite with xsf. }
      assert (Hqd : get_ptr d = brk h) by done.
      assert (Hdd : xs_data d = Buf (brk h) 0).
      { unfold xs_data. by rewrite Hpd, Hld, Hqd. }
      assert (Hds : xs_data src = Buf (get_ptr src) 0).
      { unfold xs_data. by rewrite Hp, Hl. }
      assert (Hcd : xs_capacity d = xs_capacity src).
      { unfold xs_capacity. rewrite Hpd, Hp. unfold d. by autorewrite with xsf. }
      assert (Hsd : xs_size d = xs_size src).
      { unfold xs_size. rewrite Hpd, Hp. unfold d. by autorewrite with xsf. }
      assert (Hold : blocks h1 !! get_ptr src = blocks h !! get_ptr src).
      { unfold h1. cbn [blocks]. by rewrite lookup_insert_ne by congruence. }
      assert (Hc1 : has_content src h1 c).
      { eapply has_content_frame; [exact Hc|]. by intros _. }
      assert (Hrd : region d h1 = Some (replicate (Z.to_nat (2 ^ get_capacity src)) None)).
      { unfold region. rewrite Hdd. unfold h1. cbn [blocks].
        by rewrite lookup_insert_eq. }
      destruct (memcpy_into d h1 _ 0 src (xs_data src) (xs_size src) c Hrd)
        as (d2 & h2 & Hm & Hr2 & Hp2 & Hd2 & Hsame2 & _ & Hbrk2 & Hfr2 & _).
      { rewrite length_replicate. lia. }
      { rewrite length_replicate. lia. }
      { exact Hby. }
      { intros E. congruence. }
      { by apply has_content_load. }
      change (Z.of_nat 0) with 0 in Hm. rewrite padd_0, Hdd, Hds in Hm.
      unfold xs_size in Hm. rewrite Hp in Hm.
      rewrite Hqd. rewrite Hm.
      specialize (Hsame2 Hpd). subst d2.
      exists d, h2. split; [done|].
      assert (Hold2 : blocks h2 !! get_ptr src = blocks h !! get_ptr src).
      { rewrite Hfr2 by (right; congruence). exact Hold. }
      split.
      { eexists. split; [exact Hr2|].
        rewrite length_splice by (rewrite length_map, length_replicate; lia).
        rewrite length_replicate, Hcd, Hcv, Hsd.
        split; [lia|]. split; [done|]. split; [lia|]. split; [|done].
        unfold splice. rewrite take_0, app_nil_l.
        apply take_app_length'. by rewrite length_map. }
      split.
      { eapply has_content_frame; [exact Hc|]. by intros _. }
      rewrite Hpd, Hld. cbn [negb].
      split; [done|]. split; [done|]. split; [done|].
      split; [intros _; split; [done|]; split; [congruence|done]|].
      split; [done|].
      split.
      { apply (heap_ok_same_dom h1).
        * apply heap_ok_insert_fresh; [done|].
          pose proof (Z.div_pos (Z.of_nat (length (replicate (Z.to_nat (2 ^ get_capacity src)) (@None Z)))) 16).
          lia.
        * exact Hbrk2.
        * intros b Hb. destruct (decide (b = get_ptr d)) as [->|Hne].
          -- unfold h1. cbn [blocks]. rewrite Hqd, lookup_insert_eq. by eexists.
          -- by rewrite <- Hfr2 by (by right). }
      split.
      { intros b Hb1 Hb2. rewrite Hfr2 by (right; congruence).
        unfold h1. cbn [blocks]. by rewrite lookup_insert_ne by congruence. }
      split; [|done].
      intros Htm. eapply terminated_frame; [exact Htm|]. by intros _.
  - (* Inline *)
    exists src, h. rewrite Hp. cbn [negb]. done.
Qed.

(** X8.  [xs_copy] gives the destination the bytes of the source and leaves the
    source as it was; an Exclusive-heap source is copied into a new block. *)
Theorem xs_copy_same_content src h (c : list Z) :
  heap_ok h -> has_content src h c ->
  (xs_tier src = SharedHeap ->
     exists k, 1 <= k < INT_MAX /\ load_int (get_ptr src) h = Ok k) ->
  exists dest h',
    xs_copy src h = Ok (dest, h') /\
    has_content dest h' c /\ has_content src h' c /\
    xs_content dest h' = Ok (map Some c) /\
    xs_tier dest = xs_tier src /\
    xs_capacity dest = xs_capacity src /\
    (xs_tier src = Inline -> dest = src /\ h' = h) /\
    (xs_tier src = ExclusiveHeap ->
       get_ptr dest <> get_ptr src /\
       blocks h' !! get_ptr src = blocks h !! get_ptr src) /\
    (xs_tier src = SharedHeap -> dest = src) /\
    heap_ok h'.
Proof.
  intros Hok Hc Hcount.
  destruct (xs_copy_spec src h c Hok Hc Hcount)
    as (dest & h' & H1 & H2 & H3 & H4 & H5 & H6 & H7 & H8 & H9 & H10 & _).
  exists dest, h'. do 6 (split; [assumption|]). split; [exact H7|].
  split; [|split; assumption].
  intros E. by destruct (H8 E) as (_ & ? & ?).
Qed.

(** ** Growth of a heap value *)

Lemma xs_grow_heap_spec x len h (c : list Z) :
  heap_ok h -> has_content x h c ->
  xs_is_ptr x = true -> unshared x h ->
  xs_is_large_string x = negb (len <? 256) ->
  xs_capacity x < len < 2 ^ 30 ->
  exists x' h',
    xs_grow x len h = Ok (x', h') /\
    has_content x' h' c /\
    (terminated x h -> terminated x' h') /\
    xs_capacity x' = 2 ^ (Z.log2 len + 1) - 1 /\ len <= xs_capacity x' /\
    xs_is_ptr x' = true /\ xs_is_large_string x' = xs_is_large_string x /\
    unshared x' h' /\
    get_ptr x' = brk h /\ blocks h' !! get_ptr x = None /\
    (forall b, b <> brk h -> b <> get_ptr x -> blocks h' !! b = blocks h !! b) /\
    heap_ok h'.
Proof.
  intros Hok Hc Hp Hu Htier Hlen.
  pose proof Hc as (r & Hr & Hlr & Hs & Hcc & Ht & Hby).
  set (k := Z.log2 len + 1).
  assert (Hcap0 : 0 <= get_capacity x) by (apply getf_range; lia).
  assert (Hcv : xs_capacity x = 2 ^ get_capacity x - 1).
  { unfold xs_capacity. rewrite Hp. by rewrite shiftl_1 by lia. }
  assert (Hpos : 0 < len).
  { pose proof (Z.pow_pos_nonneg 2 (get_capacity x)). lia. }
  assert (Hlg : 0 <= Z.log2 len < 30).
  { split; [apply Z.log2_nonneg|apply Z.log2_lt_pow2; lia]. }
  assert (Hspec : 2 ^ Z.log2 len <= len < 2 ^ k).
  { unfold k. replace (Z.log2 len + 1) with (Z.succ (Z.log2 len)) by lia.
    apply Z.log2_spec. lia. }
  assert (Hpk : 0 < 2 ^ k) by (apply Z.pow_pos_nonneg; unfold k; lia).
  assert (Hblock : exists old, blocks h !! get_ptr x = Some old).
  { destruct (has_content_block x h c Hc Hp) as [old Hold]. by exists old. }
  destruct Hblock as (old & Hold).
  assert (Hnz : get_ptr x <> 0).
  { destruct Hok as [_ Hok]. specialize (Hok (get_ptr x)). rewrite Hold in Hok.
    specialize (Hok ltac:(by eexists)). lia. }
  assert (Hfresh : get_ptr x <> brk h) by (by eapply has_content_not_fresh).
  unfold xs_grow.
  destruct (Z.leb_spec len (xs_capacity x)); [lia|].
  rewrite ilog2_small by lia. cbn [bind]. fold k.
  set (x2 := set_capacity (set_is_ptr x 1) k).
  assert (Hc2 : get_capacity x2 = k).
  { unfold x2. rewrite capacity_set_capacity. apply Z.mod_small.
    change (2 ^ 6) with 64. unfold k. lia. }
  assert (Hp2 : xs_is_ptr x2 = true).
  { unfold xs_is_ptr, x2. by autorewrite with xsf. }
  assert (Hl2 : xs_is_large_string x2 = xs_is_large_string x).
  { unfold xs_is_large_string, x2. by autorewrite with xsf. }
  assert (Hs2 : get_size x2 = get_size x).
  { unfold x2. by autorewrite with xsf. }
  assert (Hq2 : get_ptr x2 = get_ptr x) by done.
  rewrite Hp2. unfold xs_allocate_data, LARGE_STRING_LEN.
  set (hd := mkheap (delete (get_ptr x) (blocks h)) (brk h)).
  assert (Hrealloc : forall sz, realloc (get_ptr x) sz h
            = Ok (alloc (resize (Z.to_nat sz) None old) hd)).
  { intros sz. unfold realloc. destruct (Z.eqb_spec (get_ptr x) 0); [done|].
    by rewrite Hold. }
  assert (Hokd : heap_ok hd).
  { apply (heap_ok_same_dom h); [done|done|]. intros b Hb. unfold hd in Hb.
    cbn [blocks] in Hb. destruct (decide (b = get_ptr x)) as [->|Hne].
    - by rewrite lookup_delete_eq in Hb; destruct Hb.
    - by rewrite lookup_delete_ne in Hb by done. }
  assert (Hsize : forall y, xs_is_ptr y = true -> get_size y = get_size x ->
            xs_size y = xs_size x).
  { intros y Hy E. unfold xs_size. by rewrite Hy, Hp. }
  assert (Hcapy : forall y, xs_is_ptr y = true -> get_capacity y = k ->
            xs_capacity y = 2 ^ k - 1).
  { intros y Hy E. unfold xs_capacity. rewrite Hy, E. rewrite shiftl_1; [done|].
    unfold k. lia. }
  assert (Hgrown : forall off (n : nat) blk,
    region x h = Some (drop off old) -> (off <= length old)%nat ->
    drop off blk = drop off (resize n None old) -> (length old <= n)%nat ->
    Z.of_nat n = 2 ^ k + Z.of_nat off ->
    forall y h', region y h' = Some (drop off blk) ->
      xs_size y = xs_size x -> xs_capacity y = 2 ^ k - 1 ->
      has_content y h' c /\ (terminated x h -> terminated y h')).
  { intros off n blk Hrx Hoff Hblk Hn Hnk y h' Hry Hsy Hcy.
    rewrite Hr in Hrx. injection Hrx as Hrx.
    assert (Hr' : drop off blk = r ++ replicate (n - length old) None).
    { rewrite Hblk, resize_ge by done. rewrite drop_app_le by done. by rewrite Hrx. }
    assert (Hlenr : length r = (length old - off)%nat) by (rewrite Hrx; apply length_drop).
    split.
    - exists (drop off blk). split; [exact Hry|]. rewrite Hr'.
      rewrite length_app, length_replicate, Hcy, Hsy.
      split; [lia|]. split; [done|]. split; [lia|]. split; [|done].
      rewrite take_app_le by lia. exact Ht.
    - intros (r0 & Hr0 & Hz). rewrite Hr in Hr0. injection Hr0 as <-.
      exists (drop off blk). split; [exact Hry|]. rewrite Hr', Hsy.
      rewrite lookup_app_l; [done|]. by apply lookup_lt_Some in Hz. }
  destruct (Z.ltb_spec len 256) as [Hsmall|Hbig]; cbn [negb] in Htier.
  - (* Exclusive-heap *)
    rewrite Hq2, Hc2, shiftl_1 by (unfold k; lia).
    rewrite Hrealloc. unfold alloc. cbn [bind brk blocks hd].
    set (blk := resize (Z.to_nat (2 ^ k)) None old).
    set (y := set_ptr x2 (brk h)).
    set (h' := mkheap _ _).
    assert (Hpy : xs_is_ptr y = true) by (unfold xs_is_ptr, y in *; by autorewrite with xsf).
    assert (Hly : xs_is_large_string y = false).
    { unfold xs_is_large_string, y. autorewrite with xsf.
      fold (xs_is_large_string x2). by rewrite Hl2. }
    assert (Hry : region y h' = Some (drop 0 blk)).
    { unfold region, xs_data. rewrite Hpy, Hly. cbn [negb]. unfold h'. cbn [blocks].
      replace (get_ptr y) with (brk h) by done. rewrite lookup_insert_eq. done. }
    assert (Hrx : region x h = Some (drop 0 old)).
    { unfold region, xs_data. rewrite Hp, Htier. cbn [negb]. by rewrite Hold. }
    assert (Hlo : Z.of_nat (length old) = xs_capacity x + 1).
    { rewrite Hr in Hrx. injection Hrx as ->. by rewrite drop_0 in Hlr. }
    destruct (Hgrown 0%nat (Z.to_nat (2 ^ k)) blk Hrx ltac:(lia) eq_refl ltac:(lia)
                ltac:(lia) y h' Hry) as [Hcy Hty].
    { apply Hsize; [done|]. unfold y. by autorewrite with xsf. }
    { apply Hcapy; [done|]. unfold y. by autorewrite with xsf. }
    exists y, h'. split; [done|]. split; [exact Hcy|]. split; [exact Hty|].
    assert (Hcy' : xs_capacity y = 2 ^ k - 1).
    { apply Hcapy; [done|]. unfold y. by autorewrite with xsf. }
    split; [exact Hcy'|]. split; [lia|]. split; [exact Hpy|].
    split; [congruence|]. split; [by left|]. split; [done|].
    split.
    { unfold h'. cbn [blocks]. rewrite lookup_insert_ne by congruence.
      apply lookup_delete_eq. }
    split.
    { intros b Hb1 Hb2. unfold h'. cbn [blocks].
      rewrite lookup_insert_ne by congruence. by rewrite lookup_delete_ne by congruence. }
    apply (heap_ok_insert_fresh hd); [done|].
    pose proof (Z.div_pos (Z.of_nat (length blk)) 16). lia.
  - (* Shared-heap, one user *)
    rewrite capacity_set_is_large, Hc2. unfold shl_int.
    destruct (Z.ltb_spec k 31); [|unfold k in *; lia]. cbn [bind].
    rewrite shiftl_1 by (unfold k; lia).
    replace (get_ptr (set_is_large_string x2 1)) with (get_ptr x) by done.
    rewrite Hrealloc. unfold alloc. cbn [bind brk blocks hd].
    unfold xs_set_ref_count. rewrite ptr_set_ptr.
    set (blk := resize (Z.to_nat (2 ^ k + 4)) None old).
    erewrite store_int_block;
      [|apply lookup_insert_eq|unfold blk; rewrite length_resize; lia].
    cbn [bind].
    set (y := set_ptr (set_is_large_string x2 1) (brk h)).
    set (h' := upd _ _ _).
    assert (Hpy : xs_is_ptr y = true) by (unfold xs_is_ptr, y in *; by autorewrite with xsf).
    assert (Hly : xs_is_large_string y = true).
    { unfold xs_is_large_string, y. by autorewrite with xsf. }
    assert (Hby' : blocks h' !! brk h = Some (set_hdr 1 blk)) by apply blocks_upd_eq.
    assert (Hry : region y h' = Some (drop 4 (set_hdr 1 blk))).
    { rewrite region_large by done. unfold data_area, y.
      by rewrite ptr_set_ptr, Hby'. }
    assert (Hrx : region x h = Some (drop 4 old)).
    { rewrite region_large by done. unfold data_area. by rewrite Hold. }
    assert (Hlo : Z.of_nat (length old) = xs_capacity x + 1 + 4 /\ (4 <= length old)%nat).
    { destruct Hu as [Hu|Hu]; [congruence|].
      destruct (load_int_inv _ _ _ Hu) as (blk0 & Hb0 & H4).
      rewrite Hold in Hb0. injection Hb0 as <-.
      rewrite Hr in Hrx. injection Hrx as ->. rewrite length_drop in Hlr. lia. }
    destruct (Hgrown 4%nat (Z.to_nat (2 ^ k + 4)) (set_hdr 1 blk) Hrx ltac:(lia))
      with (y := y) (h' := h') as [Hcy Hty].
    { unfold set_hdr. by rewrite drop_app_length' by done. }
    { lia. }
    { lia. }
    { exact Hry. }
    { apply Hsize; [done|]. unfold y. by autorewrite with xsf. }
    { apply Hcapy; [done|]. unfold y. by autorewrite with xsf. }
    assert (Hcy' : xs_capacity y = 2 ^ k - 1).
    { apply Hcapy; [done|]. unfold y. by autorewrite with xsf. }
    exists y, h'. split; [done|]. split; [exact Hcy|]. split; [exact Hty|].
    split; [exact Hcy'|]. split; [lia|]. split; [exact Hpy|].
    split; [congruence|].
    split.
    { right. unfold y. rewrite ptr_set_ptr.
      eapply load_int_hdr; [exact Hby'|]. vm_compute. split; discriminate. }
    split; [done|].
    split.
    { unfold h'. rewrite blocks_upd_ne by congruence. cbn [blocks].
      rewrite lookup_insert_ne by congruence. apply lookup_delete_eq. }
    split.
    { intros b Hb1 Hb2. unfold h'. rewrite blocks_upd_ne by congruence. cbn [blocks].
      rewrite lookup_insert_ne by congruence. by rewrite lookup_delete_ne by congruence. }
    unfold h', upd. cbn [blocks brk]. rewrite insert_insert_eq.
    replace (length blk) with (length (set_hdr 1 blk))
      by (apply length_set_hdr; unfold blk; rewrite length_resize; lia).
    apply (heap_ok_insert_fresh hd); [done|].
    pose proof (Z.div_pos (Z.of_nat (length (set_hdr 1 blk))) 16). lia.
Qed.

(** X10.  [xs_grow(&x, len)] with [xs_capacity x < len < 2^30], on a heap
    value that is the only user of its buffer and whose tier fits the new
    length ([len < 256] for Exclusive-heap, [len >= 256] for Shared-heap),
    live blocks lying between NULL and the break: the content (and the
    terminator, when there was one) is kept, the capacity becomes
    [2^(log2 len + 1) - 1 >= len], the tier is unchanged, [x] is still the
    only user of its buffer, and values in other buffers keep their
    contents. *)
Theorem xs_grow_heap_keeps_content x len h (c : list Z) :
  heap_ok h -> has_content x h c ->
  xs_is_ptr x = true -> unshared x h ->
  xs_is_large_string x = negb (len <? 256) ->
  xs_capacity x < len < 2 ^ 30 ->
  exists x' h',
    xs_grow x len h = Ok (x', h') /\
    has_content x' h' c /\
    (terminated x h -> terminated x' h') /\
    xs_capacity x' = 2 ^ (Z.log2 len + 1) - 1 /\ len <= xs_capacity x' /\
    xs_tier x' = xs_tier x /\
    unshared x' h' /\ heap_ok h' /\
    (forall w cw, has_content w h cw -> separate x w -> has_content w h' cw).
Proof.
  intros Hok Hc Hp Hu Htier Hlen.
  destruct (xs_grow_heap_spec x len h c Hok Hc Hp Hu Htier Hlen)
    as (x' & h' & Hg & Hc' & Ht' & Hcap & Hle & Hp' & Hl' & Hu' & _ & _ & Hfr & Hok').
  exists x', h'. split; [exact Hg|]. split; [exact Hc'|]. split; [exact Ht'|].
  split; [exact Hcap|]. split; [exact Hle|].
  split; [unfold xs_tier; by rewrite Hp', Hl', Hp|].
  split; [exact Hu'|]. split; [exact Hok'|].
  intros w cw Hw Hsep. eapply has_content_frame; [exact Hw|].
  intros Hpw. apply Hfr.
  - by eapply has_content_not_fresh.
  - intros E. exact (Hsep Hp Hpw (eq_sym E)).
Qed.

(** ** Release after construction *)

Lemma xs_free_unshared_gone v h :
  unshared v h -> xs_is_ptr v = true ->
  is_Some (blocks h !! get_ptr v) -> get_ptr v <> 0 ->
  exists h',
    xs_free v h = Ok (xs_literal_empty, h') /\
    blocks h' = delete (get_ptr v) (blocks h) /\ brk h' = brk h.
Proof.
  intros Hu Hp [blk Hb] Hnz. unfold xs_free. rewrite Hp.
  unfold xs_dec_ref_count.
  destruct (xs_is_large_string v) eqn:Hl; cbn [negb].
  - destruct Hu as [?|Hc]; [congruence|]. rewrite Hc. cbn [bind].
    change (1 =? INT_MIN) with false. cbv iota.
    destruct (load_int_inv _ _ _ Hc) as (blk' & Hb' & Hlen).
    erewrite store_int_block by done. cbn [bind].
    change (1 - 1 <=? 0) with true. cbv iota.
    unfold free. destruct (Z.eqb_spec (get_ptr v) 0) as [E|E]; [done|].
    rewrite blocks_upd_eq. cbn [bind].
    eexists. split; [reflexivity|]. cbn [blocks brk upd]. split; [|done].
    apply delete_insert_eq.
  - cbn [bind]. change (0 <=? 0) with true. cbv iota.
    unfold free. destruct (Z.eqb_spec (get_ptr v) 0) as [E|E]; [done|].
    rewrite Hb. cbn [bind]. eexists. split; [reflexivity|]. done.
Qed.

(** X2.  A value built by [xs_new] and released by [xs_free] leaves no block
    behind. *)
Theorem xs_new_then_free (s rest : list Z) (h : heap) :
  heap_ok h ->
  Forall (fun c => c <> 0) s -> Forall is_byte s ->
  Z.of_nat (length s) < 2 ^ 30 - 1 ->
  exists x h1 h2,
    xs_new (s ++ 0 :: rest) h = Ok (x, h1) /\
    xs_free x h1 = Ok (xs_literal_empty, h2) /\
    blocks h2 = blocks h.
Proof.
  intros Hok Hnz Hby Hlen.
  destruct (xs_new_spec s rest h Hnz Hby Hlen)
    as (x & h1 & Hnew & Hc & _ & Hu & _ & _ & Hq & Hsame & Hok1 & Hfr).
  exists x, h1.
  destruct (xs_is_ptr x) eqn:Hp.
  - specialize (Hq eq_refl).
    destruct (xs_free_unshared_gone x h1 Hu Hp) as (h2 & Hf & Hb & _).
    { by apply (has_content_block x h1 s). }
    { rewrite Hq. destruct Hok. lia. }
    exists h2. split; [exact Hnew|]. split; [exact Hf|].
    rewrite Hb, Hq. apply map_eq. intros b.
    destruct (decide (b = brk h)) as [->|Hne].
    + rewrite lookup_delete_eq. symmetry. by apply heap_ok_fresh.
    + rewrite lookup_delete_ne by done. by apply Hfr.
  - exists h1. split; [exact Hnew|]. split.
    + unfold xs_free. by rewrite Hp.
    + by rewrite (Hsame eq_refl).
Qed.

(** ** Concatenation within the capacity *)

(** X4.  [xs_concat] where [string] is the only user of its buffer, [prefix]
    and [suffix] hold their contents in buffers other than [string]'s,
    [suffix] is 0-terminated, and the three lengths together fit the
    capacity of [string] (and are below 2^54): the concatenation is written
    in place.  The result keeps its tier, capacity and (when heap-backed)
    buffer pointer; nothing is allocated or released, no other block
    changes, and an Inline [string] leaves the heap as it was. *)
Theorem xs_concat_within_capacity string prefix suffix h (c p s : list Z) :
  has_content string h c -> has_content prefix h p ->
  has_content suffix h s -> terminated suffix h ->
  unshared string h ->
  separate string prefix -> separate string suffix ->
  Z.of_nat (length p + length c + length s) <= xs_capacity string ->
  Z.of_nat (length p + length c + length s) < 2 ^ 54 ->
  exists v' h',
    xs_concat string prefix suffix h = Ok (v', h') /\
    has_content v' h' (p ++ c ++ s) /\ terminated v' h' /\
    xs_tier v' = xs_tier string /\
    xs_is_ptr v' = xs_is_ptr string /\
    xs_capacity v' = xs_capacity string /\
    (xs_is_ptr string = true -> get_ptr v' = get_ptr string) /\
    (xs_is_ptr string = false -> h' = h) /\
    brk h' = brk h /\
    (forall b, xs_is_ptr string = false \/ b <> get_ptr string ->
       blocks h' !! b = blocks h !! b) /\
    has_content prefix h' p /\ has_content suffix h' s.
Proof.
  intros Hc Hp Hs Hts Hu Hsp Hss Hfit Hbound.
  rewrite xs_concat_eq, (cow_unshared _ _ _ Hu). cbn [bind default from_option].
  unfold id.
  destruct (concat_body_in_place string prefix suffix h c p s)
    as (v' & h' & Hb & Hc' & Ht' & Hp' & Hcap' & Hv' & Hbrk' & Hfr' & _); try done.
  exists v', h'. split; [exact Hb|]. split; [exact Hc'|]. split; [exact Ht'|].
  split.
  { unfold xs_tier. rewrite Hp'. destruct (xs_is_ptr string) eqn:E; [|done].
    cbn [negb]. rewrite (Hv' eq_refl).
    by destruct (xs_set_size_props string (Z.of_nat (length (p ++ c ++ s))))
      as (_ & -> & _). }
  split; [exact Hp'|]. split; [exact Hcap'|].
  split.
  { intros E. rewrite (Hv' E).
    by destruct (xs_set_size_props string (Z.of_nat (length (p ++ c ++ s))))
      as (_ & _ & _ & _ & ->). }
  split.
  { intros E. destruct h as [bl bk], h' as [bl' bk']. cbn [brk blocks] in *.
    f_equal; [|done]. apply map_eq. intros b. apply Hfr'. by left. }
  split; [exact Hbrk'|]. split; [exact Hfr'|].
  split.
  - eapply has_content_frame; [exact Hp|]. by apply (separate_frame string).
  - eapply has_content_frame; [exact Hs|]. by apply (separate_frame string).
Qed.

(** ** Construction and reading back *)

(** X1.  [xs_new] followed by the accessors gives back the bytes of the C string,
    its length and a terminator; a string of at most 15 bytes leaves the
    heap as it was. *)
Theorem xs_new_round_trip (s rest : list Z) (h : heap) :
  Forall (fun c => c <> 0) s -> Forall is_byte s ->
  Z.of_nat (length s) < 2 ^ 30 - 1 ->
  exists x h',
    xs_new (s ++ 0 :: rest) h = Ok (x, h') /\
    xs_content x h' = Ok (map Some s) /\
    xs_size x = Z.of_nat (length s) /\
    xs_terminator x h' = Ok [Some 0] /\
    Z.of_nat (length s) <= xs_capacity x /\
    (Z.of_nat (length s) <= 15 -> h' = h) /\
    (heap_ok h -> forall b, is_Some (blocks h !! b) -> blocks h' !! b = blocks h !! b).
Proof.
  intros Hnz Hby Hlen.
  destruct (xs_new_spec s rest h Hnz Hby Hlen)
    as (x & h' & Hnew & Hc & Ht & _ & _ & Hp & _ & Hsame & _ & Hfr).
  exists x, h'. split; [exact Hnew|].
  destruct (has_content_observed _ _ _ Hc) as [Hcont Hsize].
  split; [exact Hcont|]. split; [exact Hsize|].
  split; [exact (terminated_observed _ _ _ Hc Ht)|].
  split; [by destruct Hc as (_ & _ & _ & _ & ? & _)|].
  split.
  - intros Hs. apply Hsame. rewrite Hp.
    by destruct (Z.leb_spec (Z.of_nat (length s)) 15); [|lia].
  - intros [_ Hok] b Hb. apply Hfr. specialize (Hok b Hb). lia.
Qed.

(** ** Instances of the theorems above *)

Lemma heap_okb_ok h : heap_okb h = true -> heap_ok h.
Proof.
  unfold heap_okb. intros H. apply andb_prop in H as [H0 Hall].
  split; [lia|]. intros b [blk Hb].
  rewrite forallb_forall in Hall.
  specialize (Hall b). rewrite <- list_elem_of_In in Hall.
  assert (Hin : b ∈ map fst (map_to_list (blocks h))).
  { apply list_elem_of_fmap. exists (b, blk). split; [done|].
    by apply elem_of_map_to_list. }
  specialize (Hall Hin). lia.
Qed.

(** Hypotheses at concrete values, by evaluation. *)
Ltac bytes_by_eval :=
  match goal with
  | |- Forall ?P ?l =>
      apply (bool_decide_unpack (Forall (fun b => 0 <= b < 256) l)); vm_compute; exact I
  end.

Ltac content_by_eval :=
  eexists; split; [vm_compute; reflexivity|];
  split; [vm_compute; reflexivity|];
  split; [vm_compute; reflexivity|];
  split; [vm_compute; discriminate|];
  split; [vm_compute; reflexivity|bytes_by_eval].

Ltac terminated_by_eval := eexists; split; vm_compute; reflexivity.

Ltac nonzero_by_eval :=
  match goal with
  | |- Forall ?P ?l =>
      apply (bool_decide_unpack (Forall (fun b => b <> 0) l)); vm_compute; exact I
  end.

Lemma xs_new_round_trip_witness :
  exists x h',
    xs_new ([102; 111; 111] ++ 0 :: []) heap_empty = Ok (x, h') /\
    xs_content x h' = Ok (map Some [102; 111; 111]) /\ h' = heap_empty.
Proof.
  destruct (xs_new_round_trip [102; 111; 111] [] heap_empty)
    as (x & h' & Hnew & Hc & _ & _ & _ & Hsame & _).
  - nonzero_by_eval.
  - bytes_by_eval.
  - vm_compute. reflexivity.
  - exists x, h'. split; [exact Hnew|]. split; [exact Hc|].
    apply Hsame. vm_compute. discriminate.
Defined.

Lemma xs_concat_unshared_witness :
  exists v' h',
    xs_concat (new_in foobarbar heap_empty).1 (new_in [40; 40; 40; 40] heap_empty).1
      (new_in [41; 41; 41; 41] heap_empty).1 heap_empty = Ok (v', h') /\
    xs_content v' h' = Ok (map Some ([40; 40; 40; 40] ++ foobarbar ++ [41; 41; 41; 41])) /\
    xs_terminator v' h' = Ok [Some 0].
Proof.
  destruct (xs_concat_unshared (new_in foobarbar heap_empty).1
              (new_in [40; 40; 40; 40] heap_empty).1
              (new_in [41; 41; 41; 41] heap_empty).1 heap_empty
              foobarbar [40; 40; 40; 40] [41; 41; 41; 41])
    as (v' & h' & Hcat & _ & _ & Hc & _ & Ht).
  - apply heap_okb_ok. vm_compute. reflexivity.
  - content_by_eval.
  - content_by_eval.
  - content_by_eval.
  - terminated_by_eval.
  - left. vm_compute. reflexivity.
  - intros H. vm_compute in H. discriminate.
  - intros H. vm_compute in H. discriminate.
  - vm_compute. discriminate.
  - vm_compute. reflexivity.
  - exists v', h'. split; [exact Hcat|]. split; [exact Hc|exact Ht].
Defined.

Lemma xs_trim_strips_witness :
  exists x' h',
    xs_trim (new_in padded_foobarbar heap_empty).1 ([10; 32] ++ 0 :: [])
      (new_in padded_foobarbar heap_empty).2 = Ok (x', h') /\
    xs_content x' h' = Ok (map Some foobarbar) /\
    xs_terminator x' h' = Ok [Some 0].
Proof.
  destruct (xs_trim_strips (new_in padded_foobarbar heap_empty).1
              (new_in padded_foobarbar heap_empty).2 padded_foobarbar [10; 32] [])
    as (x' & h' & Htrim & _ & _ & Hc & Ht & _).
  - content_by_eval.
  - left. vm_compute. reflexivity.
  - discriminate.
  - nonzero_by_eval.
  - bytes_by_eval.
  - apply (bool_decide_unpack (Exists (fun b => b ∉ [10; 32]) padded_foobarbar)).
    vm_compute. exact I.
  - exists x', h'. split; [exact Htrim|]. split; [exact Hc|exact Ht].
Defined.

Lemma C10_cutset_is_nul_terminated_witness :
  exists trimlen x' h',
    strlen [10; 32; 0; 102] = Ok trimlen /\
    check_bit (build_mask [10; 32; 0; 102] trimlen) 102 = false /\
    check_bit (build_mask [10; 32; 0; 102] trimlen) 32 = true /\
    xs_trim (new_in padded_foobarbar heap_empty).1 [10; 32; 0; 102]
      (new_in padded_foobarbar heap_empty).2 = Ok (x', h') /\
    xs_content x' h' = Ok (map Some foobarbar).
Proof.
  destruct (C10_cutset_is_nul_terminated [10; 32] [102])
    as (trimlen & Hlen & Hmem & _ & _ & _ & _ & _ & Htrim & _).
  - repeat constructor; lia.
  - destruct (Htrim (new_in padded_foobarbar heap_empty).1
                (new_in padded_foobarbar heap_empty).2 padded_foobarbar)
      as (x' & h' & Ht & Hc & _).
    + content_by_eval.
    + left. vm_compute. reflexivity.
    + discriminate.
    + apply (bool_decide_unpack (Exists (fun b => b ∉ [10; 32]) padded_foobarbar)).
      vm_compute. exact I.
    + exists trimlen, x', h'. split; [exact Hlen|]. split; [|split; [|split]].
      * destruct (check_bit _ 102) eqn:E; [|reflexivity].
        apply Hmem in E; [|lia].
        apply (bool_decide_unpack (102 ∉ [10; 32])) in E; [done|]. vm_compute. exact I.
      * apply Hmem; [lia|].
        apply (bool_decide_unpack (32 ∈ [10; 32])). vm_compute. exact I.
      * exact Ht.
      * exact Hc.
Defined.

Lemma xs_concat_detaches_witness :
  exists v' h',
    xs_concat x300_twice.1 (new_in [40] heap_empty).1 (new_in [41] heap_empty).1
      x300_twice.2 = Ok (v', h') /\
    has_content v' h' ([40] ++ replicate 300 120 ++ [41]) /\
    xs_get_ref_count v' h' = Ok 1 /\
    xs_get_ref_count x300_twice.1 h' = Ok 1 /\
    has_content x300_twice.1 h' (replicate 300 120).
Proof.
  destruct (xs_concat_detaches x300_twice.1 (new_in [40] heap_empty).1
              (new_in [41] heap_empty).1 x300_twice.2
              (replicate 300 120) [40] [41] 2)
    as (v' & h' & Hcat & _ & _ & _ & Hone & _ & Hold & _ & _ & Hc & Hkept).
  - apply heap_okb_ok. vm_compute. reflexivity.
  - content_by_eval.
  - content_by_eval.
  - content_by_eval.
  - terminated_by_eval.
  - vm_compute. reflexivity.
  - vm_compute. reflexivity.
  - vm_compute. reflexivity.
  - vm_compute. split; [reflexivity|discriminate].
  - vm_compute. discriminate.
  - vm_compute. reflexivity.
  - intros _ H. vm_compute in H. discriminate.
  - intros _ H. vm_compute in H. discriminate.
  - vm_compute. reflexivity.
  - exists v', h'. split; [exact Hcat|]. split; [exact Hc|]. split; [exact Hone|].
    split; [exact Hold|exact Hkept].
Defined.

Lemma xs_copy_same_content_witness :
  exists dest h',
    xs_copy (new_in twice_foobarbar heap_empty).1
      (new_in twice_foobarbar heap_empty).2 = Ok (dest, h') /\
    xs_content dest h' = Ok (map Some twice_foobarbar) /\
    get_ptr dest <> get_ptr (new_in twice_foobarbar heap_empty).1.
Proof.
  destruct (xs_copy_same_content (new_in twice_foobarbar heap_empty).1
              (new_in twice_foobarbar heap_empty).2 twice_foobarbar)
    as (dest & h' & Hcopy & _ & _ & Hc & _ & _ & _ & Hex & _).
  - apply heap_okb_ok. vm_compute. reflexivity.
  - content_by_eval.
  - intros H. vm_compute in H. discriminate.
  - exists dest, h'. split; [exact Hcopy|]. split; [exact Hc|].
    apply Hex. vm_compute. reflexivity.
Defined.

Lemma xs_grow_heap_keeps_content_witness :
  exists x' h',
    xs_grow (new_in twice_foobarbar heap_empty).1 100
      (new_in twice_foobarbar heap_empty).2 = Ok (x', h') /\
    has_content x' h' twice_foobarbar /\ terminated x' h' /\
    xs_capacity x' = 127.
Proof.
  destruct (xs_grow_heap_keeps_content (new_in twice_foobarbar heap_empty).1 100
              (new_in twice_foobarbar heap_empty).2 twice_foobarbar)
    as (x' & h' & Hgrow & Hc & Ht & Hcap & _).
  - apply heap_okb_ok. vm_compute. reflexivity.
  - content_by_eval.
  - vm_compute. reflexivity.
  - left. vm_compute. reflexivity.
  - vm_compute. reflexivity.
  - vm_compute. split; reflexivity.
  - exists x', h'. split; [exact Hgrow|]. split; [exact Hc|].
    split; [|exact Hcap]. apply Ht. terminated_by_eval.
Defined.

Lemma xs_new_then_free_witness :
  exists x h1 h2,
    xs_new (replicate 300 120 ++ 0 :: []) heap_empty = Ok (x, h1) /\
    xs_free x h1 = Ok (xs_literal_empty, h2) /\
    blocks h2 = blocks heap_empty.
Proof.
  apply (xs_new_then_free (replicate 300 120) [] heap_empty).
  - apply heap_okb_ok. vm_compute. reflexivity.
  - nonzero_by_eval.
  - bytes_by_eval.
  - vm_compute. reflexivity.
Defined.

Lemma xs_concat_within_capacity_witness :
  exists v' h',
    xs_concat (new_in foobarbar heap_empty).1 (new_in [40; 40; 40] heap_empty).1
      (new_in [41; 41; 41] heap_empty).1 heap_empty = Ok (v', h') /\
    has_content v' h' ([40; 40; 40] ++ foobarbar ++ [41; 41; 41]) /\
    h' = heap_empty.
Proof.
  destruct (xs_concat_within_capacity (new_in foobarbar heap_empty).1
              (new_in [40; 40; 40] heap_empty).1
              (new_in [41; 41; 41] heap_empty).1 heap_empty
              foobarbar [40; 40; 40] [41; 41; 41])
    as (v' & h' & Hcat & Hc & _ & _ & _ & _ & _ & Hsame & _).
  - content_by_eval.
  - content_by_eval.
  - content_by_eval.
  - terminated_by_eval.
  - left. vm_compute. reflexivity.
  - intros H. vm_compute in H. discriminate.
  - intros H. vm_compute in H. discriminate.
  - vm_compute. discriminate.
  - vm_compute. reflexivity.
  - exists v', h'. split; [exact Hcat|]. split; [exact Hc|].
    apply Hsame. vm_compute. reflexivity.
Defined.

(** ** Copy, then change the copy *)

(** X9.  [xs_copy(&dest, &src)] followed by [xs_concat(&dest, prefix, suffix)],
    where [src] has capacity at least 15 (an Inline [src] with the
    [is_large_string] flag clear; a Shared-heap [src] holding at least 256
    bytes, with capacity exponent below 31 and a count from 1 to
    [INT_MAX - 1]), [prefix] and [suffix] hold their contents in buffers
    other than [src]'s, [suffix] is 0-terminated, live blocks lie between
    NULL and the break, and the three lengths total less than 2^30: the copy
    holds the concatenation, followed by a 0, and the source still holds its
    bytes (and its terminator, when it had one), in every tier. *)
Theorem xs_copy_then_concat src prefix suffix h (c p s : list Z) :
  heap_ok h ->
  has_content src h c -> has_content prefix h p ->
  has_content suffix h s -> terminated suffix h ->
  (xs_tier src = Inline -> xs_is_large_string src = false) ->
  (xs_tier src = SharedHeap ->
     256 <= Z.of_nat (length c) /\ get_capacity src < 31 /\
     exists k, 1 <= k < INT_MAX /\ load_int (get_ptr src) h = Ok k) ->
  separate src prefix -> separate src suffix ->
  15 <= xs_capacity src ->
  Z.of_nat (length p + length c + length s) < 2 ^ 30 ->
  exists dest h1 v' h2,
    xs_copy src h = Ok (dest, h1) /\
    xs_concat dest prefix suffix h1 = Ok (v', h2) /\
    has_content v' h2 (p ++ c ++ s) /\ terminated v' h2 /\
    has_content src h2 c /\
    (terminated src h -> terminated src h2).
Proof.
  intros Hok Hc Hp Hs Hts Hinl Hsh Hsp Hss Hcap Htot.
  destruct (xs_copy_spec src h c Hok Hc)
    as (dest & h1 & Hcopy & Hd1 & Hs1 & _ & Htier & Hcapd & Hin & Hex & Hshd & Hok1
        & Hfr1 & Htm1 & Hcnt1).
  { intros E. by destruct (Hsh E) as (_ & _ & ?). }
  exists dest, h1.
  assert (Hother : forall w cw, has_content w h cw -> separate src w ->
            xs_is_ptr w = true -> blocks h1 !! get_ptr w = blocks h !! get_ptr w).
  { intros w cw Hw Hsep Hpw.
    destruct (xs_is_ptr src) eqn:Hptr.
    - apply Hfr1; [by eapply has_content_not_fresh|].
      intros E. exact (Hsep Hptr Hpw (eq_sym E)).
    - destruct (Hin ltac:(unfold xs_tier; by rewrite Hptr)) as [_ ->]. done. }
  assert (Hp1 : has_content prefix h1 p).
  { eapply has_content_frame; [exact Hp|]. by apply (Hother prefix p). }
  assert (Hq1 : has_content suffix h1 s).
  { eapply has_content_frame; [exact Hs|]. by apply (Hother suffix s). }
  assert (Hqt1 : terminated suffix h1).
  { eapply terminated_frame; [exact Hts|]. by apply (Hother suffix s). }
  assert (Hfresh : forall w cw, has_content w h cw -> xs_is_ptr w = true ->
            get_ptr w <> brk h).
  { intros w cw Hw Hpw. by eapply has_content_not_fresh. }
  assert (Hflags : xs_tier src = xs_tier src) by done.
  unfold xs_tier in Hflags at 2.
  destruct (xs_tier src) eqn:Ht.
  - (* Inline: the copy is a second object *)
    destruct (Hin eq_refl) as [-> ->].
    assert (Hptr : xs_is_ptr src = false).
    { destruct (xs_is_ptr src); [|done]. cbn [negb] in Hflags.
      by destruct (xs_is_large_string src). }
    destruct (xs_concat_unshared_spec src prefix suffix h c p s)
      as (v' & h2 & Hcat & Hc' & Ht' & _ & _ & _ & _ & Hfr2); try done.
    { left. by apply Hinl. }
    exists v', h2. split; [done|]. split; [done|]. split; [done|]. split; [done|].
    split.
    + eapply has_content_frame; [exact Hc|]. congruence.
    + intros Htm. eapply terminated_frame; [exact Htm|]. congruence.
  - (* Exclusive-heap: the copy has a block of its own *)
    destruct (Hex eq_refl) as (Hqd & Hne & Hsame).
    assert (Hfl : xs_is_ptr dest = true /\ xs_is_large_string dest = false).
    { unfold xs_tier in Htier. destruct (xs_is_ptr dest); [|done].
      cbn [negb] in Htier. by destruct (xs_is_large_string dest). }
    destruct Hfl as [Hpd Hld].
    assert (Hsepd : forall w cw, has_content w h cw -> separate dest w).
    { intros w cw Hw _ Hpw. rewrite Hqd. intros E.
      by apply (Hfresh w cw Hw Hpw). }
    destruct (xs_concat_unshared_spec dest prefix suffix h1 c p s)
      as (v' & h2 & Hcat & Hc' & Ht' & _ & _ & _ & _ & Hfr2); try done.
    { by left. }
    { by apply (Hsepd prefix p). }
    { by apply (Hsepd suffix s). }
    { by rewrite Hcapd. }
    exists v', h2. split; [done|]. split; [done|]. split; [done|]. split; [done|].
    assert (Hsrc : xs_is_ptr src = true ->
              blocks h2 !! get_ptr src = blocks h1 !! get_ptr src).
    { intros Hps. apply (Hfr2 src c Hs1); [|done]. by apply (Hsepd src c). }
    split.
    + eapply has_content_frame; [exact Hs1|]. exact Hsrc.
    + intros Htm. eapply terminated_frame; [exact (Htm1 Htm)|]. exact Hsrc.
  - (* Shared-heap: the copy shares the buffer until it is changed *)
    specialize (Hshd eq_refl). subst dest.
    destruct (Hsh eq_refl) as (Hlen & Hk31 & k & Hk & Hld).
    assert (Hfl : xs_is_ptr src = true /\ xs_is_large_string src = true).
    { destruct (xs_is_ptr src); [|done].
      cbn [negb] in Hflags. by destruct (xs_is_large_string src). }
    destruct Hfl as [Hps Hls].
    destruct (xs_concat_detaches_spec src prefix suffix h1 c p s (k + 1))
      as (v' & h2 & Hcat & Hc' & Ht' & _ & _ & _ & _ & Hkept & Hda2); try done.
    { by apply Hcnt1. }
    { lia. }
    exists v', h2. split; [done|]. split; [done|]. split; [done|]. split; [done|].
    split; [done|].
    intros Htm. exact (terminated_data_area src h1 h2 (Htm1 Htm) Hps Hls Hda2).
Qed.

Lemma xs_copy_then_concat_witness :
  exists dest h1 v' h2,
    xs_copy (new_in (replicate 300 120) heap_empty).1
      (new_in (replicate 300 120) heap_empty).2 = Ok (dest, h1) /\
    xs_concat dest (new_in [40] heap_empty).1 (new_in [41] heap_empty).1 h1
    = Ok (v', h2) /\
    has_content v' h2 ([40] ++ replicate 300 120 ++ [41]) /\
    has_content (new_in (replicate 300 120) heap_empty).1 h2 (replicate 300 120).
Proof.
  destruct (xs_copy_then_concat (new_in (replicate 300 120) heap_empty).1
              (new_in [40] heap_empty).1 (new_in [41] heap_empty).1
              (new_in (replicate 300 120) heap_empty).2
              (replicate 300 120) [40] [41])
    as (dest & h1 & v' & h2 & Hcopy & Hcat & Hc & _ & Hsrc & _).
  - apply heap_okb_ok. vm_compute. reflexivity.
  - content_by_eval.
  - content_by_eval.
  - content_by_eval.
  - terminated_by_eval.
  - intros H. vm_compute in H. discriminate.
  - intros _. split; [vm_compute; discriminate|]. split; [vm_compute; reflexivity|].
    exists 1. vm_compute. split; [split; [discriminate|reflexivity]|reflexivity].
  - intros _ H. vm_compute in H. discriminate.
  - intros _ H. vm_compute in H. discriminate.
  - vm_compute. discriminate.
  - vm_compute. reflexivity.
  - exists dest, h1, v', h2. split; [exact Hcopy|]. split; [exact Hcat|].
    split; [exact Hc|exact Hsrc].
Defined.

(** ** Trimming everything away *)

Lemma lead_all m l : Forall (fun b => m b = true) l -> lead m l = length l.
Proof. induction 1 as [|b l Hb _ IH]; cbn; [done|]. by rewrite Hb, IH. Qed.

Lemma xs_capacity_bound v : 0 <= xs_capacity v < 2 ^ 63.
Proof.
  unfold xs_capacity. destruct (xs_is_ptr v); [|lia].
  pose proof (getf_range 54 6 (hi v) ltac:(lia)) as Hc. fold (get_capacity v) in Hc.
  change (2 ^ 6) with 64 in Hc.
  rewrite shiftl_1 by lia.
  assert (0 < 2 ^ get_capacity v) by (apply Z.pow_pos_nonneg; lia).
  assert (2 ^ get_capacity v <= 2 ^ 63) by (apply Z.pow_le_mono_r; lia).
  lia.
Qed.

(** X7.  [xs_trim] on a non-empty value all of whose bytes are in the cutset:
    the backward scan leaves [slen = 0], [slen -= i] wraps around, and
    [memmove] is asked for more bytes than the buffer holds. *)
Theorem xs_trim_all_cutset_undefined x h (c cut rest : list Z) :
  has_content x h c -> unshared x h ->
  Forall (fun b => b <> 0) cut -> Forall is_byte cut ->
  c <> [] -> Forall (fun b => b ∈ cut) c ->
  xs_trim x (cut ++ 0 :: rest) h = UB.
Proof.
  intros Hc Hu Hnz Hcut Hne Hall.
  pose proof Hc as (r & Hr & Hlr & Hs & Hcap & Ht & Hby).
  set (m := fun b => bool_decide (b ∈ cut)).
  assert (Hall' : Forall (fun b => m b = true) c).
  { eapply Forall_impl; [exact Hall|]. intros b Hb. by apply bool_decide_eq_true. }
  assert (Hlen : (0 < length c)%nat) by (destruct c; [done|cbn; lia]).
  set (mask := build_mask (cut ++ 0 :: rest) (Z.of_nat (length cut))).
  assert (Hm : forall b, b ∈ c -> check_bit mask b = m b).
  { intros b Hb. apply build_mask_member; [done|].
    by apply (proj1 (Forall_forall _ _) Hby). }
  assert (Hhead : exists t0 tl, cut ++ 0 :: rest = t0 :: tl /\ t0 <> 0).
  { destruct cut as [|t0 cut'].
    - destruct c as [|b c']; [done|]. inversion Hall as [|? ? Hb]. by inversion Hb.
    - exists t0, (cut' ++ 0 :: rest). split; [done|]. by inversion Hnz. }
  destruct Hhead as (t0 & tl & Ehd & Ht0).
  unfold xs_trim. rewrite Ehd.
  destruct (Z.eqb_spec t0 0); [done|].
  rewrite (cow_unshared _ _ _ Hu). cbn [bind default from_option]. unfold id.
  rewrite <- Ehd. rewrite strlen_app by done. cbn [bind]. fold mask.
  rewrite Hs, Nat2Z.id.
  pose proof (scan_fwd_lead x h r mask m c Hr Ht Hm c 0 eq_refl) as Hfwd.
  change (Z.of_nat 0) with 0 in Hfwd. rewrite Nat.add_0_l in Hfwd.
  rewrite (lead_all m c Hall') in Hfwd.
  rewrite Hfwd. cbn [bind].
  pose proof (scan_bwd_trail x h r mask m c Hr Ht Hm (length c) ltac:(lia)) as Hbwd.
  rewrite firstn_all in Hbwd.
  rewrite (lead_all m (reverse c)) in Hbwd by (by apply Forall_reverse).
  rewrite length_reverse, Nat.sub_diag in Hbwd.
  rewrite Hbwd. cbn [bind].
  pose proof (xs_size_bound x) as Hsb. rewrite Hs in Hsb.
  pose proof (xs_capacity_bound x) as Hcb.
  replace ((Z.of_nat 0 - Z.of_nat (length c)) mod 2 ^ 64)
    with (2 ^ 64 - Z.of_nat (length c)).
  2:{ symmetry. rewrite <- (Z.mod_add _ 1) by lia. rewrite Z.mod_small by lia. lia. }
  assert (Hload : loadn x h (padd (xs_data x) (Z.of_nat (length c)))
                    (2 ^ 64 - Z.of_nat (length c)) = UB).
  { unfold region in Hr.
    destruct (xs_data x) as [off|b off] eqn:Hd; cbn [padd loadn].
    - destruct (xs_data_cases x) as [[_ E]|[_ (o & _ & E)]]; [|congruence].
      assert (off = 0) as -> by congruence.
      destruct (Z.leb_spec (0 + Z.of_nat (length c) + (2 ^ 64 - Z.of_nat (length c))) 16);
        [lia|]. by rewrite !andb_false_r.
    - destruct (blocks h !! b) as [blk|]; [|done].
      cbn [fmap option_fmap option_map] in Hr. injection Hr as <-.
      rewrite length_drop in Hlr.
      destruct (xs_data_cases x) as [[_ E]|[_ (o & Ho & E)]]; [congruence|].
      assert (off = o) as -> by congruence.
      destruct (Z.leb_spec (o + Z.of_nat (length c) + (2 ^ 64 - Z.of_nat (length c)))
                  (Z.of_nat (length blk))); [lia|]. by rewrite !andb_false_r. }
  unfold memmove, memcpy. by rewrite Hload.
Qed.

Lemma xs_trim_all_cutset_undefined_witness :
  xs_trim (new_in [120; 120; 120] heap_empty).1 ([120] ++ 0 :: []) heap_empty = UB.
Proof.
  apply (xs_trim_all_cutset_undefined (new_in [120; 120; 120] heap_empty).1
           heap_empty [120; 120; 120] [120] []).
  - content_by_eval.
  - left. vm_compute. reflexivity.
  - nonzero_by_eval.
  - bytes_by_eval.
  - discriminate.
  - apply (bool_decide_unpack (Forall (fun b => b ∈ [120]) [120; 120; 120])).
    vm_compute. exact I.
Defined.

(** ** Promotion of an Exclusive-heap value *)

(** X11.  [xs_grow(&x, len)] with [xs_capacity x < len] and
    [256 <= len < 2^30], on an Exclusive-heap value holding at least 4
    bytes, live blocks lying between NULL and the break: the block is
    reallocated, the reference count is written over its first four bytes
    and [xs_data] moves four bytes up, so the value, now Shared-heap with
    count 1 and the same [xs_size], reads its old bytes from the fifth on,
    followed by four other cells. *)
Theorem xs_grow_promotion_shifts_content x len h (c : list Z) :
  heap_ok h -> has_content x h c ->
  xs_is_ptr x = true -> xs_is_large_string x = false ->
  xs_capacity x < len -> 256 <= len < 2 ^ 30 ->
  (4 <= length c)%nat ->
  exists x' h' tail,
    xs_grow x len h = Ok (x', h') /\
    xs_is_large_string x' = true /\ xs_get_ref_count x' h' = Ok 1 /\
    xs_size x' = Z.of_nat (length c) /\
    xs_content x' h' = Ok (map Some (drop 4 c) ++ tail) /\
    length tail = 4%nat.
Proof.
  intros Hok Hc Hp Hl Hcap Hlen H4.
  pose proof Hc as (r & Hr & Hlr & Hs & Hcc & Ht & Hby).
  set (k := Z.log2 len + 1).
  assert (Hcap0 : 0 <= get_capacity x) by (apply getf_range; lia).
  assert (Hlg : 0 <= Z.log2 len < 30).
  { split; [apply Z.log2_nonneg|apply Z.log2_lt_pow2; lia]. }
  assert (Hspec : 2 ^ Z.log2 len <= len < 2 ^ k).
  { unfold k. replace (Z.log2 len + 1) with (Z.succ (Z.log2 len)) by lia.
    apply Z.log2_spec. lia. }
  assert (Hrx : region x h = blocks h !! get_ptr x).
  { unfold region, xs_data. rewrite Hp, Hl. cbn [negb].
    destruct (blocks h !! get_ptr x); [|done].
    cbn [fmap option_fmap option_map]. by rewrite drop_0. }
  rewrite Hr in Hrx. symmetry in Hrx.
  assert (Hnz : get_ptr x <> 0).
  { destruct Hok as [_ Hok]. specialize (Hok (get_ptr x)). rewrite Hrx in Hok.
    specialize (Hok ltac:(by eexists)). lia. }
  unfold xs_grow.
  destruct (Z.leb_spec len (xs_capacity x)); [lia|].
  rewrite ilog2_small by lia. cbn [bind]. fold k.
  set (x2 := set_capacity (set_is_ptr x 1) k).
  assert (Hc2 : get_capacity x2 = k).
  { unfold x2. rewrite capacity_set_capacity. apply Z.mod_small.
    change (2 ^ 6) with 64. unfold k. lia. }
  assert (Hp2 : xs_is_ptr x2 = true).
  { unfold xs_is_ptr, x2. by autorewrite with xsf. }
  assert (Hs2 : get_size x2 = get_size x).
  { unfold x2. by autorewrite with xsf. }
  rewrite Hp2. unfold xs_allocate_data, LARGE_STRING_LEN.
  destruct (Z.ltb_spec len 256); [lia|].
  rewrite capacity_set_is_large, Hc2. unfold shl_int.
  destruct (Z.ltb_spec k 31); [|unfold k in *; lia]. cbn [bind].
  rewrite shiftl_1 by (unfold k; lia).
  replace (get_ptr (set_is_large_string x2 1)) with (get_ptr x) by done.
  unfold realloc. destruct (Z.eqb_spec (get_ptr x) 0); [done|].
  rewrite Hrx. unfold alloc. cbn [bind brk blocks].
  unfold xs_set_ref_count. rewrite ptr_set_ptr.
  set (blk := resize (Z.to_nat (2 ^ k + 4)) None r).
  assert (Hlb : length blk = Z.to_nat (2 ^ k + 4)) by apply length_resize.
  erewrite store_int_block; [|apply lookup_insert_eq|lia].
  cbn [bind].
  set (y := set_ptr (set_is_large_string x2 1) (brk h)).
  set (h' := upd _ _ _).
  assert (Hpy : xs_is_ptr y = true) by (unfold xs_is_ptr, y in *; by autorewrite with xsf).
  assert (Hly : xs_is_large_string y = true).
  { unfold xs_is_large_string, y. by autorewrite with xsf. }
  assert (Hqy : get_ptr y = brk h) by done.
  assert (Hby' : blocks h' !! brk h = Some (set_hdr 1 blk)) by apply blocks_upd_eq.
  assert (Hsy : xs_size y = Z.of_nat (length c)).
  { rewrite <- Hs. unfold xs_size. rewrite Hpy, Hp. unfold y. by autorewrite with xsf. }
  set (X := drop 4 r ++ replicate (Z.to_nat (2 ^ k + 4) - length r) None).
  assert (HX : drop 4 (set_hdr 1 blk) = X).
  { unfold set_hdr. rewrite drop_app_length' by done.
    unfold blk. rewrite resize_ge by lia. by rewrite drop_app_le by lia. }
  exists y, h', (take 4 (drop (length c - 4) X)).
  split; [done|]. split; [exact Hly|].
  split.
  { unfold xs_get_ref_count. rewrite Hly. cbn [negb]. rewrite Hqy.
    eapply load_int_hdr; [exact Hby'|]. vm_compute. split; discriminate. }
  split; [exact Hsy|].
  split.
  - unfold xs_content, xs_data. rewrite Hpy, Hly, Hsy, Hqy. cbn [negb].
    rewrite (loadn_buf _ _ _ _ _ _ Hby');
      [|lia|lia|rewrite length_set_hdr by lia; lia].
    rewrite Nat2Z.id. change (Z.to_nat 4) with 4%nat. rewrite HX.
    replace (length c) with ((length c - 4) + 4)%nat at 1 by lia.
    rewrite <- take_take_drop. f_equal.
    unfold X. rewrite take_app_le by (rewrite length_drop; lia).
    rewrite take_drop_commute.
    replace (4 + (length c - 4))%nat with (length c) by lia.
    by rewrite Ht, <- fmap_drop.
  - rewrite length_take, length_drop. unfold X.
    rewrite length_app, length_drop, length_replicate. lia.
Qed.

Lemma xs_grow_promotion_shifts_content_witness :
  exists x' h' tail,
    xs_grow (new_in abcd_y18 heap_empty).1 300 (new_in abcd_y18 heap_empty).2
    = Ok (x', h') /\
    xs_content x' h' = Ok (map Some (replicate 18 121) ++ tail) /\
    length tail = 4%nat.
Proof.
  destruct (xs_grow_promotion_shifts_content (new_in abcd_y18 heap_empty).1 300
              (new_in abcd_y18 heap_empty).2 abcd_y18)
    as (x' & h' & tail & Hgrow & _ & _ & _ & Hc & Htail).
  - apply heap_okb_ok. vm_compute. reflexivity.
  - content_by_eval.
  - vm_compute. reflexivity.
  - vm_compute. reflexivity.
  - vm_compute. reflexivity.
  - vm_compute. split; [discriminate|reflexivity].
  - vm_compute. lia.
  - exists x', h', tail. split; [exact Hgrow|]. split; [exact Hc|exact Htail].
Defined.
